(** * github-mcp-proxy: the tool handlers of [src/index.ts]

    A shallow embedding of the MCP tool layer of the worker: the [ghFetch]
    helper, the thirteen tool handlers registered by [GitHubMCP.init] and the
    parts of the JavaScript runtime they rely on (strings of UTF-16 code
    units, [encodeURIComponent], [unescape], [btoa]/[atob], [JSON.parse],
    [JSON.stringify], property access and string conversion of parsed JSON).

    A handler is an [async] function that awaits [fetch] a bounded number of
    times; it is embedded as a finite interaction tree ([Prog]) whose nodes
    are the requests it issues, and it is run against a script of upstream
    responses.

    Limits of the embedding: the upstream always answers (a [fetch] that
    rejects is not represented); a response is its status and its body, a
    string; the arguments of a handler are those the schema of the tool
    accepts. *)

From Stdlib Require Import ZArith String Ascii Bool Lia DecimalString List.
Import ListNotations.
Local Open Scope Z_scope.

(** ** JavaScript strings *)

(** A JavaScript string is a sequence of UTF-16 code units. *)
Definition jsstring := list Z.

(** An ASCII source literal as a JavaScript string. *)
Definition lit (s : string) : jsstring :=
  List.map (fun a => Z.of_N (N_of_ascii a)) (list_ascii_of_string s).

Fixpoint jsstring_eqb (s t : jsstring) : bool :=
  match s, t with
  | [], [] => true
  | c :: s', d :: t' => (c =? d) && jsstring_eqb s' t'
  | _, _ => false
  end.

(** [String.prototype.startsWith]. *)
Fixpoint startsWith (s p : jsstring) : bool :=
  match p, s with
  | [], _ => true
  | d :: p', c :: s' => (c =? d) && startsWith s' p'
  | _ :: _, [] => false
  end.

(** [s.slice(0, n)] for a string (or an array) and [0 <= n]. *)
Definition slice0 {A : Type} (n : nat) (s : list A) : list A := firstn n s.

(** [Array.prototype.join] on an array of strings. *)
Fixpoint join (sep : jsstring) (l : list jsstring) : jsstring :=
  match l with
  | [] => []
  | [s] => s
  | s :: rest => s ++ sep ++ join sep rest
  end.

(** [String(n)] for a safe integer [n]. *)
Definition Number_toString (n : Z) : jsstring :=
  lit (NilZero.string_of_int (Z.to_int n)).

(** ** Numbers *)

(** A JavaScript number is a double.  The safe integers are kept as
    integers (with [-0] as [0]: no operation of the handlers tells them
    apart); [Double] holds every other double: [significand * 2 ^ exponent]
    with a significand from 1 below 2^53 and an exponent from -1074 to 971,
    or an infinity. *)
Inductive Double : Type :=
| Finite (negative : bool) (significand exponent : Z)
| Infinity (negative : bool).

(** The integer nearest to [n / d], the even one of two. *)
Definition round_half_even (n d : Z) : Z :=
  let q := n / d in
  match 2 * (n mod d) ?= d with
  | Lt => q
  | Gt => q + 1
  | Eq => if Z.even q then q else q + 1
  end.

(** [n / d < 10 ^ k], for positive [n] and [d]. *)
Definition below_power_of_ten (n d k : Z) : bool :=
  if 0 <=? k then n <? d * 10 ^ k else n * 10 ^ (- k) <? d.

(** The [b] with [2 ^ b <= n / d < 2 ^ (b + 1)]. *)
Definition binary_exponent (n d : Z) : Z :=
  let b := Z.log2 n - Z.log2 d in
  if (if 0 <=? b then d * 2 ^ b <=? n else d <=? n * 2 ^ (- b)) then b else b - 1.

(** The double nearest to the positive rational [n / d], ties to the even
    significand: its significand (below 2^53, [0] when the rational rounds
    to zero) and its exponent (from -1074); [None] beyond the largest
    double. *)
Definition nearest_double (n d : Z) : option (Z * Z) :=
  let e := Z.max (binary_exponent n d - 52) (-1074) in
  let q :=
    if 0 <=? e then round_half_even n (d * 2 ^ e)
    else round_half_even (n * 2 ^ (- e)) d in
  let e' := if q =? 2 ^ 53 then e + 1 else e in
  let q' := if q =? 2 ^ 53 then 2 ^ 52 else q in
  if 971 <? e' then None else Some (q', e').

(** The number of decimal digits of a positive integer. *)
Definition decimal_length (n : Z) : Z := Z.of_nat (length (Number_toString n)).

(** The [n] with [10 ^ (n - 1) <= q * 2 ^ e < 10 ^ n]. *)
Definition decimal_exponent (q e : Z) : Z :=
  if 0 <=? e then decimal_length (q * 2 ^ e)
  else if 2 ^ (- e) <=? q then decimal_length (q / 2 ^ (- e))
  else
    let n := 1 - decimal_length (2 ^ (- e) / q) in
    if below_power_of_ten q (2 ^ (- e)) n then n else n + 1.

(** The digits of [Number::toString] for the double [q * 2 ^ e]: the least
    number [k] of digits, from the one given, for which a decimal
    [s * 10 ^ (n - k)] of [k] digits reads back as the double, and of these
    decimals the nearest to it.  The result is [s], [n] and [k]. *)
Fixpoint shortest_digits (fuel : nat) (k : Z) (q e n : Z) : Z * Z * Z :=
  let num := if 0 <=? e then q * 2 ^ e else q in
  let den := if 0 <=? e then 1 else 2 ^ (- e) in
  let num' := if 0 <=? k - n then num * 10 ^ (k - n) else num in
  let den' := if 0 <=? k - n then den else den * 10 ^ (n - k) in
  let lo := num' / den' in
  let reads_back (c : Z * Z) :=
    match (if 0 <=? snd c - k
           then nearest_double (fst c * 10 ^ (snd c - k)) 1
           else nearest_double (fst c) (10 ^ (k - snd c))) with
    | Some (q', e') => (q' =? q) && (e' =? e)
    | None => false
    end in
  let low := (lo, n) in
  let high := if lo + 1 =? 10 ^ k then (10 ^ (k - 1), n + 1) else (lo + 1, n) in
  let nearest :=
    match 2 * num' ?= (2 * lo + 1) * den' with
    | Lt => low
    | Gt => high
    | Eq => if Z.even lo then low else high
    end in
  let low_reads_back := reads_back low in
  let high_reads_back := reads_back high in
  let found (c : Z * Z) := (fst c, snd c, k) in
  if low_reads_back && high_reads_back then found nearest
  else if low_reads_back then found low
  else if high_reads_back then found high
  else
    match fuel with
    | O => found nearest
    | S fuel' => shortest_digits fuel' (k + 1) q e n
    end.

Definition zeros (n : Z) : jsstring := repeat 48 (Z.to_nat n).

(** [Number::toString] for the positive double [q * 2 ^ e]: seventeen
    digits always read back. *)
Definition positive_toString (q e : Z) : jsstring :=
  let r := shortest_digits 16 1 q e (decimal_exponent q e) in
  let s := fst (fst r) in
  let n := snd (fst r) in
  let k := snd r in
  let digits := Number_toString s in
  if (k <=? n) && (n <=? 21) then digits ++ zeros (n - k)
  else if (0 <? n) && (n <=? 21)
  then firstn (Z.to_nat n) digits ++ lit "." ++ skipn (Z.to_nat n) digits
  else if (-6 <? n) && (n <=? 0) then lit "0." ++ zeros (- n) ++ digits
  else
    firstn 1 digits
    ++ (if k =? 1 then [] else lit "." ++ skipn 1 digits)
    ++ lit "e" ++ (if 0 <=? n - 1 then lit "+" else lit "-")
    ++ Number_toString (Z.abs (n - 1)).

(** [Number::toString]. *)
Definition Double_toString (x : Double) : jsstring :=
  match x with
  | Finite negative q e =>
      (if negative then lit "-" else []) ++ positive_toString q e
  | Infinity negative =>
      (if negative then lit "-" else []) ++ lit "Infinity"
  end.

(** ** Exceptions *)

(** The exceptions a handler can raise. *)
Inductive Error : Type :=
| SyntaxError
| TypeError
| URIError
| InvalidCharacterError.

Inductive Result (A : Type) : Type :=
| Ok (a : A)
| Throw (e : Error).
Arguments Ok {A} a.
Arguments Throw {A} e.

Definition rbind {A B : Type} (r : Result A) (k : A -> Result B) : Result B :=
  match r with
  | Ok a => k a
  | Throw e => Throw e
  end.

Declare Scope result_scope.
Delimit Scope result_scope with result.
Notation "x <- r ;; k" := (rbind r (fun x => k))
  (at level 61, r at next level, right associativity) : result_scope.

(** ** Character classes *)

Definition in_range (lo hi c : Z) : bool := (lo <=? c) && (c <=? hi).

Definition is_digit (c : Z) : bool := in_range 48 57 c.
Definition is_upper (c : Z) : bool := in_range 65 90 c.
Definition is_lower (c : Z) : bool := in_range 97 122 c.
Definition is_alnum (c : Z) : bool := is_digit c || is_upper c || is_lower c.

Definition is_hex_digit (c : Z) : bool :=
  is_digit c || in_range 65 70 c || in_range 97 102 c.

Definition hex_value (c : Z) : Z :=
  if is_digit c then c - 48
  else if in_range 65 70 c then c - 55
  else c - 87.

Definition hex_upper (n : Z) : Z := if n <? 10 then 48 + n else 55 + n.
Definition hex_lower (n : Z) : Z := if n <? 10 then 48 + n else 87 + n.

Definition is_high_surrogate (c : Z) : bool := in_range 55296 56319 c.
Definition is_low_surrogate (c : Z) : bool := in_range 56320 57343 c.

(** ** UTF-8 *)

(** The UTF-8 octets of a code point. *)
Definition utf8_octets (v : Z) : list Z :=
  if v <? 128 then [v]
  else if v <? 2048 then
    [Z.lor 192 (Z.shiftr v 6); Z.lor 128 (Z.land v 63)]
  else if v <? 65536 then
    [Z.lor 224 (Z.shiftr v 12);
     Z.lor 128 (Z.land (Z.shiftr v 6) 63);
     Z.lor 128 (Z.land v 63)]
  else
    [Z.lor 240 (Z.shiftr v 18);
     Z.lor 128 (Z.land (Z.shiftr v 12) 63);
     Z.lor 128 (Z.land (Z.shiftr v 6) 63);
     Z.lor 128 (Z.land v 63)].

(** The code point of a surrogate pair. *)
Definition pair_code_point (hi lo : Z) : Z :=
  (hi - 55296) * 1024 + (lo - 56320) + 65536.

(** ** [encodeURIComponent] and [unescape] *)

(** uriUnescaped: letters, digits and [- _ . ! ~ * ' ( )]. *)
Definition uriUnescaped (c : Z) : bool :=
  is_alnum c
  || existsb (Z.eqb c) [45; 95; 46; 33; 126; 42; 39; 40; 41].

Definition percent_upper (b : Z) : jsstring :=
  [37; hex_upper (Z.shiftr b 4); hex_upper (Z.land b 15)].

Definition percent_octets (bs : list Z) : jsstring :=
  flat_map percent_upper bs.

(** [encodeURIComponent]: unreserved code units are kept, every other code
    point becomes the [%XX] escapes of its UTF-8 octets, and an unpaired
    surrogate raises [URIError]. *)
Fixpoint encodeURIComponent (s : jsstring) : Result jsstring :=
  match s with
  | [] => Ok []
  | c :: rest =>
      if uriUnescaped c then
        (r <- encodeURIComponent rest ;; Ok (c :: r))%result
      else if is_low_surrogate c then Throw URIError
      else if negb (is_high_surrogate c) then
        (r <- encodeURIComponent rest ;;
         Ok (percent_octets (utf8_octets c) ++ r))%result
      else
        match rest with
        | [] => Throw URIError
        | k :: rest' =>
            if is_low_surrogate k then
              (r <- encodeURIComponent rest' ;;
               Ok (percent_octets (utf8_octets (pair_code_point c k)) ++ r))%result
            else Throw URIError
        end
  end.

(** [unescape]: [%uXXXX] and [%XX] become the code unit they name; any other
    code unit is kept. *)
Fixpoint unescape (s : jsstring) : jsstring :=
  match s with
  | [] => []
  | c :: rest =>
      let plain := c :: unescape rest in
      if negb (c =? 37) then plain
      else
        match rest with
        | a :: b :: r2 =>
            let two :=
              if is_hex_digit a && is_hex_digit b
              then (16 * hex_value a + hex_value b) :: unescape r2
              else plain in
            if a =? 117 then
              match r2 with
              | h2 :: h3 :: h4 :: r5 =>
                  if is_hex_digit b && is_hex_digit h2
                     && is_hex_digit h3 && is_hex_digit h4
                  then (4096 * hex_value b + 256 * hex_value h2
                        + 16 * hex_value h3 + hex_value h4) :: unescape r5
                  else two
              | _ => two
              end
            else two
        | _ => plain
        end
  end.

(** ** Base64: [btoa] and [atob] *)

Definition base64_char (n : Z) : Z :=
  if n <? 26 then 65 + n
  else if n <? 52 then 71 + n
  else if n <? 62 then n - 4
  else if n =? 62 then 43
  else 47.

Definition base64_value (c : Z) : option Z :=
  if is_upper c then Some (c - 65)
  else if is_lower c then Some (c - 71)
  else if is_digit c then Some (c + 4)
  else if c =? 43 then Some 62
  else if c =? 47 then Some 63
  else None.

Fixpoint base64_encode (bs : list Z) : jsstring :=
  match bs with
  | [] => []
  | [a] =>
      [base64_char (Z.shiftr a 2);
       base64_char (Z.shiftl (Z.land a 3) 4); 61; 61]
  | [a; b] =>
      [base64_char (Z.shiftr a 2);
       base64_char (Z.lor (Z.shiftl (Z.land a 3) 4) (Z.shiftr b 4));
       base64_char (Z.shiftl (Z.land b 15) 2); 61]
  | a :: b :: c :: rest =>
      base64_char (Z.shiftr a 2)
      :: base64_char (Z.lor (Z.shiftl (Z.land a 3) 4) (Z.shiftr b 4))
      :: base64_char (Z.lor (Z.shiftl (Z.land b 15) 2) (Z.shiftr c 6))
      :: base64_char (Z.land c 63)
      :: base64_encode rest
  end.

(** [btoa]: a code unit above 255 raises [InvalidCharacterError]. *)
Definition btoa (s : jsstring) : Result jsstring :=
  if forallb (fun c => c <=? 255) s then Ok (base64_encode s)
  else Throw InvalidCharacterError.

Definition is_ascii_whitespace (c : Z) : bool :=
  existsb (Z.eqb c) [9; 10; 12; 13; 32].

Fixpoint base64_values (s : jsstring) : option (list Z) :=
  match s with
  | [] => Some []
  | c :: rest =>
      match base64_value c, base64_values rest with
      | Some v, Some vs => Some (v :: vs)
      | _, _ => None
      end
  end.

Fixpoint base64_decode (vs : list Z) : list Z :=
  match vs with
  | a :: b :: c :: d :: rest =>
      Z.lor (Z.shiftl a 2) (Z.shiftr b 4)
      :: Z.lor (Z.shiftl (Z.land b 15) 4) (Z.shiftr c 2)
      :: Z.lor (Z.shiftl (Z.land c 3) 6) d
      :: base64_decode rest
  | [a; b; c] =>
      [Z.lor (Z.shiftl a 2) (Z.shiftr b 4);
       Z.lor (Z.shiftl (Z.land b 15) 4) (Z.shiftr c 2)]
  | [a; b] => [Z.lor (Z.shiftl a 2) (Z.shiftr b 4)]
  | _ => []
  end.

(** Remove one or two trailing [=] signs. *)
Definition strip_padding (s : jsstring) : jsstring :=
  match rev s with
  | c1 :: r1 =>
      if c1 =? 61 then
        match r1 with
        | c2 :: r2 => if c2 =? 61 then rev r2 else rev r1
        | [] => rev r1
        end
      else s
  | [] => s
  end.

(** [atob]: the forgiving base64 decoding of the HTML standard. *)
Definition atob (s : jsstring) : Result jsstring :=
  let data := filter (fun c => negb (is_ascii_whitespace c)) s in
  let data :=
    if Z.of_nat (length data) mod 4 =? 0 then strip_padding data else data in
  if Z.of_nat (length data) mod 4 =? 1 then Throw InvalidCharacterError
  else
    match base64_values data with
    | Some vs => Ok (base64_decode vs)
    | None => Throw InvalidCharacterError
    end.

(** [s.replace(/\n/g, '')]: every line feed removed. *)
Definition remove_newlines (s : jsstring) : jsstring :=
  filter (fun c => negb (c =? 10)) s.

(** ** JSON values *)

(** A parsed JSON document.  A number is [JNumber] when it is a safe
    integer and [JDouble] otherwise; an object keeps its properties in the
    order JavaScript enumerates them. *)
#[warnings="-register-all"]
Inductive JSON : Type :=
| JNull
| JBool (b : bool)
| JNumber (n : Z)
| JDouble (x : Double)
| JString (s : jsstring)
| JArray (items : list JSON)
| JObject (fields : list (jsstring * JSON)).

(** A JavaScript value read out of parsed JSON: [None] is [undefined]. *)
Definition Value := option JSON.

Fixpoint lookup (k : jsstring) (fs : list (jsstring * JSON)) : Value :=
  match fs with
  | [] => None
  | (k', v) :: rest => if jsstring_eqb k k' then Some v else lookup k rest
  end.

(** *** Property order of objects *)

Fixpoint digits_value (acc : Z) (s : jsstring) : Z :=
  match s with
  | [] => acc
  | c :: rest => digits_value (10 * acc + (c - 48)) rest
  end.

(** An array index: a canonical numeric string below 2^32 - 1. *)
Definition array_index (k : jsstring) : option Z :=
  match k with
  | [] => None
  | c :: rest =>
      if forallb is_digit k && (negb (c =? 48) || match rest with [] => true | _ => false end)
         && (length k <=? 10)%nat && (digits_value 0 k <? 4294967295)
      then Some (digits_value 0 k)
      else None
  end.

Fixpoint replace_field (k : jsstring) (v : JSON) (fs : list (jsstring * JSON))
  : list (jsstring * JSON) :=
  match fs with
  | [] => []
  | (k', v') :: rest =>
      if jsstring_eqb k k' then (k', v) :: rest
      else (k', v') :: replace_field k v rest
  end.

Fixpoint insert_index (i : Z) (k : jsstring) (v : JSON)
  (fs : list (jsstring * JSON)) : list (jsstring * JSON) :=
  match fs with
  | [] => [(k, v)]
  | (k', v') :: rest =>
      match array_index k' with
      | Some i' =>
          if i <? i' then (k, v) :: fs else (k', v') :: insert_index i k v rest
      | None => (k, v) :: fs
      end
  end.

(** Define property [k] of an object: an existing property keeps its place,
    a new array index goes among the indices in ascending order, any other
    new key goes last. *)
Definition set_field (k : jsstring) (v : JSON) (fs : list (jsstring * JSON))
  : list (jsstring * JSON) :=
  match lookup k fs with
  | Some _ => replace_field k v fs
  | None =>
      match array_index k with
      | Some i => insert_index i k v fs
      | None => fs ++ [(k, v)]
      end
  end.

(** ** [JSON.parse] *)

Definition is_json_ws (c : Z) : bool := existsb (Z.eqb c) [32; 9; 10; 13].

Fixpoint skip_ws (s : jsstring) : jsstring :=
  match s with
  | c :: rest => if is_json_ws c then skip_ws rest else s
  | [] => []
  end.

(** The characters of a string literal after its opening quote, and the
    input that follows the closing quote. *)
Fixpoint parse_string (s : jsstring) : Result (jsstring * jsstring) :=
  match s with
  | [] => Throw SyntaxError
  | c :: rest =>
      if c =? 34 then Ok ([], rest)
      else if c =? 92 then
        match rest with
        | [] => Throw SyntaxError
        | e :: r1 =>
            let simple (u : Z) :=
              (p <- parse_string r1 ;; Ok (u :: fst p, snd p))%result in
            if e =? 34 then simple 34
            else if e =? 92 then simple 92
            else if e =? 47 then simple 47
            else if e =? 98 then simple 8
            else if e =? 102 then simple 12
            else if e =? 110 then simple 10
            else if e =? 114 then simple 13
            else if e =? 116 then simple 9
            else if e =? 117 then
              match r1 with
              | h1 :: h2 :: h3 :: h4 :: r5 =>
                  if is_hex_digit h1 && is_hex_digit h2
                     && is_hex_digit h3 && is_hex_digit h4
                  then
                    (p <- parse_string r5 ;;
                     Ok ((4096 * hex_value h1 + 256 * hex_value h2
                          + 16 * hex_value h3 + hex_value h4) :: fst p,
                         snd p))%result
                  else Throw SyntaxError
              | _ => Throw SyntaxError
              end
            else Throw SyntaxError
        end
      else if c <? 32 then Throw SyntaxError
      else (p <- parse_string rest ;; Ok (c :: fst p, snd p))%result
  end.

(** The longest prefix of digits, and the rest. *)
Fixpoint span_digits (s : jsstring) : jsstring * jsstring :=
  match s with
  | c :: rest =>
      if is_digit c then let p := span_digits rest in (c :: fst p, snd p)
      else ([], s)
  | [] => ([], [])
  end.

(** The number a literal denotes: the double nearest to
    [digits * 10 ^ e10], negated for a minus sign.  A literal of [p] digits
    before the point is below [10 ^ p], and from [10 ^ (p - 1)]. *)
Definition number_value (negative : bool) (digits : jsstring) (e10 : Z) : JSON :=
  let m := digits_value 0 digits in
  if m =? 0 then JNumber 0
  else
    let p := decimal_length m + e10 in
    if 310 <? p then JDouble (Infinity negative)
    else if p <? -330 then JNumber 0
    else
      match (if 0 <=? e10 then nearest_double (m * 10 ^ e10) 1
             else nearest_double m (10 ^ (- e10))) with
      | None => JDouble (Infinity negative)
      | Some (q, e) =>
          if q =? 0 then JNumber 0
          else if (e <=? 0) && (q mod 2 ^ (- e) =? 0)
          then JNumber (if negative then - (q / 2 ^ (- e)) else q / 2 ^ (- e))
          else JDouble (Finite negative q e)
      end.

(** The fraction of a number literal: a point and at least one digit. *)
Definition parse_fraction (s : jsstring) : Result (jsstring * jsstring) :=
  match s with
  | c :: rest =>
      if c =? 46 then
        match fst (span_digits rest) with
        | [] => Throw SyntaxError
        | _ :: _ => Ok (span_digits rest)
        end
      else Ok ([], s)
  | [] => Ok ([], s)
  end.

(** The exponent of a number literal: [e] or [E], an optional sign and at
    least one digit. *)
Definition parse_exponent (s : jsstring) : Result (Z * jsstring) :=
  match s with
  | c :: rest =>
      if (c =? 101) || (c =? 69) then
        let negative := match rest with d :: _ => d =? 45 | [] => false end in
        let signed := match rest with d :: _ => (d =? 45) || (d =? 43) | [] => false end in
        let p := span_digits (if signed then skipn 1 rest else rest) in
        match fst p with
        | [] => Throw SyntaxError
        | _ :: _ =>
            Ok (if negative then - digits_value 0 (fst p) else digits_value 0 (fst p),
                snd p)
        end
      else Ok (0, s)
  | [] => Ok (0, s)
  end.

(** A number literal, after an optional minus sign: an integer part
    without a leading zero, a fraction and an exponent. *)
Definition parse_number (negative : bool) (s : jsstring)
  : Result (JSON * jsstring) :=
  let p := span_digits s in
  match fst p with
  | [] => Throw SyntaxError
  | d :: ds =>
      let rest := if (d =? 48) then ds ++ snd p else snd p in
      let int_digits := if (d =? 48) then [d] else fst p in
      (f <- parse_fraction rest ;;
       x <- parse_exponent (snd f) ;;
       Ok (number_value negative (int_digits ++ fst f)
             (fst x - Z.of_nat (length (fst f))),
           snd x))%result
  end.

Definition expect (word : jsstring) (v : JSON) (s : jsstring)
  : Result (JSON * jsstring) :=
  if startsWith s word then Ok (v, skipn (length word) s)
  else Throw SyntaxError.

(** The input after the character [c], when the input starts with it. *)
Definition after_char (c : Z) (s : jsstring) : option jsstring :=
  match s with
  | d :: rest => if d =? c then Some rest else None
  | [] => None
  end.

(** Recursive descent.  The fuel bounds the nesting and the number of
    elements; [JSON_parse] supplies enough of it for the whole input, so
    that the parser never runs out of it. *)
Fixpoint parse_value (fuel : nat) (s : jsstring) : Result (JSON * jsstring) :=
  match fuel with
  | O => Throw SyntaxError
  | S fuel' =>
      match skip_ws s with
      | [] => Throw SyntaxError
      | c :: rest =>
          if c =? 123 then
            match after_char 125 (skip_ws rest) with
            | Some r => Ok (JObject [], r)
            | None => parse_members fuel' [] rest
            end
          else if c =? 91 then
            match after_char 93 (skip_ws rest) with
            | Some r => Ok (JArray [], r)
            | None => parse_elements fuel' [] rest
            end
          else if c =? 34 then
            (p <- parse_string rest ;; Ok (JString (fst p), snd p))%result
          else if c =? 116 then expect (lit "true") (JBool true) (c :: rest)
          else if c =? 102 then expect (lit "false") (JBool false) (c :: rest)
          else if c =? 110 then expect (lit "null") JNull (c :: rest)
          else if c =? 45 then parse_number true rest
          else if is_digit c then parse_number false (c :: rest)
          else Throw SyntaxError
      end
  end

with parse_elements (fuel : nat) (acc : list JSON) (s : jsstring)
  : Result (JSON * jsstring) :=
  match fuel with
  | O => Throw SyntaxError
  | S fuel' =>
      (p <- parse_value fuel' s ;;
       match skip_ws (snd p) with
       | c :: rest =>
           if c =? 44 then parse_elements fuel' (acc ++ [fst p]) rest
           else if c =? 93 then Ok (JArray (acc ++ [fst p]), rest)
           else Throw SyntaxError
       | [] => Throw SyntaxError
       end)%result
  end

with parse_members (fuel : nat) (acc : list (jsstring * JSON)) (s : jsstring)
  : Result (JSON * jsstring) :=
  match fuel with
  | O => Throw SyntaxError
  | S fuel' =>
      match after_char 34 (skip_ws s) with
      | Some r0 =>
          (k <- parse_string r0 ;;
           match after_char 58 (skip_ws (snd k)) with
           | Some r1 =>
               p <- parse_value fuel' r1 ;;
               match skip_ws (snd p) with
               | c :: rest =>
                   if c =? 44
                   then parse_members fuel' (set_field (fst k) (fst p) acc) rest
                   else if c =? 125
                   then Ok (JObject (set_field (fst k) (fst p) acc), rest)
                   else Throw SyntaxError
               | [] => Throw SyntaxError
               end
           | None => Throw SyntaxError
           end)%result
      | None => Throw SyntaxError
      end
  end.

(** [JSON.parse]: one value, surrounded by white space only. *)
Definition JSON_parse (s : jsstring) : Result JSON :=
  (p <- parse_value (2 * length s + 2) s ;;
   match skip_ws (snd p) with
   | [] => Ok (fst p)
   | _ :: _ => Throw SyntaxError
   end)%result.

(** ** [JSON.stringify] *)

Definition hex4_lower (c : Z) : jsstring :=
  [hex_lower (Z.land (Z.shiftr c 12) 15); hex_lower (Z.land (Z.shiftr c 8) 15);
   hex_lower (Z.land (Z.shiftr c 4) 15); hex_lower (Z.land c 15)].

Definition unicode_escape (c : Z) : jsstring := [92; 117] ++ hex4_lower c.

(** The body of QuoteJSONString. *)
Fixpoint quote_chars (s : jsstring) : jsstring :=
  match s with
  | [] => []
  | c :: rest =>
      if c =? 8 then [92; 98] ++ quote_chars rest
      else if c =? 9 then [92; 116] ++ quote_chars rest
      else if c =? 10 then [92; 110] ++ quote_chars rest
      else if c =? 12 then [92; 102] ++ quote_chars rest
      else if c =? 13 then [92; 114] ++ quote_chars rest
      else if c =? 34 then [92; 34] ++ quote_chars rest
      else if c =? 92 then [92; 92] ++ quote_chars rest
      else if c <? 32 then unicode_escape c ++ quote_chars rest
      else if is_low_surrogate c then unicode_escape c ++ quote_chars rest
      else if is_high_surrogate c then
        match rest with
        | k :: rest' =>
            if is_low_surrogate k then c :: k :: quote_chars rest'
            else unicode_escape c ++ quote_chars rest
        | [] => unicode_escape c
        end
      else c :: quote_chars rest
  end.

Definition quote (s : jsstring) : jsstring := [34] ++ quote_chars s ++ [34].

Fixpoint JSON_stringify (j : JSON) : jsstring :=
  match j with
  | JNull => lit "null"
  | JBool true => lit "true"
  | JBool false => lit "false"
  | JNumber n => Number_toString n
  | JDouble (Finite _ _ _ as x) => Double_toString x
  | JDouble (Infinity _) => lit "null"
  | JString s => quote s
  | JArray items =>
      lit "[" ++ join (lit ",") (List.map JSON_stringify items) ++ lit "]"
  | JObject fields =>
      lit "{"
      ++ join (lit ",")
           (List.map (fun kv => quote (fst kv) ++ lit ":" ++ JSON_stringify (snd kv))
              fields)
      ++ lit "}"
  end.

(** ** Reading parsed JSON the way JavaScript does *)

(** [v.k], for the property names the handlers read: none of them is a
    method or an inherited property, and [length] is the only one a string
    or an array has.  Reading a property of [undefined] or [null] raises
    [TypeError]. *)
Definition prop (v : Value) (k : jsstring) : Result Value :=
  match v with
  | None | Some JNull => Throw TypeError
  | Some (JObject fields) => Ok (lookup k fields)
  | Some (JArray items) =>
      if jsstring_eqb k (lit "length")
      then Ok (Some (JNumber (Z.of_nat (length items))))
      else Ok None
  | Some (JString s) =>
      if jsstring_eqb k (lit "length")
      then Ok (Some (JNumber (Z.of_nat (length s))))
      else Ok None
  | Some (JBool _) | Some (JNumber _) | Some (JDouble _) => Ok None
  end.

(** [v?.k]. *)
Definition optional_prop (v : Value) (k : jsstring) : Result Value :=
  match v with
  | None | Some JNull => Ok None
  | _ => prop v k
  end.

(** ToBoolean. *)
Definition truthy (v : Value) : bool :=
  match v with
  | None | Some JNull => false
  | Some (JBool b) => b
  | Some (JNumber n) => negb (n =? 0)
  | Some (JDouble (Finite _ q _)) => negb (q =? 0)
  | Some (JDouble (Infinity _)) => true
  | Some (JString s) => match s with [] => false | _ => true end
  | Some (JArray _) | Some (JObject _) => true
  end.

(** [mapM] for [Result]: the callback of [Array.prototype.map] may throw. *)
Fixpoint map_result {A B : Type} (f : A -> Result B) (l : list A)
  : Result (list B) :=
  match l with
  | [] => Ok []
  | a :: rest =>
      (b <- f a ;; r <- map_result f rest ;; Ok (b :: r))%result
  end.

(** ToString of a parsed value.  An object of parsed JSON prints through
    [Object.prototype.toString], unless it has a member [toString] of its
    own: a parsed member is never a function, [valueOf] gives no primitive
    either, and the conversion raises [TypeError].  An array prints its
    elements, [null] as the empty string, separated by commas. *)
Fixpoint JSON_toString (j : JSON) : Result jsstring :=
  match j with
  | JNull => Ok (lit "null")
  | JBool true => Ok (lit "true")
  | JBool false => Ok (lit "false")
  | JNumber n => Ok (Number_toString n)
  | JDouble x => Ok (Double_toString x)
  | JString s => Ok s
  | JArray items =>
      (parts <- map_result (fun e => match e with
                                     | JNull => Ok []
                                     | _ => JSON_toString e
                                     end) items ;;
       Ok (join (lit ",") parts))%result
  | JObject fields =>
      match lookup (lit "toString") fields with
      | Some _ => Throw TypeError
      | None => Ok (lit "[object Object]")
      end
  end.

(** The string a template literal or [+] gives for a value. *)
Definition toString (v : Value) : Result jsstring :=
  match v with
  | None => Ok (lit "undefined")
  | Some j => JSON_toString j
  end.

(** [v === "s"]. *)
Definition strict_equals_string (v : Value) (s : jsstring) : bool :=
  match v with
  | Some (JString t) => jsstring_eqb t s
  | _ => false
  end.

(** [v === n]. *)
Definition strict_equals_number (v : Value) (n : Z) : bool :=
  match v with
  | Some (JNumber m) => m =? n
  | Some (JDouble (Finite negative q e)) =>
      if 0 <=? e then (if negative then - q else q) * 2 ^ e =? n
      else (if negative then - q else q) =? n * 2 ^ (- e)
  | _ => false
  end.

(** [Array.isArray(v)]. *)
Definition isArray (v : Value) : bool :=
  match v with
  | Some (JArray _) => true
  | _ => false
  end.

(** The receiver of [v.map(...)], [v.filter(...)]: only an array has these
    methods, on anything else the call raises [TypeError]. *)
Definition array_receiver (v : Value) : Result (list JSON) :=
  match v with
  | Some (JArray items) => Ok items
  | _ => Throw TypeError
  end.

(** The receiver of [v.startsWith(...)], [v.replace(...)]: only a string has
    these methods. *)
Definition string_receiver (v : Value) : Result jsstring :=
  match v with
  | Some (JString s) => Ok s
  | _ => Throw TypeError
  end.

(** [v.slice(0, n)]: strings and arrays have the method. *)
Definition slice_method (v : Value) (n : nat) : Result Value :=
  match v with
  | Some (JString s) => Ok (Some (JString (slice0 n s)))
  | Some (JArray items) => Ok (Some (JArray (slice0 n items)))
  | _ => Throw TypeError
  end.

(** [v?.slice(0, n)]. *)
Definition optional_slice_method (v : Value) (n : nat) : Result Value :=
  match v with
  | None | Some JNull => Ok None
  | _ => slice_method v n
  end.

(** [Array.prototype.join] on an array of values: [undefined] and [null]
    print as the empty string, any other value as its string. *)
Definition toString_or_empty (v : Value) : Result jsstring :=
  match v with
  | None | Some JNull => Ok []
  | Some j => JSON_toString j
  end.

Definition join_values (sep : jsstring) (l : list Value) : Result jsstring :=
  (parts <- map_result toString_or_empty l ;; Ok (join sep parts))%result.

(** [Array.prototype.filter] with a callback that may throw. *)
Fixpoint filter_result {A : Type} (f : A -> Result bool) (l : list A)
  : Result (list A) :=
  match l with
  | [] => Ok []
  | a :: rest =>
      (b <- f a ;; r <- filter_result f rest ;;
       Ok (if b then a :: r else r))%result
  end.

(** [s || d] for an optional string argument. *)
Definition or_default (s : option jsstring) (d : jsstring) : jsstring :=
  match s with
  | Some (c :: r) => c :: r
  | _ => d
  end.

(** Truthiness of an optional string argument. *)
Definition nonempty (s : option jsstring) : bool :=
  match s with
  | Some (_ :: _) => true
  | _ => false
  end.

(** ** The upstream interface *)

Definition OWNER : jsstring := lit "adamcfield".
Definition REPO : jsstring := lit "rightcraft-io".
Definition API : jsstring := lit "https://api.github.com".

(** The second argument of [fetch]. *)
Record RequestInit : Type := {
  method : option jsstring;
  body : option jsstring;
  headers : list (jsstring * jsstring)
}.

(** One call of [fetch]. *)
Record Request : Type := {
  url : jsstring;
  init : RequestInit
}.

(** What a handler reads of a [Response]: its status and its body. *)
Record Response : Type := {
  status : Z;
  payload : jsstring
}.

(** [res.ok]. *)
Definition ok (res : Response) : bool := in_range 200 299 (status res).

(** [await res.text()]. *)
Definition text (res : Response) : jsstring := payload res.

(** [await res.json()]. *)
Definition json (res : Response) : Result JSON := JSON_parse (payload res).

(** ** Handlers as interaction trees *)

(** The result envelope of a tool. *)
Inductive Content : Type :=
| TextContent (text : jsstring).

Record Envelope : Type := {
  content : list Content;
  isError : option bool
}.

(** An [async] function: it returns or throws, or awaits one [fetch] and
    goes on with the response. *)
Inductive Prog (A : Type) : Type :=
| Return (r : Result A)
| Fetch (req : Request) (k : Response -> Prog A).
Arguments Return {A} r.
Arguments Fetch {A} req k.

Fixpoint pbind {A B : Type} (p : Prog A) (k : A -> Prog B) : Prog B :=
  match p with
  | Return (Ok a) => k a
  | Return (Throw e) => Return (Throw e)
  | Fetch req k' => Fetch req (fun res => pbind (k' res) k)
  end.

Definition lift {A : Type} (r : Result A) : Prog A := Return r.
Definition ret {A : Type} (a : A) : Prog A := Return (Ok a).

Declare Scope prog_scope.
Delimit Scope prog_scope with prog.
Notation "x <~ p ;; k" := (pbind p (fun x => k))
  (at level 61, p at next level, right associativity) : prog_scope.

(** Run a handler against the responses the upstream gives, in order: the
    requests issued, and the outcome ([None] when the handler is still
    waiting for a response the script does not have). *)
Fixpoint run {A : Type} (p : Prog A) (script : list Response)
  : list Request * option (Result A) :=
  match p with
  | Return r => ([], Some r)
  | Fetch req k =>
      match script with
      | [] => ([req], None)
      | res :: script' =>
          let out := run (k res) script' in
          (req :: fst out, snd out)
      end
  end.

(** [options.headers], a [HeadersInit]: a plain object, a [Headers]
    instance, or an array of name and value pairs. *)
Inductive HeadersInit : Type :=
| HeadersRecord (entries : list (jsstring * jsstring))
| HeadersInstance (entries : list (jsstring * jsstring))
| HeadersPairs (pairs : list (list jsstring)).

(** The indices of an array with its elements. *)
Fixpoint indexed {A : Type} (i : Z) (l : list A) : list (jsstring * A) :=
  match l with
  | [] => []
  | a :: rest => (Number_toString i, a) :: indexed (i + 1) rest
  end.

(** The properties an object spread copies, with the string [fetch] reads
    of each value: the entries of a plain object; nothing of a [Headers]
    instance, which keeps its entries in an internal list; the indices of
    an array, each with its pair, of which the string is the elements
    separated by commas. *)
Definition own_properties (h : HeadersInit) : list (jsstring * jsstring) :=
  match h with
  | HeadersRecord entries => entries
  | HeadersInstance _ => []
  | HeadersPairs pairs => indexed 0 (List.map (join (lit ",")) pairs)
  end.

(** Object spread of [extra] over [base]. *)
Fixpoint spread (base extra : list (jsstring * jsstring))
  : list (jsstring * jsstring) :=
  match extra with
  | [] => base
  | (k, v) :: rest =>
      let replace :=
        fix replace (l : list (jsstring * jsstring)) : option (list (jsstring * jsstring)) :=
          match l with
          | [] => None
          | (k', v') :: l' =>
              if jsstring_eqb k k' then Some ((k', v) :: l')
              else match replace l' with
                   | Some r => Some ((k', v') :: r)
                   | None => None
                   end
          end in
      spread (match replace base with
              | Some b => b
              | None => base ++ [(k, v)]
              end) rest
  end.

(** [options = {}] and the options the handlers pass. *)
Record Options : Type := {
  opt_method : option jsstring;
  opt_body : option jsstring;
  opt_headers : option HeadersInit
}.

Definition no_options : Options :=
  {| opt_method := None; opt_body := None; opt_headers := None |}.

Definition with_body (m : string) (b : jsstring) : Options :=
  {| opt_method := Some (lit m); opt_body := Some b; opt_headers := None |}.

(** The [fetch] call of [ghFetch(path, pat, options)]: the fixed headers,
    overridden key by key by the caller's. *)
Definition ghFetch_request (path : jsstring) (pat : option jsstring)
  (options : Options) : Request :=
  {| url := if startsWith path (lit "http") then path else API ++ path;
     init :=
       {| method := opt_method options;
          body := opt_body options;
          headers :=
            spread
              [(lit "Authorization",
                 lit "Bearer " ++ match pat with
                                  | Some p => p
                                  | None => lit "undefined"
                                  end);
               (lit "Accept", lit "application/vnd.github+json");
               (lit "X-GitHub-Api-Version", lit "2022-11-28");
               (lit "User-Agent", lit "github-mcp-worker/1.0")]
              (match opt_headers options with
               | Some h => own_properties h
               | None => []
               end) |} |}.

(** [ghFetch(path, pat, options)]. *)
Definition ghFetch (path : jsstring) (pat : option jsstring) (options : Options)
  : Prog Response :=
  Fetch (ghFetch_request path pat options) (fun res => Return (Ok res)).

(** [{ content: [{ type: "text", text }], isError: true }]. *)
Definition error_envelope (t : jsstring) : Envelope :=
  {| content := [TextContent t]; isError := Some true |}.

(** [{ content: [{ type: "text", text }] }]. *)
Definition text_envelope (t : jsstring) : Envelope :=
  {| content := [TextContent t]; isError := None |}.

(** The [if (!res.ok)] block shared by the handlers. *)
Definition upstream_error (res : Response) : Envelope :=
  error_envelope
    (lit "Error " ++ Number_toString (status res) ++ lit ": " ++ text res).

(** ** The tool handlers of [GitHubMCP.init] *)

Section Handlers.

(** [const pat = (this.env as Env).GITHUB_PAT], [None] when the secret is
    not configured. *)
Variable pat : option jsstring.

Local Open Scope prog_scope.

(** The line feed of the [\n] escapes. *)
Definition nl : jsstring := [10].

Definition repo_path (rest : jsstring) : jsstring :=
  lit "/repos/" ++ OWNER ++ lit "/" ++ REPO ++ rest.

(** *** read_file *)

Record ReadFileArgs : Type := {
  rf_path : jsstring;
  rf_branch : option jsstring
}.

Definition not_a_file (path : jsstring) : Envelope :=
  error_envelope
    (lit "Path '" ++ path
     ++ lit "' is a directory, not a file. Use list_files instead.").

Definition read_file (a : ReadFileArgs) : Prog Envelope :=
  let path := rf_path a in
  let ref := or_default (rf_branch a) (lit "main") in
  p <~ lift (encodeURIComponent path) ;;
  res <~ ghFetch (repo_path (lit "/contents/" ++ p ++ lit "?ref=" ++ ref))
         pat no_options ;;
  if negb (ok res) then ret (upstream_error res)
  else
    data <~ lift (json res) ;;
    type <~ lift (prop (Some data) (lit "type")) ;;
    if negb (strict_equals_string type (lit "file")) then ret (not_a_file path)
    else
      content <~ lift (prop (Some data) (lit "content")) ;;
      if negb (truthy content) then ret (not_a_file path)
      else
        s <~ lift (string_receiver content) ;;
        decoded <~ lift (atob (remove_newlines s)) ;;
        ret (text_envelope decoded).

(** *** write_file *)

Record WriteFileArgs : Type := {
  wf_path : jsstring;
  wf_content : jsstring;
  wf_message : jsstring;
  wf_branch : option jsstring
}.

(** The [body] object of the PUT: [sha] is set only when it is truthy. *)
Definition write_file_body (message content ref : jsstring) (sha : Value)
  : JSON :=
  JObject
    ([(lit "message", JString message);
      (lit "content", JString content);
      (lit "branch", JString ref)]
     ++ match sha with
        | Some j => if truthy sha then [(lit "sha", j)] else []
        | None => []
        end).

(** [let sha; if (existing.ok) { sha = (await existing.json()).sha }]: the
    version token the existence check yields. *)
Definition existing_sha (existing : Response) : Result Value :=
  if ok existing
  then (data <- json existing ;; prop (Some data) (lit "sha"))%result
  else Ok None.

(** [result.commit?.sha?.slice(0, 7) || "unknown"]. *)
Definition commit_label (result : JSON) : Result jsstring :=
  (commit <- prop (Some result) (lit "commit") ;;
   commit_sha <- optional_prop commit (lit "sha") ;;
   short <- optional_slice_method commit_sha 7 ;;
   if truthy short then toString short else Ok (lit "unknown"))%result.

Definition write_file (a : WriteFileArgs) : Prog Envelope :=
  let path := wf_path a in
  let ref := or_default (wf_branch a) (lit "main") in
  p <~ lift (encodeURIComponent path) ;;
  existing <~ ghFetch (repo_path (lit "/contents/" ++ p ++ lit "?ref=" ++ ref))
              pat no_options ;;
  sha <~ lift (existing_sha existing) ;;
  escaped <~ lift (encodeURIComponent (wf_content a)) ;;
  encoded <~ lift (btoa (unescape escaped)) ;;
  let body := write_file_body (wf_message a) encoded ref sha in
  p' <~ lift (encodeURIComponent path) ;;
  res <~ ghFetch (repo_path (lit "/contents/" ++ p'))
         pat (with_body "PUT" (JSON_stringify body)) ;;
  if negb (ok res) then ret (upstream_error res)
  else
    result <~ lift (json res) ;;
    label <~ lift (commit_label result) ;;
    ret (text_envelope
           (lit "File " ++ (if truthy sha then lit "updated" else lit "created")
            ++ lit ": " ++ path ++ lit " (commit: " ++ label ++ lit ")")).

(** *** list_files *)

Record ListFilesArgs : Type := {
  lf_path : option jsstring;
  lf_branch : option jsstring
}.

Definition folder_glyph : jsstring := [55357; 56513].
Definition page_glyph : jsstring := [55357; 56516].

Definition list_files_line (item : JSON) : Result jsstring :=
  (type <- prop (Some item) (lit "type") ;;
   let icon :=
     if strict_equals_string type (lit "dir") then folder_glyph else page_glyph in
   size <- prop (Some item) (lit "size") ;;
   size_text <-
     (if truthy size
      then bytes <- toString size ;; Ok (lit " (" ++ bytes ++ lit "B)")
      else Ok []) ;;
   path <- prop (Some item) (lit "path") ;;
   path_text <- toString path ;;
   Ok (icon ++ lit " " ++ path_text ++ size_text))%result.

Definition list_files (a : ListFilesArgs) : Prog Envelope :=
  let ref := or_default (lf_branch a) (lit "main") in
  let dirPath := or_default (lf_path a) [] in
  url <~ (match dirPath with
          | _ :: _ =>
              p <~ lift (encodeURIComponent dirPath) ;;
              ret (repo_path (lit "/contents/" ++ p ++ lit "?ref=" ++ ref))
          | [] => ret (repo_path (lit "/contents/?ref=" ++ ref))
          end) ;;
  res <~ ghFetch url pat no_options ;;
  if negb (ok res) then ret (upstream_error res)
  else
    items <~ lift (json res) ;;
    match items with
    | JArray l =>
        lines <~ lift (map_result list_files_line l) ;;
        let listing := join nl lines in
        ret (text_envelope
               (match listing with
                | [] => lit "(empty directory)"
                | _ :: _ => listing
                end))
    | _ =>
        ret (error_envelope
               (lit "Path '" ++ dirPath
                ++ lit "' is a file, not a directory. Use read_file instead."))
    end.

(** *** search_files *)

Record SearchFilesArgs : Type := {
  sf_query : jsstring
}.

Definition search_files (a : SearchFilesArgs) : Prog Envelope :=
  let query := sf_query a in
  q <~ lift (encodeURIComponent
               (query ++ lit " repo:" ++ OWNER ++ lit "/" ++ REPO)) ;;
  res <~ ghFetch (lit "/search/code?q=" ++ q ++ lit "&per_page=20")
         pat no_options ;;
  if negb (ok res) then ret (upstream_error res)
  else
    data <~ lift (json res) ;;
    total_count <~ lift (prop (Some data) (lit "total_count")) ;;
    if strict_equals_number total_count 0
    then ret (text_envelope (lit "No results found for: " ++ query))
    else
      items <~ lift (prop (Some data) (lit "items")) ;;
      l <~ lift (array_receiver items) ;;
      lines <~ lift (map_result
                       (fun item =>
                          (path <- prop (Some item) (lit "path") ;;
                           path_text <- toString path ;;
                           Ok (lit "  " ++ path_text))%result) l) ;;
      count <~ lift (toString total_count) ;;
      ret (text_envelope
             (lit "Found " ++ count ++ lit " result(s):" ++ nl
              ++ join nl lines)).

(** *** list_branches *)

Definition list_branches_line (b : JSON) : Result jsstring :=
  (name <- prop (Some b) (lit "name") ;;
   name_text <- toString name ;;
   commit <- prop (Some b) (lit "commit") ;;
   sha <- prop commit (lit "sha") ;;
   short <- slice_method sha 7 ;;
   short_text <- toString short ;;
   Ok (lit "  " ++ name_text ++ lit " (" ++ short_text ++ lit ")"))%result.

Definition list_branches (_ : unit) : Prog Envelope :=
  res <~ ghFetch (repo_path (lit "/branches?per_page=30")) pat no_options ;;
  if negb (ok res) then ret (upstream_error res)
  else
    branches <~ lift (json res) ;;
    l <~ lift (array_receiver (Some branches)) ;;
    lines <~ lift (map_result list_branches_line l) ;;
    ret (text_envelope (lit "Branches:" ++ nl ++ join nl lines)).

(** *** get_file_tree *)

Record GetFileTreeArgs : Type := {
  ft_branch : option jsstring;
  ft_path_prefix : option jsstring
}.

(** [(e) => e.type === "blob"]. *)
Definition is_blob (e : JSON) : Result bool :=
  (type <- prop (Some e) (lit "type") ;;
   Ok (strict_equals_string type (lit "blob")))%result.

(** [(e) => e.path.startsWith(path_prefix)]. *)
Definition under_prefix (path_prefix : jsstring) (e : JSON) : Result bool :=
  (path <- prop (Some e) (lit "path") ;;
   s <- string_receiver path ;;
   Ok (startsWith s path_prefix))%result.

Definition truncated_warning : jsstring :=
  nl ++ nl ++ lit "(tree was truncated " ++ [8212] ++ lit " repo has many files)".

(** The part of [get_file_tree] after the three requests. *)
Definition render_tree (path_prefix : option jsstring) (treeData : JSON)
  : Result Envelope :=
  (tree <- prop (Some treeData) (lit "tree") ;;
   all <- array_receiver tree ;;
   blobs <- filter_result is_blob all ;;
   entries <- (match path_prefix with
               | Some (c :: r) => filter_result (under_prefix (c :: r)) blobs
               | _ => Ok blobs
               end) ;;
   paths <- map_result (fun e => prop (Some e) (lit "path")) entries ;;
   listing <- join_values nl paths ;;
   truncated <- prop (Some treeData) (lit "truncated") ;;
   let suffix := if truthy truncated then truncated_warning else [] in
   Ok (text_envelope
         (Number_toString (Z.of_nat (length entries)) ++ lit " files"
          ++ (match path_prefix with
              | Some (c :: r) => lit " under '" ++ (c :: r) ++ lit "'"
              | _ => []
              end)
          ++ lit ":" ++ nl ++ listing ++ suffix)))%result.

Definition get_file_tree (a : GetFileTreeArgs) : Prog Envelope :=
  let ref := or_default (ft_branch a) (lit "main") in
  refRes <~ ghFetch (repo_path (lit "/git/ref/heads/" ++ ref)) pat no_options ;;
  if negb (ok refRes) then ret (upstream_error refRes)
  else
    refData <~ lift (json refRes) ;;
    object <~ lift (prop (Some refData) (lit "object")) ;;
    ref_sha <~ lift (prop object (lit "sha")) ;;
    ref_sha_text <~ lift (toString ref_sha) ;;
    commitRes <~ ghFetch (repo_path (lit "/git/commits/" ++ ref_sha_text))
                 pat no_options ;;
    if negb (ok commitRes) then ret (upstream_error commitRes)
    else
      commitData <~ lift (json commitRes) ;;
      commit_tree <~ lift (prop (Some commitData) (lit "tree")) ;;
      tree_sha <~ lift (prop commit_tree (lit "sha")) ;;
      tree_sha_text <~ lift (toString tree_sha) ;;
      treeRes <~ ghFetch
                 (repo_path (lit "/git/trees/" ++ tree_sha_text
                             ++ lit "?recursive=1"))
                 pat no_options ;;
      if negb (ok treeRes) then ret (upstream_error treeRes)
      else
        treeData <~ lift (json treeRes) ;;
        lift (render_tree (ft_path_prefix a) treeData).

(** *** list_prs *)

Inductive PrState : Type := StateOpen | StateClosed | StateAll.

Definition PrState_name (s : PrState) : jsstring :=
  match s with
  | StateOpen => lit "open"
  | StateClosed => lit "closed"
  | StateAll => lit "all"
  end.

Record ListPrsArgs : Type := {
  lp_state : option PrState;
  lp_base : option jsstring;
  lp_head : option jsstring
}.

Definition replacement_character : Z := 65533.

(** The percent-encoding of [URLSearchParams]: letters, digits and [* - . _]
    are kept, a space becomes [+], an unpaired surrogate is replaced by
    U+FFFD, and every other code point is escaped octet by octet. *)
Fixpoint form_urlencode (s : jsstring) : jsstring :=
  match s with
  | [] => []
  | c :: rest =>
      if is_alnum c || existsb (Z.eqb c) [42; 45; 46; 95]
      then c :: form_urlencode rest
      else if c =? 32 then 43 :: form_urlencode rest
      else if is_low_surrogate c
      then percent_octets (utf8_octets replacement_character)
           ++ form_urlencode rest
      else if is_high_surrogate c then
        match rest with
        | k :: rest' =>
            if is_low_surrogate k
            then percent_octets (utf8_octets (pair_code_point c k))
                 ++ form_urlencode rest'
            else percent_octets (utf8_octets replacement_character)
                 ++ form_urlencode rest
        | [] => percent_octets (utf8_octets replacement_character)
        end
      else percent_octets (utf8_octets c) ++ form_urlencode rest
  end.

(** [URLSearchParams.prototype.toString]. *)
Definition URLSearchParams_toString (params : list (jsstring * jsstring))
  : jsstring :=
  join (lit "&")
    (List.map (fun kv => form_urlencode (fst kv) ++ lit "=" ++ form_urlencode (snd kv))
       params).

Definition list_prs_line (pr : JSON) : Result jsstring :=
  (number <- prop (Some pr) (lit "number") ;;
   number_text <- toString number ;;
   draft <- prop (Some pr) (lit "draft") ;;
   state <- prop (Some pr) (lit "state") ;;
   state_text <- toString state ;;
   title <- prop (Some pr) (lit "title") ;;
   title_text <- toString title ;;
   head <- prop (Some pr) (lit "head") ;;
   head_ref <- prop head (lit "ref") ;;
   head_text <- toString head_ref ;;
   base <- prop (Some pr) (lit "base") ;;
   base_ref <- prop base (lit "ref") ;;
   base_text <- toString base_ref ;;
   user <- prop (Some pr) (lit "user") ;;
   login <- prop user (lit "login") ;;
   login_text <- toString login ;;
   created_at <- prop (Some pr) (lit "created_at") ;;
   created <- slice_method created_at 10 ;;
   created_text <- toString created ;;
   html_url <- prop (Some pr) (lit "html_url") ;;
   url_text <- toString html_url ;;
   Ok (lit "#" ++ number_text
       ++ (if truthy draft then lit " [DRAFT]" else [])
       ++ lit " [" ++ state_text ++ lit "] " ++ title_text ++ nl
       ++ lit "  " ++ head_text ++ lit " " ++ [8594] ++ lit " "
       ++ base_text ++ lit " by @" ++ login_text
       ++ lit " (" ++ created_text ++ lit ")" ++ nl
       ++ lit "  " ++ url_text))%result.

Definition list_prs (a : ListPrsArgs) : Prog Envelope :=
  let state :=
    match lp_state a with Some s => PrState_name s | None => lit "open" end in
  let params :=
    [(lit "state", state); (lit "per_page", lit "50")]
    ++ (if nonempty (lp_base a) then [(lit "base", or_default (lp_base a) [])] else [])
    ++ (if nonempty (lp_head a) then [(lit "head", or_default (lp_head a) [])] else []) in
  res <~ ghFetch (repo_path (lit "/pulls?" ++ URLSearchParams_toString params))
         pat no_options ;;
  if negb (ok res) then ret (upstream_error res)
  else
    prs <~ lift (json res) ;;
    len <~ lift (prop (Some prs) (lit "length")) ;;
    if strict_equals_number len 0
    then ret (text_envelope (lit "No " ++ state ++ lit " pull requests found."))
    else
      l <~ lift (array_receiver (Some prs)) ;;
      lines <~ lift (map_result list_prs_line l) ;;
      ret (text_envelope (join (nl ++ nl) lines)).

(** *** get_pr *)

Record PullNumberArgs : Type := {
  pn_pull_number : positive
}.

(** StrWhiteSpaceChar: the white space and the line terminators. *)
Definition is_str_whitespace (c : Z) : bool :=
  existsb (Z.eqb c)
    [9; 10; 11; 12; 13; 32; 160; 5760; 8232; 8233; 8239; 8287; 12288; 65279]
  || in_range 8192 8202 c.

Fixpoint trim_start (s : jsstring) : jsstring :=
  match s with
  | c :: rest => if is_str_whitespace c then trim_start rest else s
  | [] => []
  end.

Definition trim (s : jsstring) : jsstring :=
  rev (trim_start (rev (trim_start s))).

(** A non-empty run of digits of a radix with a digit that is not zero. *)
Definition positive_digits (is_radix_digit : Z -> bool) (s : jsstring) : bool :=
  match s with
  | [] => false
  | _ :: _ => forallb is_radix_digit s && existsb (fun c => negb (c =? 48)) s
  end.

(** An unsigned StrDecimalLiteral that denotes a number above zero:
    digits with an optional fraction, or a fraction alone, and an optional
    exponent. *)
Definition positive_decimal (s : jsstring) : bool :=
  let int_part := span_digits s in
  let fraction :=
    match snd int_part with
    | c :: rest => if c =? 46 then span_digits rest else ([], snd int_part)
    | [] => ([], [])
    end in
  match fst int_part ++ fst fraction with
  | [] => false
  | digits =>
      match parse_exponent (snd fraction) with
      | Ok (e10, []) =>
          match number_value false digits (e10 - Z.of_nat (length (fst fraction))) with
          | JNumber n => 0 <? n
          | _ => true
          end
      | _ => false
      end
  end.

(** [StringToNumber(s) > 0]: white space around the literal is ignored;
    the empty string is zero, [Infinity] may have a sign, a literal of
    radix 16, 8 or 2 has none, and anything that is no literal is [NaN]. *)
Definition string_greater_than_zero (s : jsstring) : bool :=
  let t := trim s in
  let unsigned := match t with c :: rest => if c =? 43 then rest else t | [] => [] end in
  if jsstring_eqb unsigned (lit "Infinity") then true
  else
    match t with
    | c :: x :: digits =>
        if (c =? 48) && ((x =? 120) || (x =? 88))
        then positive_digits is_hex_digit digits
        else if (c =? 48) && ((x =? 111) || (x =? 79))
        then positive_digits (in_range 48 55) digits
        else if (c =? 48) && ((x =? 98) || (x =? 66))
        then positive_digits (in_range 48 49) digits
        else positive_decimal unsigned
    | _ => positive_decimal unsigned
    end.

(** [v > 0]: the operand is made a primitive, an object or an array through
    its string, and the primitive a number. *)
Definition greater_than_zero (v : Value) : Result bool :=
  match v with
  | None | Some JNull => Ok false
  | Some (JBool b) => Ok b
  | Some (JNumber n) => Ok (0 <? n)
  | Some (JDouble (Finite negative q _)) => Ok (negb negative && (0 <? q))
  | Some (JDouble (Infinity negative)) => Ok (negb negative)
  | Some (JString s) => Ok (string_greater_than_zero s)
  | Some (JArray items) =>
      (s <- JSON_toString (JArray items) ;; Ok (string_greater_than_zero s))%result
  | Some (JObject fields) =>
      (s <- JSON_toString (JObject fields) ;; Ok (string_greater_than_zero s))%result
  end.

Definition get_pr_lines (pr : JSON) : Result (list jsstring) :=
  (number <- prop (Some pr) (lit "number") ;;
   number_text <- toString number ;;
   draft <- prop (Some pr) (lit "draft") ;;
   title <- prop (Some pr) (lit "title") ;;
   title_text <- toString title ;;
   state <- prop (Some pr) (lit "state") ;;
   state_text <- toString state ;;
   merged <- prop (Some pr) (lit "merged") ;;
   user <- prop (Some pr) (lit "user") ;;
   login <- prop user (lit "login") ;;
   login_text <- toString login ;;
   head <- prop (Some pr) (lit "head") ;;
   head_ref <- prop head (lit "ref") ;;
   head_text <- toString head_ref ;;
   base <- prop (Some pr) (lit "base") ;;
   base_ref <- prop base (lit "ref") ;;
   base_text <- toString base_ref ;;
   commits <- prop (Some pr) (lit "commits") ;;
   commits_text <- toString commits ;;
   additions <- prop (Some pr) (lit "additions") ;;
   additions_text <- toString additions ;;
   deletions <- prop (Some pr) (lit "deletions") ;;
   deletions_text <- toString deletions ;;
   changed_files <- prop (Some pr) (lit "changed_files") ;;
   changed_text <- toString changed_files ;;
   created_at <- prop (Some pr) (lit "created_at") ;;
   created <- slice_method created_at 10 ;;
   created_text <- toString created ;;
   updated_at <- prop (Some pr) (lit "updated_at") ;;
   updated <- slice_method updated_at 10 ;;
   updated_text <- toString updated ;;
   reviewers <- prop (Some pr) (lit "requested_reviewers") ;;
   reviewers_length <- prop reviewers (lit "length") ;;
   has_reviewers <- greater_than_zero reviewers_length ;;
   reviewers_line <-
     (if has_reviewers then
        l <- array_receiver reviewers ;;
        names <- map_result
                   (fun r => login <- prop (Some r) (lit "login") ;;
                             login_text <- toString login ;;
                             Ok (lit "@" ++ login_text)) l ;;
        Ok (lit "Reviewers: " ++ join (lit ", ") names)
      else Ok []) ;;
   labels <- prop (Some pr) (lit "labels") ;;
   labels_length <- prop labels (lit "length") ;;
   has_labels <- greater_than_zero labels_length ;;
   labels_line <-
     (if has_labels then
        l <- array_receiver labels ;;
        names <- map_result (fun lb => prop (Some lb) (lit "name")) l ;;
        joined <- join_values (lit ", ") names ;;
        Ok (lit "Labels: " ++ joined)
      else Ok []) ;;
   body <- prop (Some pr) (lit "body") ;;
   body_line <-
     (if truthy body
      then body_text <- toString body ;;
           Ok (nl ++ lit "Description:" ++ nl ++ body_text)
      else Ok []) ;;
   html_url <- prop (Some pr) (lit "html_url") ;;
   url_text <- toString html_url ;;
   Ok (filter (fun line => match line with [] => false | _ => true end)
         [lit "PR #" ++ number_text
          ++ (if truthy draft then lit " [DRAFT]" else [])
          ++ lit ": " ++ title_text;
          lit "State: " ++ state_text
          ++ (if truthy merged then lit " (merged)" else []);
          lit "Author: @" ++ login_text;
          lit "Branch: " ++ head_text ++ lit " " ++ [8594] ++ lit " "
          ++ base_text;
          lit "Commits: " ++ commits_text ++ lit " | +" ++ additions_text
          ++ lit " -" ++ deletions_text ++ lit " in "
          ++ changed_text ++ lit " file(s)";
          lit "Created: " ++ created_text ++ lit " | Updated: "
          ++ updated_text;
          reviewers_line;
          labels_line;
          body_line;
          nl ++ lit "URL: " ++ url_text]))%result.

Definition get_pr (a : PullNumberArgs) : Prog Envelope :=
  res <~ ghFetch
         (repo_path (lit "/pulls/" ++ Number_toString (Zpos (pn_pull_number a))))
         pat no_options ;;
  if negb (ok res) then ret (upstream_error res)
  else
    pr <~ lift (json res) ;;
    lines <~ lift (get_pr_lines pr) ;;
    ret (text_envelope (join nl lines)).

(** *** create_pr *)

Record CreatePrArgs : Type := {
  cp_title : jsstring;
  cp_body : option jsstring;
  cp_head : jsstring;
  cp_base : jsstring;
  cp_draft : option bool
}.

(** [data.errors ? data.errors.map((e) => e.message).join("; ") : data.message]. *)
Definition create_pr_message (data : JSON) : Result Value :=
  (errors <- prop (Some data) (lit "errors") ;;
   if truthy errors then
     l <- array_receiver errors ;;
     messages <- map_result (fun e => prop (Some e) (lit "message")) l ;;
     joined <- join_values (lit "; ") messages ;;
     Ok (Some (JString joined))
   else prop (Some data) (lit "message"))%result.

Definition create_pr (a : CreatePrArgs) : Prog Envelope :=
  res <~ ghFetch (repo_path (lit "/pulls")) pat
         (with_body "POST"
            (JSON_stringify
               (JObject
                  [(lit "title", JString (cp_title a));
                   (lit "body", JString (or_default (cp_body a) []));
                   (lit "head", JString (cp_head a));
                   (lit "base", JString (cp_base a));
                   (lit "draft",
                     JBool (match cp_draft a with Some d => d | None => false end))]))) ;;
  if negb (ok res) then
    data <~ lift (json res) ;;
    msg <~ lift (create_pr_message data) ;;
    msg_text <~ lift (toString msg) ;;
    ret (error_envelope
           (lit "Error " ++ Number_toString (status res) ++ lit ": "
            ++ msg_text))
  else
    pr <~ lift (json res) ;;
    number <~ lift (prop (Some pr) (lit "number")) ;;
    number_text <~ lift (toString number) ;;
    title <~ lift (prop (Some pr) (lit "title")) ;;
    title_text <~ lift (toString title) ;;
    html_url <~ lift (prop (Some pr) (lit "html_url")) ;;
    url_text <~ lift (toString html_url) ;;
    ret (text_envelope
           (lit "PR #" ++ number_text ++ lit " created: " ++ title_text
            ++ nl ++ url_text)).

(** *** merge_pr *)

Inductive MergeMethod : Type := MethodMerge | MethodSquash | MethodRebase.

Definition MergeMethod_name (m : MergeMethod) : jsstring :=
  match m with
  | MethodMerge => lit "merge"
  | MethodSquash => lit "squash"
  | MethodRebase => lit "rebase"
  end.

Record MergePrArgs : Type := {
  mp_pull_number : positive;
  mp_commit_title : option jsstring;
  mp_commit_message : option jsstring;
  mp_merge_method : option MergeMethod
}.

Definition merge_pr (a : MergePrArgs) : Prog Envelope :=
  let pull_number := Number_toString (Zpos (mp_pull_number a)) in
  let body :=
    JObject
      ([(lit "merge_method",
          JString (match mp_merge_method a with
                   | Some m => MergeMethod_name m
                   | None => lit "merge"
                   end))]
       ++ (if nonempty (mp_commit_title a)
           then [(lit "commit_title", JString (or_default (mp_commit_title a) []))]
           else [])
       ++ (if nonempty (mp_commit_message a)
           then [(lit "commit_message", JString (or_default (mp_commit_message a) []))]
           else [])) in
  res <~ ghFetch (repo_path (lit "/pulls/" ++ pull_number ++ lit "/merge")) pat
         (with_body "PUT" (JSON_stringify body)) ;;
  if negb (ok res) then ret (upstream_error res)
  else
    data <~ lift (json res) ;;
    message <~ lift (prop (Some data) (lit "message")) ;;
    message_text <~ lift (toString message) ;;
    sha <~ lift (prop (Some data) (lit "sha")) ;;
    sha_text <~ lift (toString sha) ;;
    ret (text_envelope
           (lit "PR #" ++ pull_number ++ lit " merged successfully." ++ nl
            ++ message_text ++ nl ++ lit "Commit: " ++ sha_text)).

(** *** close_pr *)

Definition close_pr (a : PullNumberArgs) : Prog Envelope :=
  res <~ ghFetch
         (repo_path (lit "/pulls/" ++ Number_toString (Zpos (pn_pull_number a))))
         pat
         (with_body "PATCH"
            (JSON_stringify (JObject [(lit "state", JString (lit "closed"))]))) ;;
  if negb (ok res) then ret (upstream_error res)
  else
    pr <~ lift (json res) ;;
    number <~ lift (prop (Some pr) (lit "number")) ;;
    number_text <~ lift (toString number) ;;
    title <~ lift (prop (Some pr) (lit "title")) ;;
    title_text <~ lift (toString title) ;;
    html_url <~ lift (prop (Some pr) (lit "html_url")) ;;
    url_text <~ lift (toString html_url) ;;
    ret (text_envelope
           (lit "PR #" ++ number_text ++ lit " closed: " ++ title_text
            ++ nl ++ url_text)).

(** *** add_pr_comment *)

Record AddPrCommentArgs : Type := {
  ac_pull_number : positive;
  ac_body : jsstring
}.

Definition add_pr_comment (a : AddPrCommentArgs) : Prog Envelope :=
  let pull_number := Number_toString (Zpos (ac_pull_number a)) in
  res <~ ghFetch (repo_path (lit "/issues/" ++ pull_number ++ lit "/comments"))
         pat
         (with_body "POST"
            (JSON_stringify (JObject [(lit "body", JString (ac_body a))]))) ;;
  if negb (ok res) then ret (upstream_error res)
  else
    comment <~ lift (json res) ;;
    id <~ lift (prop (Some comment) (lit "id")) ;;
    id_text <~ lift (toString id) ;;
    html_url <~ lift (prop (Some comment) (lit "html_url")) ;;
    url_text <~ lift (toString html_url) ;;
    ret (text_envelope
           (lit "Comment added to PR #" ++ pull_number ++ lit ". Comment ID: "
            ++ id_text ++ nl ++ url_text)).

(** *** request_pr_review *)

Record RequestPrReviewArgs : Type := {
  rr_pull_number : positive;
  rr_reviewers : list jsstring
}.

Definition request_pr_review (a : RequestPrReviewArgs) : Prog Envelope :=
  let pull_number := Number_toString (Zpos (rr_pull_number a)) in
  res <~ ghFetch
         (repo_path (lit "/pulls/" ++ pull_number ++ lit "/requested_reviewers"))
         pat
         (with_body "POST"
            (JSON_stringify
               (JObject
                  [(lit "reviewers",
                     JArray (List.map JString (rr_reviewers a)))]))) ;;
  if negb (ok res) then ret (upstream_error res)
  else
    ret (text_envelope
           (lit "Review requested from: "
            ++ join (lit ", ") (List.map (fun r => lit "@" ++ r) (rr_reviewers a))
            ++ lit " on PR #" ++ pull_number)).

(** ** The registry *)

(** One [this.server.tool(name, description, schema, handler)] call: the
    argument type stands for the schema. *)
Record Tool : Type := {
  tool_name : jsstring;
  tool_description : jsstring;
  tool_args : Type;
  tool_handler : tool_args -> Prog Envelope
}.

Definition read_file_tool : Tool :=
  {| tool_name := lit "read_file";
     tool_description :=
       lit "Read a file from the RightCraft GitHub repository. Returns the file content as text. Use for any file: source code, markdown, JSON, config, etc.";
     tool_handler := read_file |}.

Definition write_file_tool : Tool :=
  {| tool_name := lit "write_file";
     tool_description :=
       lit "Create or update a file in the RightCraft GitHub repository. Commits directly to the specified branch.";
     tool_handler := write_file |}.

Definition list_files_tool : Tool :=
  {| tool_name := lit "list_files";
     tool_description :=
       lit "List files and directories in a path within the RightCraft GitHub repository.";
     tool_handler := list_files |}.

Definition search_files_tool : Tool :=
  {| tool_name := lit "search_files";
     tool_description :=
       lit "Search for files or code in the RightCraft GitHub repository using GitHub's code search API.";
     tool_handler := search_files |}.

Definition list_branches_tool : Tool :=
  {| tool_name := lit "list_branches";
     tool_description :=
       lit "List branches in the RightCraft GitHub repository.";
     tool_handler := list_branches |}.

Definition get_file_tree_tool : Tool :=
  {| tool_name := lit "get_file_tree";
     tool_description :=
       lit "Get the full recursive file tree of the RightCraft GitHub repository. Useful for understanding project structure.";
     tool_handler := get_file_tree |}.

Definition list_prs_tool : Tool :=
  {| tool_name := lit "list_prs";
     tool_description :=
       lit "List pull requests for the RightCraft GitHub repository.";
     tool_handler := list_prs |}.

Definition get_pr_tool : Tool :=
  {| tool_name := lit "get_pr";
     tool_description :=
       lit "Get details of a specific pull request by number.";
     tool_handler := get_pr |}.

Definition create_pr_tool : Tool :=
  {| tool_name := lit "create_pr";
     tool_description :=
       lit "Create a new pull request in the RightCraft GitHub repository.";
     tool_handler := create_pr |}.

Definition merge_pr_tool : Tool :=
  {| tool_name := lit "merge_pr";
     tool_description :=
       lit "Merge a pull request. The PR must be open and mergeable.";
     tool_handler := merge_pr |}.

Definition close_pr_tool : Tool :=
  {| tool_name := lit "close_pr";
     tool_description :=
       lit "Close a pull request without merging it.";
     tool_handler := close_pr |}.

Definition add_pr_comment_tool : Tool :=
  {| tool_name := lit "add_pr_comment";
     tool_description :=
       lit "Add a comment to a pull request (uses the Issues comments API).";
     tool_handler := add_pr_comment |}.

Definition request_pr_review_tool : Tool :=
  {| tool_name := lit "request_pr_review";
     tool_description :=
       lit "Request a review on a pull request from one or more GitHub users.";
     tool_handler := request_pr_review |}.

(** The registrations of [init], in program order. *)
Definition registry : list Tool :=
  [ read_file_tool;
    write_file_tool;
    list_files_tool;
    search_files_tool;
    list_branches_tool;
    get_file_tree_tool;
    list_prs_tool;
    get_pr_tool;
    create_pr_tool;
    merge_pr_tool;
    close_pr_tool;
    add_pr_comment_tool;
    request_pr_review_tool ].

End Handlers.

(** ** The worker entry point *)

(** What the [fetch] handler of the worker returns: a response of its own,
    or the response of the MCP server mounted at a path. *)
Inductive WorkerResponse : Type :=
| Respond (code : Z) (response_headers : list (jsstring * jsstring))
    (response_body : jsstring)
| Serve (mount : jsstring).

(** The document of the health check. *)
Definition health_document : JSON :=
  JObject [(lit "status", JString (lit "ok"));
           (lit "service", JString (lit "RightCraft GitHub MCP"));
           (lit "endpoints", JArray [JString (lit "/mcp"); JString (lit "/sse")])].

(** [fetch(request, env, ctx)], on the path name of the request URL. *)
Definition worker_fetch (pathname : jsstring) : WorkerResponse :=
  if jsstring_eqb pathname (lit "/") || jsstring_eqb pathname (lit "/health")
  then Respond 200 [(lit "Content-Type", lit "application/json")]
         (JSON_stringify health_document)
  else if jsstring_eqb pathname (lit "/mcp") then Serve (lit "/mcp")
  else if jsstring_eqb pathname (lit "/sse") || startsWith pathname (lit "/sse/")
  then Serve (lit "/sse")
  else Respond 404 [] (lit "Not found").

(** ** Notions used to state the properties *)

(** The text of an envelope with a single text block. *)
Definition envelope_text (e : Envelope) : jsstring :=
  match content e with
  | [TextContent t] => t
  | _ => []
  end.

(** The error flag of an envelope: an absent [isError] is no error. *)
Definition error_flag (e : Envelope) : bool :=
  match isError e with
  | Some b => b
  | None => false
  end.

(** The [type] and [path] members of a tree entry, [undefined] when the
    entry is not an object or has no such member. *)
Definition entry_member (k : jsstring) (e : JSON) : Value :=
  match e with
  | JObject fields => lookup k fields
  | _ => None
  end.

(** An entry of kind blob. *)
Definition blob_entry (e : JSON) : bool :=
  strict_equals_string (entry_member (lit "type") e) (lit "blob").

(** An entry whose path is a string that starts with [prefix]. *)
Definition path_has_prefix (prefix : jsstring) (e : JSON) : bool :=
  match entry_member (lit "path") e with
  | Some (JString s) => startsWith s prefix
  | _ => false
  end.

(** The entries the specification has [get_file_tree] list: the blobs, and
    with a (non-empty) [path_prefix] those whose path starts with it. *)
Definition listed (path_prefix : option jsstring) (e : JSON) : bool :=
  blob_entry e
  && match path_prefix with
     | Some (c :: r) => path_has_prefix (c :: r) e
     | _ => true
     end.

(** An entry of the branch listing with a name and a commit hash. *)
Definition branch_entry (e : JSON) (name sha : jsstring) : Prop :=
  exists fields commit,
    e = JObject fields
    /\ lookup (lit "name") fields = Some (JString name)
    /\ lookup (lit "commit") fields = Some (JObject commit)
    /\ lookup (lit "sha") commit = Some (JString sha).

(** The UTF-8 encoding of a string: a surrogate pair is one code point. *)
Fixpoint utf8_encode (s : jsstring) : list Z :=
  match s with
  | [] => []
  | c :: rest =>
      if is_high_surrogate c then
        match rest with
        | k :: rest' =>
            if is_low_surrogate k
            then utf8_octets (pair_code_point c k) ++ utf8_encode rest'
            else utf8_octets c ++ utf8_encode rest
        | [] => utf8_octets c
        end
      else utf8_octets c ++ utf8_encode rest
  end.

(** The 6-bit groups [base64_encode] prints, and the padding it adds. *)
Fixpoint base64_sextets (bs : list Z) : list Z :=
  match bs with
  | [] => []
  | [a] => [Z.shiftr a 2; Z.shiftl (Z.land a 3) 4]
  | [a; b] =>
      [Z.shiftr a 2;
       Z.lor (Z.shiftl (Z.land a 3) 4) (Z.shiftr b 4);
       Z.shiftl (Z.land b 15) 2]
  | a :: b :: c :: rest =>
      Z.shiftr a 2
      :: Z.lor (Z.shiftl (Z.land a 3) 4) (Z.shiftr b 4)
      :: Z.lor (Z.shiftl (Z.land b 15) 2) (Z.shiftr c 6)
      :: Z.land c 63
      :: base64_sextets rest
  end.

Fixpoint base64_padding (bs : list Z) : jsstring :=
  match bs with
  | [] => []
  | [_] => [61; 61]
  | [_; _] => [61]
  | _ :: _ :: _ :: rest => base64_padding rest
  end.

(** [P] holds of every integer from 0 below [n]. *)
Fixpoint below (n : nat) (P : Z -> bool) : bool :=
  match n with
  | O => true
  | S m => P (Z.of_nat m) && below m P
  end.

(** A handler that surfaces every non-success response: whenever it awaits a
    response, a non-success status makes it return [upstream_error] of that
    response at once. *)
Inductive surfaces_errors : Prog Envelope -> Prop :=
| surfaces_return (r : Result Envelope) : surfaces_errors (Return r)
| surfaces_fetch (req : Request) (k : Response -> Prog Envelope) :
    (forall res, ok res = false -> k res = Return (Ok (upstream_error res))) ->
    (forall res, ok res = true -> surfaces_errors (k res)) ->
    surfaces_errors (Fetch req k).

(** A handler that issues at most [n] requests. *)
Inductive calls_at_most {A : Type} : nat -> Prog A -> Prop :=
| calls_return (n : nat) (r : Result A) : calls_at_most n (Return r)
| calls_fetch (n : nat) (req : Request) (k : Response -> Prog A) :
    (forall res, calls_at_most n (k res)) ->
    calls_at_most (S n) (Fetch req k).

(** ** Notions used to state further properties *)

(** A text written with an apostrophe in place of each double quote. *)
Definition quoted (s : string) : jsstring :=
  List.map (fun c => if c =? 39 then 34 else c) (lit s).

(** Every request a handler can issue satisfies [P]. *)
Inductive requests_satisfy {A : Type} (P : Request -> Prop) : Prog A -> Prop :=
| requests_return (r : Result A) : requests_satisfy P (Return r)
| requests_fetch (req : Request) (k : Response -> Prog A) :
    P req ->
    (forall res, requests_satisfy P (k res)) ->
    requests_satisfy P (Fetch req k).

(** Every envelope a handler can return satisfies [P]. *)
Inductive returns_satisfy (P : Envelope -> Prop) : Prog Envelope -> Prop :=
| returns_envelope (e : Envelope) : P e -> returns_satisfy P (Return (Ok e))
| returns_throw (e : Error) : returns_satisfy P (Return (Throw e))
| returns_fetch (req : Request) (k : Response -> Prog Envelope) :
    (forall res, returns_satisfy P (k res)) ->
    returns_satisfy P (Fetch req k).

(** A handler that returns an envelope without the error flag only right
    after a successful response; [last_ok] tells whether the last response
    received was successful. *)
Inductive success_follows_ok : bool -> Prog Envelope -> Prop :=
| success_return (last_ok : bool) (r : Result Envelope) :
    last_ok = true
    \/ match r with
       | Ok e => isError e = Some true
       | Throw _ => True
       end ->
    success_follows_ok last_ok (Return r)
| success_fetch (last_ok : bool) (req : Request) (k : Response -> Prog Envelope) :
    (forall res, success_follows_ok (ok res) (k res)) ->
    success_follows_ok last_ok (Fetch req k).

(** A handler whose first request, answered successfully with a body that
    is not JSON, ends in the exception of [res.json()]. *)
Inductive parses_success_body : Prog Envelope -> Prop :=
| parses_return (r : Result Envelope) : parses_success_body (Return r)
| parses_fetch (req : Request) (k : Response -> Prog Envelope) :
    (forall res e, ok res = true -> json res = Throw e -> k res = Return (Throw e)) ->
    parses_success_body (Fetch req k).

(** The headers [ghFetch] sets when the caller gives none. *)
Definition default_headers (pat : option jsstring) : list (jsstring * jsstring) :=
  [(lit "Authorization",
     lit "Bearer " ++ match pat with Some p => p | None => lit "undefined" end);
   (lit "Accept", lit "application/vnd.github+json");
   (lit "X-GitHub-Api-Version", lit "2022-11-28");
   (lit "User-Agent", lit "github-mcp-worker/1.0")].

(** The value of a header: the first entry with that name. *)
Fixpoint header (k : jsstring) (hs : list (jsstring * jsstring)) : option jsstring :=
  match hs with
  | [] => None
  | (k', v) :: rest => if jsstring_eqb k k' then Some v else header k rest
  end.

(** The value the last entry with that name gives. *)
Fixpoint last_header (k : jsstring) (hs : list (jsstring * jsstring))
  : option jsstring :=
  match hs with
  | [] => None
  | (k', v) :: rest =>
      match last_header k rest with
      | Some v' => Some v'
      | None => if jsstring_eqb k k' then Some v else None
      end
  end.

(** A string with a surrogate that is not part of a pair. *)
Fixpoint unpaired_surrogate (s : jsstring) : bool :=
  match s with
  | [] => false
  | c :: rest =>
      if is_low_surrogate c then true
      else if is_high_surrogate c then
        match rest with
        | k :: rest' => if is_low_surrogate k then unpaired_surrogate rest' else true
        | [] => true
        end
      else unpaired_surrogate rest
  end.

(** The characters [encodeURIComponent] lets through or produces: none of
    them is a delimiter of a URL. *)
Definition uri_safe (c : Z) : bool := uriUnescaped c || (c =? 37).

(** The characters the serialization of [URLSearchParams] produces for a
    name or a value. *)
Definition form_safe (c : Z) : bool :=
  is_alnum c || existsb (Z.eqb c) [42; 45; 46; 95; 43; 37].

(** An item of a directory listing: its kind, its path and its size. *)
Record DirItem : Type := {
  di_type : jsstring;
  di_path : jsstring;
  di_size : option Z
}.

Definition dir_item (e : JSON) (d : DirItem) : Prop :=
  exists fields,
    e = JObject fields
    /\ lookup (lit "type") fields = Some (JString (di_type d))
    /\ lookup (lit "path") fields = Some (JString (di_path d))
    /\ lookup (lit "size") fields = option_map JNumber (di_size d).

(** The line of the listing for an item: the glyph of its kind (the file
    folder U+1F4C1 for a directory, the page facing up U+1F4C4 for anything
    else, each as its surrogate pair), the path, and the size when it is
    not zero. *)
Definition dir_item_line (d : DirItem) : jsstring :=
  (if jsstring_eqb (di_type d) (lit "dir") then [55357; 56513] else [55357; 56516])
  ++ lit " " ++ di_path d
  ++ match di_size d with
     | Some n => if n =? 0 then [] else lit " (" ++ Number_toString n ++ lit "B)"
     | None => []
     end.

(** A hit of the code search with its path. *)
Definition search_item (e : JSON) (path : jsstring) : Prop :=
  exists fields,
    e = JObject fields /\ lookup (lit "path") fields = Some (JString path).

(** An entry of a recursive tree: its path and its kind. *)
Definition tree_entry (e : JSON) (t : jsstring * jsstring) : Prop :=
  exists fields,
    e = JObject fields
    /\ lookup (lit "path") fields = Some (JString (fst t))
    /\ lookup (lit "type") fields = Some (JString (snd t)).

(** A pull request of a listing. *)
Record PrSummary : Type := {
  ps_number : Z;
  ps_title : jsstring;
  ps_state : jsstring;
  ps_draft : bool;
  ps_user : jsstring;
  ps_head : jsstring;
  ps_base : jsstring;
  ps_created_at : jsstring;
  ps_html_url : jsstring
}.

Definition pr_summary (e : JSON) (p : PrSummary) : Prop :=
  exists fields head base user,
    e = JObject fields
    /\ lookup (lit "number") fields = Some (JNumber (ps_number p))
    /\ lookup (lit "title") fields = Some (JString (ps_title p))
    /\ lookup (lit "state") fields = Some (JString (ps_state p))
    /\ lookup (lit "draft") fields = Some (JBool (ps_draft p))
    /\ lookup (lit "head") fields = Some (JObject head)
    /\ lookup (lit "ref") head = Some (JString (ps_head p))
    /\ lookup (lit "base") fields = Some (JObject base)
    /\ lookup (lit "ref") base = Some (JString (ps_base p))
    /\ lookup (lit "user") fields = Some (JObject user)
    /\ lookup (lit "login") user = Some (JString (ps_user p))
    /\ lookup (lit "created_at") fields = Some (JString (ps_created_at p))
    /\ lookup (lit "html_url") fields = Some (JString (ps_html_url p)).

Definition pr_summary_lines (p : PrSummary) : jsstring :=
  lit "#" ++ Number_toString (ps_number p)
  ++ (if ps_draft p then lit " [DRAFT]" else [])
  ++ lit " [" ++ ps_state p ++ lit "] " ++ ps_title p ++ nl
  ++ lit "  " ++ ps_head p ++ lit " " ++ [8594] ++ lit " " ++ ps_base p
  ++ lit " by @" ++ ps_user p
  ++ lit " (" ++ firstn 10 (ps_created_at p) ++ lit ")" ++ nl
  ++ lit "  " ++ ps_html_url p.

(** The detail of a pull request; [pd_body] is [None] for a [null] body. *)
Record PrDetail : Type := {
  pd_summary : PrSummary;
  pd_body : option jsstring;
  pd_merged : bool;
  pd_updated_at : jsstring;
  pd_reviewers : list jsstring;
  pd_labels : list jsstring;
  pd_commits : Z;
  pd_additions : Z;
  pd_deletions : Z;
  pd_changed_files : Z
}.

Definition named (k : jsstring) (e : JSON) (name : jsstring) : Prop :=
  exists fields, e = JObject fields /\ lookup k fields = Some (JString name).

Definition pr_detail (e : JSON) (p : PrDetail) : Prop :=
  pr_summary e (pd_summary p)
  /\ exists fields reviewers labels,
       e = JObject fields
       /\ lookup (lit "body") fields
          = Some (match pd_body p with Some b => JString b | None => JNull end)
       /\ lookup (lit "merged") fields = Some (JBool (pd_merged p))
       /\ lookup (lit "updated_at") fields = Some (JString (pd_updated_at p))
       /\ lookup (lit "requested_reviewers") fields = Some (JArray reviewers)
       /\ Forall2 (named (lit "login")) reviewers (pd_reviewers p)
       /\ lookup (lit "labels") fields = Some (JArray labels)
       /\ Forall2 (named (lit "name")) labels (pd_labels p)
       /\ lookup (lit "commits") fields = Some (JNumber (pd_commits p))
       /\ lookup (lit "additions") fields = Some (JNumber (pd_additions p))
       /\ lookup (lit "deletions") fields = Some (JNumber (pd_deletions p))
       /\ lookup (lit "changed_files") fields = Some (JNumber (pd_changed_files p)).

(** The lines [get_pr] shows: the lines for the reviewers, the labels and
    the description are there only when there is something to show. *)
Definition pr_detail_lines (p : PrDetail) : list jsstring :=
  let s := pd_summary p in
  [lit "PR #" ++ Number_toString (ps_number s)
   ++ (if ps_draft s then lit " [DRAFT]" else []) ++ lit ": " ++ ps_title s;
   lit "State: " ++ ps_state s ++ (if pd_merged p then lit " (merged)" else []);
   lit "Author: @" ++ ps_user s;
   lit "Branch: " ++ ps_head s ++ lit " " ++ [8594] ++ lit " " ++ ps_base s;
   lit "Commits: " ++ Number_toString (pd_commits p)
   ++ lit " | +" ++ Number_toString (pd_additions p)
   ++ lit " -" ++ Number_toString (pd_deletions p)
   ++ lit " in " ++ Number_toString (pd_changed_files p) ++ lit " file(s)";
   lit "Created: " ++ firstn 10 (ps_created_at s)
   ++ lit " | Updated: " ++ firstn 10 (pd_updated_at p)]
  ++ match pd_reviewers p with
     | [] => []
     | _ :: _ =>
         [lit "Reviewers: "
          ++ join (lit ", ") (List.map (fun r => lit "@" ++ r) (pd_reviewers p))]
     end
  ++ match pd_labels p with
     | [] => []
     | _ :: _ => [lit "Labels: " ++ join (lit ", ") (pd_labels p)]
     end
  ++ match pd_body p with
     | Some (c :: b) => [nl ++ lit "Description:" ++ nl ++ (c :: b)]
     | _ => []
     end
  ++ [nl ++ lit "URL: " ++ ps_html_url s].

(** The most requests a tool makes in one invocation. *)
Definition call_bound (name : jsstring) : nat :=
  if jsstring_eqb name (lit "get_file_tree") then 3
  else if jsstring_eqb name (lit "write_file") then 2
  else 1.

(** The tools that only read the repository. *)
Definition read_only_tools : list jsstring :=
  List.map lit
    ["read_file"; "list_files"; "search_files"; "list_branches";
     "get_file_tree"; "list_prs"; "get_pr"]%string.

(** A request to the API host that carries the fixed headers. *)
Definition api_request (pat : option jsstring) (req : Request) : Prop :=
  (exists path, startsWith path (lit "/") = true /\ url req = API ++ path)
  /\ headers (init req) = default_headers pat.

(** A request without method and body: a GET. *)
Definition plain_get (req : Request) : Prop :=
  method (init req) = None /\ body (init req) = None.

(** A GET, or a PUT, POST or PATCH with a body. *)
Definition get_or_write (req : Request) : Prop :=
  plain_get req
  \/ exists m b,
       In m [lit "PUT"; lit "POST"; lit "PATCH"]
       /\ method (init req) = Some m /\ body (init req) = Some b.

(** An envelope with one text block, and an error flag that is absent or
    [true]. *)
Definition uniform_envelope (e : Envelope) : Prop :=
  (exists t, content e = [TextContent t])
  /\ (isError e = None \/ isError e = Some true).

(** * Properties *)

(** ** Running handlers *)

Lemma run_lift_bind {A B : Type} (r : Result A) (k : A -> Prog B) script :
  run (pbind (lift r) k) script
  = match r with
    | Ok a => run (k a) script
    | Throw e => ([], Some (Throw e))
    end.
Proof. destruct r; reflexivity. Qed.

Lemma run_ghFetch_bind {B : Type} path pat options (k : Response -> Prog B) script :
  run (pbind (ghFetch path pat options) k) script
  = match script with
    | [] => ([ghFetch_request path pat options], None)
    | res :: rest =>
        (ghFetch_request path pat options :: fst (run (k res) rest),
         snd (run (k res) rest))
    end.
Proof. destruct script; reflexivity. Qed.

Lemma calls_at_most_bind {A B : Type} n m (p : Prog A) (k : A -> Prog B) :
  calls_at_most n p -> (forall a, calls_at_most m (k a)) ->
  calls_at_most (n + m) (pbind p k).
Proof.
  intros Hp Hk. induction Hp as [n [a|e]|n req k' _ IH]; cbn [pbind].
  - specialize (Hk a). clear - Hk.
    induction Hk as [m r|m req k' _ IH].
    + constructor.
    + replace (n + S m)%nat with (S (n + m)) by lia. constructor. exact IH.
  - constructor.
  - cbn [Nat.add]. constructor. exact IH.
Qed.

Lemma calls_at_most_trace {A : Type} n (p : Prog A) script :
  calls_at_most n p -> (length (fst (run p script)) <= n)%nat.
Proof.
  intros Hp. revert script.
  induction Hp as [n r|n req k _ IH]; intros script; cbn [run fst length].
  - lia.
  - destruct script as [|res rest]; cbn [fst length].
    + lia.
    + specialize (IH res rest). lia.
Qed.

(** ** Handlers that surface upstream errors *)

Lemma surfaces_bind_lift {A : Type} (r : Result A) (k : A -> Prog Envelope) :
  (forall a, r = Ok a -> surfaces_errors (k a)) ->
  surfaces_errors (pbind (lift r) k).
Proof.
  intros Hk. destruct r as [a|e]; cbn [pbind lift].
  - apply Hk. reflexivity.
  - constructor.
Qed.

Lemma surfaces_ghFetch path pat options (k : Response -> Prog Envelope) :
  (forall res, ok res = false -> k res = Return (Ok (upstream_error res))) ->
  (forall res, ok res = true -> surfaces_errors (k res)) ->
  surfaces_errors (pbind (ghFetch path pat options) k).
Proof. intros H1 H2. cbn [pbind ghFetch]. constructor; assumption. Qed.


Lemma surfaces_bind_ret {A : Type} (a : A) (k : A -> Prog Envelope) :
  surfaces_errors (k a) -> surfaces_errors (pbind (ret a) k).
Proof. intros H. exact H. Qed.

Lemma surfaces_bind_bind_lift {A B : Type} (r : Result A) (k1 : A -> Prog B)
  (k2 : B -> Prog Envelope) :
  (forall a, r = Ok a -> surfaces_errors (pbind (k1 a) k2)) ->
  surfaces_errors (pbind (pbind (lift r) k1) k2).
Proof.
  intros Hk. destruct r as [a|e]; cbn [pbind lift].
  - apply Hk. reflexivity.
  - constructor.
Qed.

Ltac surfaces :=
  repeat match goal with
    | |- surfaces_errors (Return _) => apply surfaces_return
    | |- surfaces_errors (ret _) => apply surfaces_return
    | |- surfaces_errors (lift _) => apply surfaces_return
    | |- surfaces_errors (pbind (ret _) _) => apply surfaces_bind_ret
    | |- surfaces_errors (pbind (pbind (lift _) _) _) =>
        apply surfaces_bind_bind_lift; intros
    | |- surfaces_errors (pbind (ghFetch _ _ _) _) =>
        apply surfaces_ghFetch;
        [ let Hbad := fresh "Hbad" in
          intros ? Hbad; rewrite Hbad; reflexivity
        | let Hgood := fresh "Hgood" in
          intros ? Hgood; rewrite Hgood; cbn [negb] ]
    | |- surfaces_errors (pbind (lift _) _) => apply surfaces_bind_lift; intros
    | |- surfaces_errors (if ?b then _ else _) => destruct b
    | |- surfaces_errors (match ?x with _ => _ end) => destruct x
    | |- surfaces_errors (pbind (match ?x with _ => _ end) _) => destruct x
    end.

Section UpstreamErrors.

Variable pat : option jsstring.





Lemma get_file_tree_surfaces a : surfaces_errors (get_file_tree pat a).
Proof. unfold get_file_tree. surfaces. Qed.







End UpstreamErrors.


Ltac calls :=
  repeat match goal with
    | |- calls_at_most _ (Return _) => apply calls_return
    | |- calls_at_most _ (ret _) => apply calls_return
    | |- calls_at_most _ (lift _) => apply calls_return
    | |- calls_at_most _ (pbind (lift ?r) _) =>
        destruct r; cbn [pbind lift]
    | |- calls_at_most _ (pbind (pbind (lift ?r) _) _) =>
        destruct r; cbn [pbind lift ret]
    | |- calls_at_most _ (pbind (ghFetch _ _ _) _) =>
        cbn [pbind ghFetch]; apply calls_fetch; intros ?
    | |- calls_at_most _ (Fetch _ _) => apply calls_fetch; intros ?
    | |- calls_at_most _ (if ?b then _ else _) => destruct b
    | |- calls_at_most _ (match ?x with _ => _ end) => destruct x
    end.


(** What [create_pr] does with a non-success response. *)
Lemma create_pr_error_run pat a res rest :
  ok res = false ->
  exists req,
    run (create_pr pat a) (res :: rest)
    = ([req],
       Some (data <- json res ;;
             msg <- create_pr_message data ;;
             msg_text <- toString msg ;;
             Ok {| content :=
                     [TextContent (lit "Error " ++ Number_toString (status res)
                                   ++ lit ": " ++ msg_text)];
                   isError := Some true |})%result).
Proof.
  intros Hok. eexists. unfold create_pr.
  rewrite run_ghFetch_bind, Hok. cbn [negb].
  rewrite run_lift_bind. destruct (json res) as [data|e]; [|reflexivity].
  rewrite run_lift_bind. cbn [rbind].
  destruct (create_pr_message data) as [msg|e]; [|reflexivity].
  rewrite run_lift_bind. cbn [rbind].
  destruct (toString msg) as [msg_text|e]; reflexivity.
Qed.

(** ** The registry (C6) *)

(** C6, as the code has it: the registry built by [init] holds thirteen
    tools, the thirteen names the specification lists, and no name occurs
    twice. *)
Theorem registry_names pat :
  length (registry pat) = 13%nat
  /\ List.map tool_name (registry pat)
     = List.map lit
         ["read_file"; "write_file"; "list_files"; "search_files";
          "list_branches"; "get_file_tree"; "list_prs"; "get_pr"; "create_pr";
          "merge_pr"; "close_pr"; "add_pr_comment"; "request_pr_review"]%string
  /\ NoDup (List.map tool_name (registry pat)).
Proof.
  split; [reflexivity|]. split; [reflexivity|].
  change (List.map tool_name (registry pat))
    with (List.map lit
            ["read_file"; "write_file"; "list_files"; "search_files";
             "list_branches"; "get_file_tree"; "list_prs"; "get_pr"; "create_pr";
             "merge_pr"; "close_pr"; "add_pr_comment"; "request_pr_review"]%string).
  vm_compute.
  repeat (constructor; [cbn [In]; intuition discriminate|]).
  constructor.
Qed.

(** C6, as stated, fails: the registry does not hold fourteen tools. *)
Lemma registry_does_not_hold_14_tools : length (registry None) <> 14%nat.
Proof. cbn [registry length]. discriminate. Qed.

(** ** Upstream errors (C1) *)




(** ** [create_pr] validation failures (C8) *)

Lemma prop_object fields k : prop (Some (JObject fields)) k = Ok (lookup k fields).
Proof. reflexivity. Qed.

Lemma map_result_prop_objects k entries :
  map_result (fun e => prop (Some e) k) (List.map JObject entries)
  = Ok (List.map (lookup k) entries).
Proof.
  induction entries as [|e rest IH]; cbn [map_result List.map].
  - reflexivity.
  - rewrite IH. reflexivity.
Qed.

Lemma named_value k e name :
  named k e name -> prop (Some e) k = Ok (Some (JString name)).
Proof. intros (fields & -> & H). rewrite prop_object, H. reflexivity. Qed.

Lemma map_result_Forall2 {A B C : Type} (f : A -> Result B) (g : C -> B)
  (R : A -> C -> Prop) l l' :
  (forall a c, R a c -> f a = Ok (g c)) ->
  Forall2 R l l' -> map_result f l = Ok (List.map g l').
Proof.
  intros Hf. induction 1 as [|a c l l' Hac _ IH]; cbn [map_result List.map].
  - reflexivity.
  - rewrite (Hf a c Hac), IH. reflexivity.
Qed.

(** Joining strings. *)
Lemma join_values_strings sep l :
  join_values sep (List.map (fun s => Some (JString s)) l) = Ok (join sep l).
Proof.
  unfold join_values.
  rewrite (map_result_Forall2 toString_or_empty (fun s => s)
             (fun v s => v = Some (JString s))
             (List.map (fun s => Some (JString s)) l) l).
  - rewrite map_id. reflexivity.
  - intros v s ->. reflexivity.
  - induction l; constructor; auto.
Qed.

(** C8, as the code has it: when the body of a non-success response to
    [create_pr] is a JSON object with a non-empty [errors] list of objects
    that each have a string [message], the text after [Error <status>: ] is
    the messages of all the entries, in order, joined by [; ]; when the
    object has no [errors] (or a falsy one) and a string [message], it is
    that message. *)
Theorem create_pr_error_message pat a res fields :
  ok res = false ->
  json res = Ok (JObject fields) ->
  (forall entries messages,
      lookup (lit "errors") fields = Some (JArray entries) ->
      Forall2 (named (lit "message")) entries messages ->
      entries <> [] ->
      snd (run (create_pr pat a) [res])
      = Some (Ok {| content :=
                      [TextContent
                         (lit "Error " ++ Number_toString (status res) ++ lit ": "
                          ++ join (lit "; ") messages)];
                    isError := Some true |}))
  /\ (forall message,
         truthy (lookup (lit "errors") fields) = false ->
         lookup (lit "message") fields = Some (JString message) ->
         snd (run (create_pr pat a) [res])
         = Some (Ok {| content :=
                         [TextContent
                            (lit "Error " ++ Number_toString (status res) ++ lit ": "
                             ++ message)];
                       isError := Some true |})).
Proof.
  intros Hok Hjson.
  destruct (create_pr_error_run pat a res [] Hok) as [req ->]. cbn [snd].
  rewrite Hjson. cbn [rbind]. unfold create_pr_message.
  rewrite !prop_object. cbn [rbind].
  split.
  - intros entries messages Herrors Hentries _. rewrite Herrors.
    cbn [truthy array_receiver rbind].
    rewrite (map_result_Forall2 (fun e => prop (Some e) (lit "message"))
               (fun m => Some (JString m)) (named (lit "message")) entries messages
               (named_value (lit "message")) Hentries).
    cbn [rbind]. rewrite join_values_strings. reflexivity.
  - intros message Herrors Hmessage. rewrite Herrors, Hmessage. reflexivity.
Qed.

(** An instance: two structured errors, both surfaced. *)
Lemma create_pr_error_message_witness :
  let a := {| cp_title := lit "Add feature"; cp_body := None;
              cp_head := lit "feature"; cp_base := lit "main";
              cp_draft := None |} in
  let entries := [JObject [(lit "message", JString (lit "first"))];
                  JObject [(lit "message", JString (lit "second"))]] in
  let fields := [(lit "message", JString (lit "Validation Failed"));
                 (lit "errors", JArray entries)] in
  let res :=
    {| status := 422;
       payload :=
         quoted "{'message':'Validation Failed','errors':[{'message':'first'},{'message':'second'}]}" |} in
  ok res = false
  /\ json res = Ok (JObject fields)
  /\ Forall2 (named (lit "message")) entries [lit "first"; lit "second"]
  /\ snd (run (create_pr None a) [res])
     = Some (Ok {| content := [TextContent (lit "Error 422: first; second")];
                   isError := Some true |}).
Proof.
  intros a entries fields res.
  assert (Hok : ok res = false) by reflexivity.
  assert (Hjson : json res = Ok (JObject fields)) by (vm_compute; reflexivity).
  assert (Hentries : Forall2 (named (lit "message")) entries [lit "first"; lit "second"]).
  { repeat (apply Forall2_cons; [eexists; split; reflexivity|]). apply Forall2_nil. }
  split; [exact Hok|]. split; [exact Hjson|]. split; [exact Hentries|].
  rewrite (proj1 (create_pr_error_message None a res fields Hok Hjson)
             entries [lit "first"; lit "second"] eq_refl Hentries).
  - reflexivity.
  - discriminate.
Defined.

(** C8, as stated, fails: with two structured errors the text is not the
    first message alone, and with an empty [errors] list it is not the
    generic message. *)
Lemma create_pr_surfaces_every_error_message :
  let a := {| cp_title := lit "Add feature"; cp_body := None;
              cp_head := lit "feature"; cp_base := lit "main";
              cp_draft := None |} in
  let two :=
    {| status := 422;
       payload :=
         JSON_stringify
           (JObject [(lit "message", JString (lit "Validation Failed"));
                     (lit "errors",
                       JArray [JObject [(lit "message", JString (lit "first"))];
                               JObject [(lit "message", JString (lit "second"))]])]) |} in
  let none :=
    {| status := 422;
       payload :=
         JSON_stringify
           (JObject [(lit "message", JString (lit "Validation Failed"));
                     (lit "errors", JArray [])]) |} in
  snd (run (create_pr None a) [two])
  = Some (Ok (error_envelope (lit "Error 422: first; second")))
  /\ snd (run (create_pr None a) [two])
     <> Some (Ok (error_envelope (lit "Error 422: first")))
  /\ snd (run (create_pr None a) [none])
     = Some (Ok (error_envelope (lit "Error 422: ")))
  /\ snd (run (create_pr None a) [none])
     <> Some (Ok (error_envelope (lit "Error 422: Validation Failed"))).
Proof.
  intros a two none.
  split; [vm_compute; reflexivity|]. split; [vm_compute; discriminate|].
  split; [vm_compute; reflexivity|]. vm_compute; discriminate.
Qed.

(** ** A successful [get_file_tree] *)

Ltac run_inversion H :=
  repeat
    (cbn [negb fst snd run ret lift] in H;
     match type of H with
     | run (pbind (ghFetch _ _ _) _) ?script = _ =>
         rewrite run_ghFetch_bind in H;
         let res := fresh "res" in
         destruct script as [|res script]; [discriminate H|]
     | context [run (pbind (ghFetch _ _ _) _) ?script] =>
         rewrite run_ghFetch_bind in H;
         let res := fresh "res" in
         destruct script as [|res script]; [discriminate H|]
     | context [run (pbind (lift ?r) _) _] =>
         rewrite run_lift_bind in H;
         let x := fresh "x" in
         let Hx := fresh "Hx" in
         destruct r as [x|] eqn:Hx; [|discriminate H]
     | context [if ok ?r then _ else _] =>
         let Hok := fresh "Hok" in destruct (ok r) eqn:Hok
     | context [if negb (ok ?r) then _ else _] =>
         let Hok := fresh "Hok" in destruct (ok r) eqn:Hok
     end).

(** A success envelope of [get_file_tree] comes after three successful
    responses, and is the rendering of the third. *)
Lemma get_file_tree_success pat a script trace env :
  run (get_file_tree pat a) script = (trace, Some (Ok env)) ->
  isError env = None ->
  exists refRes commitRes treeRes rest treeData,
    script = refRes :: commitRes :: treeRes :: rest
    /\ ok refRes = true /\ ok commitRes = true /\ ok treeRes = true
    /\ length trace = 3%nat
    /\ json treeRes = Ok treeData
    /\ render_tree (ft_path_prefix a) treeData = Ok env.
Proof.
  intros Hrun Herr. unfold get_file_tree in Hrun.
  run_inversion Hrun.
  all: cbn [negb fst snd run ret lift] in Hrun.
  all: try (injection Hrun as _ Henv; subst env; discriminate Herr).
  injection Hrun as <- Henv.
  do 5 eexists.
  split; [reflexivity|]. do 3 (split; [assumption|]).
  split; [reflexivity|]. split; eassumption.
Qed.

(** ** The three hops of [get_file_tree] (C2) *)

(** A handler that surfaces errors and is waiting for a response returns,
    on a non-success response, the error envelope of that response, and
    issues no further request whatever the upstream would answer next. *)
Lemma surfaces_errors_stop (p : Prog Envelope) :
  surfaces_errors p ->
  forall pre res post trace,
    run p pre = (trace, None) ->
    ok res = false ->
    run p (pre ++ res :: post) = (trace, Some (Ok (upstream_error res)))
    /\ length trace = S (length pre).
Proof.
  induction 1 as [r|req k Hbad Hgood IH]; intros pre res post trace Hrun Hok.
  - discriminate Hrun.
  - destruct pre as [|r0 pre]; cbn [app run] in *.
    + injection Hrun as <-. rewrite (Hbad res Hok). split; reflexivity.
    + destruct (run (k r0) pre) as [t o] eqn:Hk. cbn [fst snd] in Hrun.
      injection Hrun as <- ->.
      destruct (ok r0) eqn:Hr0.
      * destruct (IH r0 Hr0 pre res post t Hk Hok) as [-> Hlen].
        cbn [fst snd length]. split; [reflexivity | congruence].
      * rewrite (Hbad r0 Hr0) in Hk. discriminate Hk.
Qed.

(** C2: when [get_file_tree] is waiting for the response of a hop and the
    response has a non-success status, it returns the error envelope of
    that response, whatever the earlier hops answered and whatever the
    upstream would have answered next: no request is issued after the
    failed hop.  The hops are at most three, the branch reference, the
    commit and the recursive tree, and a tree is rendered only after three
    successful responses. *)
Theorem get_file_tree_stops_at_failed_hop pat a :
  (forall pre res post trace,
      run (get_file_tree pat a) pre = (trace, None) ->
      ok res = false ->
      run (get_file_tree pat a) (pre ++ res :: post)
      = (trace,
         Some (Ok {| content :=
                       [TextContent (lit "Error " ++ Number_toString (status res)
                                     ++ lit ": " ++ payload res)];
                     isError := Some true |}))
      /\ length trace = S (length pre)
      /\ (length trace <= 3)%nat)
  /\ (forall refRes commitRes ref object sha commit tree tree_sha,
         ok refRes = true ->
         json refRes = Ok (JObject ref) ->
         lookup (lit "object") ref = Some (JObject object) ->
         lookup (lit "sha") object = Some (JString sha) ->
         ok commitRes = true ->
         json commitRes = Ok (JObject commit) ->
         lookup (lit "tree") commit = Some (JObject tree) ->
         lookup (lit "sha") tree = Some (JString tree_sha) ->
         run (get_file_tree pat a) [refRes; commitRes]
         = (List.map
              (fun path =>
                 {| url := lit "https://api.github.com/repos/adamcfield/rightcraft-io/git/"
                           ++ path;
                    init := {| method := None; body := None;
                               headers := default_headers pat |} |})
              [lit "ref/heads/" ++ or_default (ft_branch a) (lit "main");
               lit "commits/" ++ sha;
               lit "trees/" ++ tree_sha ++ lit "?recursive=1"],
            None))
  /\ (forall script trace env,
         run (get_file_tree pat a) script = (trace, Some (Ok env)) ->
         isError env = None ->
         exists refRes commitRes treeRes rest,
           script = refRes :: commitRes :: treeRes :: rest
           /\ ok refRes = true /\ ok commitRes = true /\ ok treeRes = true).
Proof.
  split; [|split].
  - intros pre res post trace Hrun Hok.
    destruct (surfaces_errors_stop _ (get_file_tree_surfaces pat a)
                pre res post trace Hrun Hok) as [Hstop Hlen].
    split; [exact Hstop|]. split; [exact Hlen|].
    pose proof (calls_at_most_trace 3 (get_file_tree pat a) pre) as Hle.
    rewrite Hrun in Hle. apply Hle. unfold get_file_tree. calls.
  - intros refRes commitRes ref object sha commit tree tree_sha
      Hok1 Hjson1 Hobject Hsha Hok2 Hjson2 Htree Htsha.
    unfold get_file_tree.
    rewrite run_ghFetch_bind, Hok1. cbn [negb].
    rewrite run_lift_bind, Hjson1, run_lift_bind, prop_object, Hobject,
      run_lift_bind, prop_object, Hsha, run_lift_bind.
    cbn [toString JSON_toString].
    rewrite run_ghFetch_bind, Hok2. cbn [negb].
    rewrite run_lift_bind, Hjson2, run_lift_bind, prop_object, Htree,
      run_lift_bind, prop_object, Htsha, run_lift_bind.
    cbn [toString JSON_toString].
    rewrite run_ghFetch_bind. reflexivity.
  - intros script trace env Hrun Herr.
    destruct (get_file_tree_success pat a script trace env Hrun Herr)
      as (refRes & commitRes & treeRes & rest & treeData & Hs & H1 & H2 & H3 & _).
    exists refRes, commitRes, treeRes, rest. auto.
Qed.

(** An instance: the commit lookup fails, the tree is never requested. *)
Lemma get_file_tree_stops_at_failed_hop_witness :
  let a := {| ft_branch := None; ft_path_prefix := None |} in
  let get path :=
    {| url := lit "https://api.github.com/repos/adamcfield/rightcraft-io/git/" ++ lit path;
       init := {| method := None; body := None;
                  headers :=
                    [(lit "Authorization", lit "Bearer token");
                     (lit "Accept", lit "application/vnd.github+json");
                     (lit "X-GitHub-Api-Version", lit "2022-11-28");
                     (lit "User-Agent", lit "github-mcp-worker/1.0")] |} |} in
  let refRes := {| status := 200; payload := quoted "{'object':{'sha':'c0ffee1'}}" |} in
  let commitRes := {| status := 404; payload := lit "Not Found" |} in
  let treeRes := {| status := 200; payload := quoted "{'tree':[],'truncated':false}" |} in
  let trace := [get "ref/heads/main"%string; get "commits/c0ffee1"%string] in
  run (get_file_tree (Some (lit "token")) a) [refRes] = (trace, None)
  /\ ok commitRes = false
  /\ run (get_file_tree (Some (lit "token")) a) [refRes; commitRes; treeRes]
     = (trace,
        Some (Ok {| content := [TextContent (lit "Error 404: Not Found")];
                    isError := Some true |})).
Proof.
  intros a get refRes commitRes treeRes trace.
  assert (Hrun : run (get_file_tree (Some (lit "token")) a) [refRes] = (trace, None))
    by (vm_compute; reflexivity).
  assert (Hok : ok commitRes = false) by reflexivity.
  split; [exact Hrun|]. split; [exact Hok|].
  exact (proj1 (proj1 (get_file_tree_stops_at_failed_hop (Some (lit "token")) a)
                  [refRes] commitRes [treeRes] trace Hrun Hok)).
Defined.

(** ** [write_file]: the version token (C4, C9) *)

Lemma jsstring_eqb_eq s t : jsstring_eqb s t = true <-> s = t.
Proof.
  revert t. induction s as [|c s IH]; intros [|d t]; cbn [jsstring_eqb];
    try (split; [discriminate | discriminate]); try tauto.
  rewrite andb_true_iff, Z.eqb_eq, IH. split.
  - intros [-> ->]. reflexivity.
  - intros H. injection H as -> ->. split; reflexivity.
Qed.

(** The two requests of [write_file] and its confirmation, given the token
    the existence check yields. *)
Lemma write_file_run pat a existing sha p escaped encoded :
  encodeURIComponent (wf_path a) = Ok p ->
  encodeURIComponent (wf_content a) = Ok escaped ->
  btoa (unescape escaped) = Ok encoded ->
  existing_sha existing = Ok sha ->
  let ref := or_default (wf_branch a) (lit "main") in
  let getReq :=
    ghFetch_request (repo_path (lit "/contents/" ++ p ++ lit "?ref=" ++ ref))
      pat no_options in
  let putReq :=
    ghFetch_request (repo_path (lit "/contents/" ++ p)) pat
      (with_body "PUT"
         (JSON_stringify (write_file_body (wf_message a) encoded ref sha))) in
  run (write_file pat a) [existing] = ([getReq; putReq], None)
  /\ (forall res rest,
         ok res = false ->
         run (write_file pat a) (existing :: res :: rest)
         = ([getReq; putReq], Some (Ok (upstream_error res))))
  /\ (forall res rest result label,
         ok res = true ->
         json res = Ok result ->
         commit_label result = Ok label ->
         run (write_file pat a) (existing :: res :: rest)
         = ([getReq; putReq],
            Some (Ok (text_envelope
                        (lit "File "
                         ++ (if truthy sha then lit "updated" else lit "created")
                         ++ lit ": " ++ wf_path a ++ lit " (commit: " ++ label
                         ++ lit ")"))))).
Proof.
  intros Hp Hescaped Hencoded Hsha ref getReq putReq. unfold write_file.
  cbv zeta. split; [|split]; intros;
    rewrite run_lift_bind, Hp, run_ghFetch_bind;
    rewrite run_lift_bind, Hsha, run_lift_bind, Hescaped;
    rewrite run_lift_bind, Hencoded, run_lift_bind, run_ghFetch_bind.
  - reflexivity.
  - rewrite H. reflexivity.
  - rewrite H. cbn [negb]. rewrite run_lift_bind, H0, run_lift_bind, H1.
    reflexivity.
Qed.

(** C4: the PUT body of [write_file] has no [sha] field when the existence
    check yields no version token, and has exactly the token as its [sha]
    when it yields one; the confirmation reads [created] in the first case
    and [updated] in the second. *)
Theorem write_file_version_token pat a existing sha p escaped encoded :
  encodeURIComponent (wf_path a) = Ok p ->
  encodeURIComponent (wf_content a) = Ok escaped ->
  btoa (unescape escaped) = Ok encoded ->
  existing_sha existing = Ok sha ->
  let ref := or_default (wf_branch a) (lit "main") in
  let fields :=
    [(lit "message", JString (wf_message a));
     (lit "content", JString encoded);
     (lit "branch", JString ref)] in
  let putReq body :=
    ghFetch_request (repo_path (lit "/contents/" ++ p)) pat
      (with_body "PUT" (JSON_stringify body)) in
  let confirmation word label :=
    text_envelope (lit "File " ++ lit word ++ lit ": " ++ wf_path a
                   ++ lit " (commit: " ++ label ++ lit ")") in
  (truthy sha = false ->
   lookup (lit "sha") fields = None
   /\ nth_error (fst (run (write_file pat a) [existing])) 1
      = Some (putReq (JObject fields))
   /\ forall res result label,
        ok res = true -> json res = Ok result -> commit_label result = Ok label ->
        snd (run (write_file pat a) [existing; res])
        = Some (Ok (confirmation "created"%string label)))
  /\ (truthy sha = true ->
      exists token,
        sha = Some token
        /\ lookup (lit "sha") (fields ++ [(lit "sha", token)]) = Some token
        /\ nth_error (fst (run (write_file pat a) [existing])) 1
           = Some (putReq (JObject (fields ++ [(lit "sha", token)])))
        /\ forall res result label,
             ok res = true -> json res = Ok result -> commit_label result = Ok label ->
             snd (run (write_file pat a) [existing; res])
             = Some (Ok (confirmation "updated"%string label))).
Proof.
  intros Hp Hescaped Hencoded Hsha ref fields putReq confirmation.
  destruct (write_file_run pat a existing sha p escaped encoded
              Hp Hescaped Hencoded Hsha) as (Hreqs & _ & Hdone).
  fold ref in Hreqs, Hdone. split.
  - intros Hfalsy. split; [reflexivity|]. split.
    + rewrite Hreqs. cbn [fst nth_error]. unfold write_file_body.
      rewrite Hfalsy. destruct sha; reflexivity.
    + intros res result label Hok Hjson Hlabel.
      rewrite (Hdone res [] result label Hok Hjson Hlabel), Hfalsy. reflexivity.
  - intros Htruthy. destruct sha as [token|]; [|discriminate Htruthy].
    exists token. split; [reflexivity|]. split; [reflexivity|]. split.
    + rewrite Hreqs. cbn [fst nth_error]. unfold write_file_body.
      rewrite Htruthy. reflexivity.
    + intros res result label Hok Hjson Hlabel.
      rewrite (Hdone res [] result label Hok Hjson Hlabel), Htruthy. reflexivity.
Qed.

(** An instance: the file exists, its token is sent and the confirmation
    reads [updated]. *)
Lemma write_file_version_token_witness :
  let a := {| wf_path := lit "docs/notes.md"; wf_content := lit "Hello";
              wf_message := lit "Update notes"; wf_branch := None |} in
  let token := JString (lit "3d21ec53a331a6f037a91c368710b99387d012c1") in
  let existing :=
    {| status := 200;
       payload := JSON_stringify (JObject [(lit "type", JString (lit "file"));
                                           (lit "sha", token)]) |} in
  let res :=
    {| status := 200;
       payload :=
         JSON_stringify
           (JObject [(lit "commit",
                       JObject [(lit "sha", JString (lit "7638417db6d59f3c431d3e1f261cc637155684cd"))])]) |} in
  existing_sha existing = Ok (Some token)
  /\ (init (nth 1 (fst (run (write_file None a) [existing]))
              (ghFetch_request [] None no_options))).(body)
     = Some (JSON_stringify
               (JObject [(lit "message", JString (lit "Update notes"));
                         (lit "content", JString (lit "SGVsbG8="));
                         (lit "branch", JString (lit "main"));
                         (lit "sha", token)]))
  /\ snd (run (write_file None a) [existing; res])
     = Some (Ok (text_envelope
                   (lit "File updated: docs/notes.md (commit: 7638417)"))).
Proof.
  intros a token existing res.
  assert (Hsha : existing_sha existing = Ok (Some token))
    by (vm_compute; reflexivity).
  destruct (proj2 (write_file_version_token None a existing (Some token)
                     (lit "docs%2Fnotes.md") (lit "Hello") (lit "SGVsbG8=")
                     eq_refl eq_refl eq_refl Hsha) eq_refl)
    as (token' & Htoken & _ & Hput & Hdone).
  injection Htoken as <-.
  split; [exact Hsha|]. split.
  - apply nth_error_nth with (d := ghFetch_request [] None no_options) in Hput.
    rewrite Hput. reflexivity.
  - rewrite (Hdone res
               (JObject [(lit "commit",
                           JObject [(lit "sha", JString (lit "7638417db6d59f3c431d3e1f261cc637155684cd"))])])
               (lit "7638417") eq_refl).
    + reflexivity.
    + vm_compute. reflexivity.
    + reflexivity.
Defined.

(** C9: when the existence check of [write_file] has any non-success
    status, the handler does not return that error: it goes on to the PUT,
    whose body is the JSON of the message, the content and the branch and
    has no [sha] field, and once the PUT succeeds it reports the file as
    created, in an envelope without the error flag. *)
Theorem write_file_failed_check_is_absent pat a existing p escaped encoded :
  ok existing = false ->
  encodeURIComponent (wf_path a) = Ok p ->
  encodeURIComponent (wf_content a) = Ok escaped ->
  btoa (unescape escaped) = Ok encoded ->
  let ref := or_default (wf_branch a) (lit "main") in
  let fields :=
    [(lit "message", JString (wf_message a));
     (lit "content", JString encoded);
     (lit "branch", JString ref)] in
  let contents :=
    lit "https://api.github.com/repos/adamcfield/rightcraft-io/contents/" ++ p in
  let getReq :=
    {| url := contents ++ lit "?ref=" ++ ref;
       init := {| method := None; body := None; headers := default_headers pat |} |} in
  let putReq :=
    {| url := contents;
       init := {| method := Some (lit "PUT");
                  body := Some (JSON_stringify (JObject fields));
                  headers := default_headers pat |} |} in
  lookup (lit "sha") fields = None
  /\ run (write_file pat a) [existing] = ([getReq; putReq], None)
  /\ forall res result label,
       ok res = true -> json res = Ok result -> commit_label result = Ok label ->
       run (write_file pat a) [existing; res]
       = ([getReq; putReq],
          Some (Ok {| content :=
                        [TextContent (lit "File created: " ++ wf_path a
                                      ++ lit " (commit: " ++ label ++ lit ")")];
                      isError := None |})).
Proof.
  intros Hbad Hp Hescaped Hencoded ref fields contents getReq putReq.
  assert (Hsha : existing_sha existing = Ok None).
  { unfold existing_sha. rewrite Hbad. reflexivity. }
  destruct (write_file_run pat a existing None p escaped encoded
              Hp Hescaped Hencoded Hsha) as (Hreqs & _ & Hdone).
  split; [reflexivity|]. split; [exact Hreqs|].
  intros res result label Hok Hjson Hlabel.
  exact (Hdone res [] result label Hok Hjson Hlabel).
Qed.

(** An instance: the existence check is refused with status 500; the PUT
    goes out without [sha] and the file is reported as created. *)
Lemma write_file_failed_check_is_absent_witness :
  let a := {| wf_path := lit "docs/notes.md"; wf_content := lit "Hello";
              wf_message := lit "Update notes"; wf_branch := None |} in
  let existing := {| status := 500; payload := lit "Server Error" |} in
  let res :=
    {| status := 201;
       payload := quoted "{'commit':{'sha':'7638417db6d59f3c431d3e1f261cc637155684cd'}}" |} in
  let fixed :=
    [(lit "Authorization", lit "Bearer token");
     (lit "Accept", lit "application/vnd.github+json");
     (lit "X-GitHub-Api-Version", lit "2022-11-28");
     (lit "User-Agent", lit "github-mcp-worker/1.0")] in
  let getReq :=
    {| url := lit "https://api.github.com/repos/adamcfield/rightcraft-io/contents/docs%2Fnotes.md?ref=main";
       init := {| method := None; body := None; headers := fixed |} |} in
  let putReq :=
    {| url := lit "https://api.github.com/repos/adamcfield/rightcraft-io/contents/docs%2Fnotes.md";
       init :=
         {| method := Some (lit "PUT");
            body := Some (quoted "{'message':'Update notes','content':'SGVsbG8=','branch':'main'}");
            headers := fixed |} |} in
  ok existing = false
  /\ run (write_file (Some (lit "token")) a) [existing; res]
     = ([getReq; putReq],
        Some (Ok {| content :=
                      [TextContent (lit "File created: docs/notes.md (commit: 7638417)")];
                    isError := None |})).
Proof.
  intros a existing res fixed getReq putReq.
  assert (Hbad : ok existing = false) by reflexivity.
  split; [exact Hbad|].
  destruct (write_file_failed_check_is_absent (Some (lit "token")) a existing
              (lit "docs%2Fnotes.md") (lit "Hello") (lit "SGVsbG8=")
              Hbad eq_refl eq_refl eq_refl) as (_ & _ & Hdone).
  rewrite (Hdone res
             (JObject [(lit "commit",
                         JObject [(lit "sha", JString (lit "7638417db6d59f3c431d3e1f261cc637155684cd"))])])
             (lit "7638417") eq_refl).
  - vm_compute. reflexivity.
  - vm_compute. reflexivity.
  - reflexivity.
Defined.

(** ** [read_file]: an empty content (C10) *)

Lemma strict_equals_string_true v s :
  strict_equals_string v s = true -> v = Some (JString s).
Proof.
  destruct v as [[| | | |t| |]|]; cbn [strict_equals_string]; try discriminate.
  intros H. apply jsstring_eqb_eq in H. congruence.
Qed.

Lemma truthy_string_receiver v s :
  truthy v = true -> string_receiver v = Ok s -> v = Some (JString s) /\ s <> [].
Proof.
  destruct v as [[| | | |t| |]|]; cbn [string_receiver]; try discriminate.
  intros Ht H. injection H as <-. split; [reflexivity|].
  destruct t; [discriminate Ht | discriminate].
Qed.

(** C10: a successful response of kind [file] whose content is the empty
    string makes [read_file] return the envelope that calls the path a
    directory and points to [list_files]; and [read_file] returns a success
    envelope only for a response of kind [file] whose content is a non-empty
    string, of which the text is the decoding. *)
Theorem read_file_empty_content pat a :
  (forall p res fields rest,
      encodeURIComponent (rf_path a) = Ok p ->
      ok res = true ->
      json res = Ok (JObject fields) ->
      lookup (lit "type") fields = Some (JString (lit "file")) ->
      lookup (lit "content") fields = Some (JString []) ->
      snd (run (read_file pat a) (res :: rest))
      = Some (Ok {| content :=
                      [TextContent
                         (lit "Path '" ++ rf_path a
                          ++ lit "' is a directory, not a file. Use list_files instead.")];
                    isError := Some true |}))
  /\ (forall script trace env,
         run (read_file pat a) script = (trace, Some (Ok env)) ->
         isError env = None ->
         exists res rest data s,
           script = res :: rest
           /\ ok res = true
           /\ json res = Ok data
           /\ prop (Some data) (lit "type") = Ok (Some (JString (lit "file")))
           /\ prop (Some data) (lit "content") = Ok (Some (JString s))
           /\ s <> []
           /\ atob (remove_newlines s) = Ok (envelope_text env)).
Proof.
  split.
  - intros p res fields rest Hp Hok Hjson Htype Hcontent.
    unfold read_file. cbv zeta.
    rewrite run_lift_bind, Hp, run_ghFetch_bind, Hok. cbn [negb snd].
    rewrite run_lift_bind, Hjson, run_lift_bind, prop_object, Htype.
    replace (strict_equals_string (Some (JString (lit "file"))) (lit "file"))
      with true by reflexivity.
    cbn [negb]. rewrite run_lift_bind, prop_object, Hcontent. reflexivity.
  - intros script trace env Hrun Herr. unfold read_file in Hrun.
    cbv zeta in Hrun. run_inversion Hrun.
    2:{ cbn [negb fst snd run ret lift] in Hrun.
        injection Hrun as _ Henv. subst env. discriminate Herr. }
    destruct (strict_equals_string x1 (lit "file")) eqn:Htype; cbn [negb] in Hrun.
    2:{ cbn [fst snd run ret] in Hrun. injection Hrun as _ Henv.
        subst env. discriminate Herr. }
    run_inversion Hrun.
    destruct (truthy x2) eqn:Htruthy; cbn [negb] in Hrun.
    2:{ cbn [fst snd run ret] in Hrun. injection Hrun as _ Henv.
        subst env. discriminate Herr. }
    run_inversion Hrun. cbn [fst snd run ret] in Hrun.
    injection Hrun as _ Henv. subst env.
    apply strict_equals_string_true in Htype. subst x1.
    match goal with
    | H : string_receiver _ = Ok _ |- _ =>
        destruct (truthy_string_receiver _ _ Htruthy H) as [-> Hne]
    end.
    do 4 eexists. split; [reflexivity|]. split; [assumption|].
    split; [eassumption|]. split; [assumption|]. split; [eassumption|].
    split; [assumption|]. cbn [envelope_text text_envelope content]. assumption.
Qed.

(** An instance: an empty file. *)
Lemma read_file_empty_content_witness :
  let a := {| rf_path := lit "empty.txt"; rf_branch := None |} in
  let fields := [(lit "type", JString (lit "file"));
                 (lit "content", JString []);
                 (lit "encoding", JString (lit "base64"))] in
  let res := {| status := 200; payload := JSON_stringify (JObject fields) |} in
  ok res = true
  /\ json res = Ok (JObject fields)
  /\ snd (run (read_file None a) [res])
     = Some (Ok (error_envelope
                   (lit "Path 'empty.txt' is a directory, not a file. Use list_files instead."))).
Proof.
  intros a fields res.
  assert (Hok : ok res = true) by reflexivity.
  assert (Hjson : json res = Ok (JObject fields)) by (vm_compute; reflexivity).
  split; [exact Hok|]. split; [exact Hjson|].
  exact (proj1 (read_file_empty_content None a) (lit "empty.txt") res fields []
           eq_refl Hok Hjson eq_refl eq_refl).
Defined.

(** ** [get_file_tree]: the listing (C5) *)

Lemma filter_result_filter {A : Type} (f : A -> Result bool) (g : A -> bool) l l' :
  filter_result f l = Ok l' ->
  (forall a b, In a l -> f a = Ok b -> b = g a) ->
  l' = filter g l.
Proof.
  revert l'. induction l as [|a l IH]; intros l' Hf Hg; cbn [filter_result] in Hf.
  - injection Hf as <-. reflexivity.
  - destruct (f a) as [b|] eqn:Hfa; [|discriminate Hf]. cbn [rbind] in Hf.
    destruct (filter_result f l) as [r|]; [|discriminate Hf]. cbn [rbind] in Hf.
    injection Hf as <-. cbn [filter].
    rewrite <- (Hg a b (or_introl eq_refl) Hfa).
    rewrite <- (IH r eq_refl (fun a' b' Hin => Hg a' b' (or_intror Hin))).
    reflexivity.
Qed.

Lemma map_result_map {A B : Type} (f : A -> Result B) (g : A -> B) l l' :
  map_result f l = Ok l' ->
  (forall a b, In a l -> f a = Ok b -> b = g a) ->
  l' = List.map g l.
Proof.
  revert l'. induction l as [|a l IH]; intros l' Hf Hg; cbn [map_result] in Hf.
  - injection Hf as <-. reflexivity.
  - destruct (f a) as [b|] eqn:Hfa; [|discriminate Hf]. cbn [rbind] in Hf.
    destruct (map_result f l) as [r|]; [|discriminate Hf]. cbn [rbind] in Hf.
    injection Hf as <-. cbn [List.map].
    rewrite <- (Hg a b (or_introl eq_refl) Hfa).
    rewrite <- (IH r eq_refl (fun a' b' Hin => Hg a' b' (or_intror Hin))).
    reflexivity.
Qed.

(** Reading [type] or [path] off an entry. *)
Lemma prop_entry_member k e v :
  jsstring_eqb k (lit "length") = false ->
  prop (Some e) k = Ok v -> v = entry_member k e.
Proof.
  intros Hk. destruct e; cbn [prop entry_member]; rewrite ?Hk; congruence.
Qed.

Lemma is_blob_blob_entry e b : is_blob e = Ok b -> b = blob_entry e.
Proof.
  unfold is_blob, blob_entry.
  destruct (prop (Some e) (lit "type")) as [v|] eqn:Hv; [|discriminate].
  cbn [rbind]. intros H. injection H as <-.
  rewrite (prop_entry_member (lit "type") e v eq_refl Hv). reflexivity.
Qed.

Lemma under_prefix_path_has_prefix prefix e b :
  under_prefix prefix e = Ok b -> b = path_has_prefix prefix e.
Proof.
  unfold under_prefix, path_has_prefix.
  destruct (prop (Some e) (lit "path")) as [v|] eqn:Hv; [|discriminate].
  cbn [rbind]. rewrite <- (prop_entry_member (lit "path") e v eq_refl Hv).
  destruct v as [[| | | |s| |]|]; cbn [string_receiver rbind]; try discriminate.
  intros H. injection H as <-. reflexivity.
Qed.

Lemma map_result_Ok {A B : Type} (f : A -> Result B) l l' :
  map_result f l = Ok l' -> Forall2 (fun a b => f a = Ok b) l l'.
Proof.
  revert l'. induction l as [|a l IH]; intros l' H; cbn [map_result] in H.
  - injection H as <-. constructor.
  - destruct (f a) as [b|] eqn:Hfa; [|discriminate H]. cbn [rbind] in H.
    destruct (map_result f l) as [r|]; [|discriminate H]. cbn [rbind] in H.
    injection H as <-. constructor; [exact Hfa | apply IH; reflexivity].
Qed.

(** What [render_tree] renders, when it renders. *)
Lemma render_tree_listing path_prefix treeData env :
  render_tree path_prefix treeData = Ok env ->
  exists all truncated paths,
    prop (Some treeData) (lit "tree") = Ok (Some (JArray all))
    /\ prop (Some treeData) (lit "truncated") = Ok truncated
    /\ let entries := filter (listed path_prefix) all in
       Forall2 (fun e path => toString_or_empty (entry_member (lit "path") e) = Ok path)
         entries paths
       /\ env = text_envelope
                  (Number_toString (Z.of_nat (length entries)) ++ lit " files"
                   ++ (match path_prefix with
                       | Some (c :: r) => lit " under '" ++ (c :: r) ++ lit "'"
                       | _ => []
                       end)
                   ++ lit ":" ++ nl
                   ++ join nl paths
                   ++ (if truthy truncated then truncated_warning else [])).
Proof.
  unfold render_tree. intros H.
  destruct (prop (Some treeData) (lit "tree")) as [tree|] eqn:Htree; [|discriminate H].
  cbn [rbind] in H.
  destruct tree as [[| | | | |all|]|]; cbn [array_receiver rbind] in H; try discriminate H.
  destruct (filter_result is_blob all) as [blobs|] eqn:Hblobs; [|discriminate H].
  cbn [rbind] in H.
  apply filter_result_filter with (g := blob_entry) in Hblobs;
    [|intros e b _; apply is_blob_blob_entry].
  match type of H with
  | rbind ?r _ = _ => destruct r as [entries|] eqn:Hentries; [|discriminate H]
  end.
  cbn [rbind] in H.
  assert (Hlisted : entries = filter (listed path_prefix) all).
  { unfold listed. destruct path_prefix as [[|c r]|].
    - injection Hentries as <-. subst blobs. apply filter_ext.
      intros e. rewrite andb_true_r. reflexivity.
    - apply filter_result_filter with (g := path_has_prefix (c :: r)) in Hentries;
        [|intros e b _; apply under_prefix_path_has_prefix].
      subst entries blobs. clear.
      induction all as [|e all IH]; [reflexivity|]. cbn [filter].
      destruct (blob_entry e); cbn [filter andb]; rewrite IH; reflexivity.
    - injection Hentries as <-. subst blobs. apply filter_ext.
      intros e. rewrite andb_true_r. reflexivity. }
  destruct (map_result (fun e => prop (Some e) (lit "path")) entries)
    as [values|] eqn:Hvalues; [|discriminate H].
  cbn [rbind] in H.
  apply map_result_map with (g := entry_member (lit "path")) in Hvalues;
    [|intros e v _; apply prop_entry_member; reflexivity].
  unfold join_values in H.
  destruct (map_result toString_or_empty values) as [paths|] eqn:Hpaths;
    [|discriminate H].
  cbn [rbind] in H.
  destruct (prop (Some treeData) (lit "truncated")) as [truncated|] eqn:Htruncated;
    [|discriminate H].
  cbn [rbind] in H. injection H as <-.
  exists all, truncated, paths. split; [reflexivity|]. split; [reflexivity|].
  cbv zeta. rewrite <- Hlisted. split; [|reflexivity].
  apply map_result_Ok in Hpaths. subst values. clear - Hpaths.
  remember (List.map (entry_member (lit "path")) entries) as values eqn:Hv.
  revert entries Hv.
  induction Hpaths as [|v path values paths Hvp _ IH]; intros [|e entries] Hv;
    try discriminate Hv; [constructor|].
  cbn [List.map] in Hv. injection Hv as -> ->.
  constructor; [exact Hvp | apply IH; reflexivity].
Qed.

Lemma filter_listed_blobs path_prefix all :
  Forall (fun e => entry_member (lit "type") e = Some (JString (lit "blob")))
    (filter (listed path_prefix) all).
Proof.
  apply Forall_forall. intros e He. apply filter_In in He as [_ He].
  unfold listed in He. apply andb_true_iff in He as [He _].
  apply strict_equals_string_true in He. exact He.
Qed.

Lemma filter_listed_prefix c r all :
  Forall (fun e => exists s, entry_member (lit "path") e = Some (JString s)
                             /\ startsWith s (c :: r) = true)
    (filter (listed (Some (c :: r))) all)
  /\ incl (filter (listed (Some (c :: r))) all) (filter (listed None) all).
Proof.
  split.
  - apply Forall_forall. intros e He. apply filter_In in He as [_ He].
    unfold listed in He. apply andb_true_iff in He as [_ He].
    unfold path_has_prefix in He.
    destruct (entry_member (lit "path") e) as [[| | | |s| |]|]; try discriminate He.
    exists s. split; [reflexivity | exact He].
  - intros e He. apply filter_In in He as [Hin He]. apply filter_In.
    split; [exact Hin|]. unfold listed in *.
    apply andb_true_iff in He as [He _]. rewrite He. reflexivity.
Qed.

(** C5: the text of a successful [get_file_tree] lists the paths of exactly
    the entries of the fetched tree that are blobs and, with a [path_prefix],
    whose path starts with the prefix, each path as the string [join] makes
    of it; every listed entry is a blob, the listing with a prefix is part
    of the listing without, and when the upstream marks the tree as
    truncated, the text ends with an empty line and the warning
    [(tree was truncated - repo has many files)], written with an em
    dash. *)
Theorem get_file_tree_listing pat a script trace env :
  run (get_file_tree pat a) script = (trace, Some (Ok env)) ->
  isError env = None ->
  exists treeRes treeData all truncated paths,
    nth_error script 2 = Some treeRes
    /\ json treeRes = Ok treeData
    /\ prop (Some treeData) (lit "tree") = Ok (Some (JArray all))
    /\ prop (Some treeData) (lit "truncated") = Ok truncated
    /\ let entries := filter (listed (ft_path_prefix a)) all in
       let heading :=
         Number_toString (Z.of_nat (length entries)) ++ lit " files"
         ++ (match ft_path_prefix a with
             | Some (c :: r) => lit " under '" ++ (c :: r) ++ lit "'"
             | _ => []
             end)
         ++ lit ":" ++ nl in
       let warning :=
         [10; 10] ++ lit "(tree was truncated " ++ [8212]
         ++ lit " repo has many files)" in
       Forall2 (fun e path => toString_or_empty (entry_member (lit "path") e) = Ok path)
         entries paths
       /\ content env
          = [TextContent (heading ++ join nl paths
                          ++ (if truthy truncated then warning else []))]
       /\ Forall (fun e => entry_member (lit "type") e = Some (JString (lit "blob")))
            entries
       /\ (forall c r,
              ft_path_prefix a = Some (c :: r) ->
              Forall (fun e => exists s,
                          entry_member (lit "path") e = Some (JString s)
                          /\ startsWith s (c :: r) = true) entries
              /\ incl entries (filter (listed None) all))
       /\ (truthy truncated = true ->
           content env = [TextContent ((heading ++ join nl paths) ++ warning)]).
Proof.
  intros Hrun Herr.
  destruct (get_file_tree_success pat a script trace env Hrun Herr)
    as (refRes & commitRes & treeRes & rest & treeData
        & -> & _ & _ & _ & _ & Hjson & Hrender).
  destruct (render_tree_listing _ _ _ Hrender)
    as (all & truncated & paths & Htree & Htruncated & Hpaths & Henv).
  exists treeRes, treeData, all, truncated, paths.
  split; [reflexivity|]. split; [exact Hjson|]. split; [exact Htree|].
  split; [exact Htruncated|]. cbv zeta in *. subst env.
  cbn [content text_envelope]. split; [exact Hpaths|]. split.
  - rewrite <- !app_assoc. reflexivity.
  - split; [apply filter_listed_blobs|]. split.
    + intros c r ->. apply filter_listed_prefix.
    + intros ->. rewrite <- !app_assoc. reflexivity.
Qed.

(** An instance: a truncated tree with a blob under [src/], the directory
    itself and a blob elsewhere, listed under the prefix [src/]. *)
Lemma get_file_tree_listing_witness :
  let a := {| ft_branch := Some (lit "main"); ft_path_prefix := Some (lit "src/") |} in
  let entry path kind :=
    JObject [(lit "path", JString (lit path)); (lit "type", JString (lit kind))] in
  let all := [entry "src/a.ts"%string "blob"%string;
              entry "src/"%string "tree"%string;
              entry "docs/b.md"%string "blob"%string] in
  let refRes := {| status := 200; payload := quoted "{'object':{'sha':'c0ffee1'}}" |} in
  let commitRes := {| status := 200; payload := quoted "{'tree':{'sha':'7ee5a11'}}" |} in
  let treeRes :=
    {| status := 200;
       payload :=
         quoted "{'tree':[{'path':'src/a.ts','type':'blob'},{'path':'src/','type':'tree'},{'path':'docs/b.md','type':'blob'}],'truncated':true}" |} in
  let script := [refRes; commitRes; treeRes] in
  let env :=
    {| content :=
         [TextContent
            (lit "1 files under 'src/':" ++ [10] ++ lit "src/a.ts" ++ [10; 10]
             ++ lit "(tree was truncated " ++ [8212] ++ lit " repo has many files)")];
       isError := None |} in
  snd (run (get_file_tree None a) script) = Some (Ok env)
  /\ isError env = None
  /\ json treeRes = Ok (JObject [(lit "tree", JArray all); (lit "truncated", JBool true)])
  /\ exists listed_entries,
       listed_entries = [entry "src/a.ts"%string "blob"%string]
       /\ Forall (fun e => entry_member (lit "type") e = Some (JString (lit "blob")))
            listed_entries.
Proof.
  intros a entry all refRes commitRes treeRes script env.
  assert (Hrun : run (get_file_tree None a) script
                 = (fst (run (get_file_tree None a) script), Some (Ok env)))
    by (vm_compute; reflexivity).
  assert (Herr : isError env = None) by reflexivity.
  assert (Hdata : json treeRes
                  = Ok (JObject [(lit "tree", JArray all);
                                 (lit "truncated", JBool true)]))
    by (vm_compute; reflexivity).
  split; [rewrite Hrun; reflexivity|]. split; [exact Herr|]. split; [exact Hdata|].
  destruct (get_file_tree_listing None a script _ env Hrun Herr)
    as (treeRes' & treeData & all' & truncated & paths
        & Hnth & Hjson & Htree & Htruncated & _ & _ & Hblobs & _).
  cbn [script nth_error] in Hnth. injection Hnth as <-.
  rewrite Hdata in Hjson. injection Hjson as <-.
  rewrite prop_object in Htree, Htruncated.
  change (lookup (lit "tree")
            [(lit "tree", JArray all); (lit "truncated", JBool true)])
    with (Some (JArray all)) in Htree.
  injection Htree as <-.
  exists (filter (listed (ft_path_prefix a)) all).
  split; [reflexivity | exact Hblobs].
Defined.

(** ** Commit hashes in the confirmations (C7) *)

Lemma commit_label_short fields commit full :
  lookup (lit "commit") fields = Some (JObject commit) ->
  lookup (lit "sha") commit = Some (JString full) ->
  full <> [] ->
  commit_label (JObject fields) = Ok (slice0 7 full).
Proof.
  intros Hcommit Hsha Hfull. unfold commit_label.
  rewrite prop_object, Hcommit. cbn [rbind optional_prop].
  rewrite prop_object, Hsha. cbn [rbind optional_slice_method slice_method].
  destruct full as [|c full]; [congruence|]. reflexivity.
Qed.

Lemma list_branches_lines l branches :
  Forall2 (fun e b => branch_entry e (fst b) (snd b)) l branches ->
  map_result list_branches_line l
  = Ok (List.map (fun b => lit "  " ++ fst b ++ lit " (" ++ slice0 7 (snd b) ++ lit ")")
          branches).
Proof.
  induction 1 as [|e b l branches (fields & commit & -> & Hname & Hcommit & Hsha) _ IH];
    cbn [map_result List.map].
  - reflexivity.
  - rewrite IH. unfold list_branches_line.
    rewrite !prop_object, Hname, Hcommit. cbn [rbind].
    rewrite prop_object, Hsha. reflexivity.
Qed.

(** C7, as the code has it: [write_file] and [list_branches] show the first
    seven characters of a commit hash; [merge_pr] shows the hash of the merge
    commit in full. *)
Theorem commit_hash_rendering pat :
  (forall a existing sha p escaped encoded res fields commit full,
      encodeURIComponent (wf_path a) = Ok p ->
      encodeURIComponent (wf_content a) = Ok escaped ->
      btoa (unescape escaped) = Ok encoded ->
      existing_sha existing = Ok sha ->
      ok res = true ->
      json res = Ok (JObject fields) ->
      lookup (lit "commit") fields = Some (JObject commit) ->
      lookup (lit "sha") commit = Some (JString full) ->
      full <> [] ->
      snd (run (write_file pat a) [existing; res])
      = Some (Ok {| content :=
                      [TextContent
                         (lit "File "
                          ++ (if truthy sha then lit "updated" else lit "created")
                          ++ lit ": " ++ wf_path a ++ lit " (commit: "
                          ++ firstn 7 full ++ lit ")")];
                    isError := None |}))
  /\ (forall res l branches,
         ok res = true ->
         json res = Ok (JArray l) ->
         Forall2 (fun e b => branch_entry e (fst b) (snd b)) l branches ->
         snd (run (list_branches pat tt) [res])
         = Some (Ok {| content :=
                         [TextContent
                            (lit "Branches:" ++ [10]
                             ++ join [10]
                                  (List.map (fun b => lit "  " ++ fst b ++ lit " ("
                                                      ++ firstn 7 (snd b) ++ lit ")")
                                     branches))];
                       isError := None |}))
  /\ (forall a res fields message full,
         ok res = true ->
         json res = Ok (JObject fields) ->
         lookup (lit "message") fields = Some (JString message) ->
         lookup (lit "sha") fields = Some (JString full) ->
         snd (run (merge_pr pat a) [res])
         = Some (Ok {| content :=
                         [TextContent
                            (lit "PR #" ++ Number_toString (Zpos (mp_pull_number a))
                             ++ lit " merged successfully." ++ [10]
                             ++ message ++ [10]
                             ++ lit "Commit: " ++ full)];
                       isError := None |})).
Proof.
  split; [|split].
  - intros a existing sha p escaped encoded res fields commit full
      Hp Hescaped Hencoded Hsha Hok Hjson Hcommit Hfull Hne.
    destruct (write_file_run pat a existing sha p escaped encoded
                Hp Hescaped Hencoded Hsha) as (_ & _ & Hdone).
    rewrite (Hdone res [] (JObject fields) (slice0 7 full) Hok Hjson
               (commit_label_short fields commit full Hcommit Hfull Hne)).
    reflexivity.
  - intros res l branches Hok Hjson Hl. unfold list_branches.
    rewrite run_ghFetch_bind, Hok. cbn [negb snd].
    rewrite run_lift_bind, Hjson. cbn [array_receiver].
    rewrite run_lift_bind, run_lift_bind, (list_branches_lines l branches Hl).
    reflexivity.
  - intros a res fields message full Hok Hjson Hmessage Hsha. unfold merge_pr.
    cbv zeta. rewrite run_ghFetch_bind, Hok. cbn [negb snd].
    rewrite run_lift_bind, Hjson, run_lift_bind, prop_object, Hmessage.
    rewrite run_lift_bind. cbn [toString JSON_toString].
    rewrite run_lift_bind, prop_object, Hsha. reflexivity.
Qed.

(** An instance of each: a file written, a branch listing and a merge. *)
Lemma commit_hash_rendering_witness :
  let w := {| wf_path := lit "docs/notes.md"; wf_content := lit "Hello";
              wf_message := lit "Update notes"; wf_branch := None |} in
  let existing := {| status := 404; payload := lit "Not Found" |} in
  let written :=
    {| status := 201;
       payload := quoted "{'commit':{'sha':'7638417db6d59f3c431d3e1f261cc637155684cd'}}" |} in
  let listing :=
    {| status := 200;
       payload :=
         quoted "[{'name':'main','commit':{'sha':'6dcb09b5b57875f334f61aebed695e2e4193db5e'},'protected':false},{'name':'dev','commit':{'sha':'c5b97d5ae6c19d5c5df71a34c7fbeeda2479ccbc'},'protected':false}]" |} in
  let m := {| mp_pull_number := 42; mp_commit_title := None;
              mp_commit_message := None; mp_merge_method := None |} in
  let merged :=
    {| status := 200;
       payload :=
         quoted "{'sha':'6dcb09b5b57875f334f61aebed695e2e4193db5e','merged':true,'message':'Pull Request successfully merged'}" |} in
  snd (run (write_file None w) [existing; written])
  = Some (Ok {| content :=
                  [TextContent (lit "File created: docs/notes.md (commit: 7638417)")];
                isError := None |})
  /\ snd (run (list_branches None tt) [listing])
     = Some (Ok {| content :=
                     [TextContent
                        (lit "Branches:" ++ [10] ++ lit "  main (6dcb09b)" ++ [10]
                         ++ lit "  dev (c5b97d5)")];
                   isError := None |})
  /\ snd (run (merge_pr None m) [merged])
     = Some (Ok {| content :=
                     [TextContent
                        (lit "PR #42 merged successfully." ++ [10]
                         ++ lit "Pull Request successfully merged" ++ [10]
                         ++ lit "Commit: 6dcb09b5b57875f334f61aebed695e2e4193db5e")];
                   isError := None |}).
Proof.
  intros w existing written listing m merged.
  destruct (commit_hash_rendering None) as (Hwrite & Hlist & Hmerge).
  split; [|split].
  - rewrite (Hwrite w existing None (lit "docs%2Fnotes.md") (lit "Hello")
               (lit "SGVsbG8=") written
               [(lit "commit",
                  JObject [(lit "sha", JString (lit "7638417db6d59f3c431d3e1f261cc637155684cd"))])]
               [(lit "sha", JString (lit "7638417db6d59f3c431d3e1f261cc637155684cd"))]
               (lit "7638417db6d59f3c431d3e1f261cc637155684cd")
               eq_refl eq_refl eq_refl eq_refl eq_refl);
      [reflexivity | vm_compute; reflexivity | reflexivity | reflexivity | discriminate].
  - rewrite (Hlist listing
               [JObject [(lit "name", JString (lit "main"));
                         (lit "commit", JObject [(lit "sha", JString (lit "6dcb09b5b57875f334f61aebed695e2e4193db5e"))]);
                         (lit "protected", JBool false)];
                JObject [(lit "name", JString (lit "dev"));
                         (lit "commit", JObject [(lit "sha", JString (lit "c5b97d5ae6c19d5c5df71a34c7fbeeda2479ccbc"))]);
                         (lit "protected", JBool false)]]
               [(lit "main", lit "6dcb09b5b57875f334f61aebed695e2e4193db5e");
                (lit "dev", lit "c5b97d5ae6c19d5c5df71a34c7fbeeda2479ccbc")]
               eq_refl);
      [reflexivity | vm_compute; reflexivity |].
    repeat (apply Forall2_cons; [do 2 eexists; repeat split; reflexivity|]).
    apply Forall2_nil.
  - rewrite (Hmerge m merged
               [(lit "sha", JString (lit "6dcb09b5b57875f334f61aebed695e2e4193db5e"));
                (lit "merged", JBool true);
                (lit "message", JString (lit "Pull Request successfully merged"))]
               (lit "Pull Request successfully merged")
               (lit "6dcb09b5b57875f334f61aebed695e2e4193db5e")
               eq_refl);
      [reflexivity | vm_compute; reflexivity | reflexivity | reflexivity].
Defined.

(** C7, as stated, fails for [merge_pr]: the commit hash is shown whole. *)
Lemma merge_pr_shows_the_whole_hash :
  let a := {| mp_pull_number := 42; mp_commit_title := None;
              mp_commit_message := None; mp_merge_method := None |} in
  let sha := lit "6dcb09b5b57875f334f61aebed695e2e4193db5e" in
  let res :=
    {| status := 200;
       payload :=
         JSON_stringify
           (JObject [(lit "sha", JString sha);
                     (lit "merged", JBool true);
                     (lit "message", JString (lit "Pull Request successfully merged"))]) |} in
  length sha = 40%nat
  /\ snd (run (merge_pr None a) [res])
     = Some (Ok (text_envelope
                   (lit "PR #42 merged successfully." ++ nl
                    ++ lit "Pull Request successfully merged" ++ nl
                    ++ lit "Commit: " ++ sha)))
  /\ snd (run (merge_pr None a) [res])
     <> Some (Ok (text_envelope
                    (lit "PR #42 merged successfully." ++ nl
                     ++ lit "Pull Request successfully merged" ++ nl
                     ++ lit "Commit: " ++ firstn 7 sha))).
Proof.
  intros a sha res. split; [reflexivity|].
  split; [vm_compute; reflexivity | vm_compute; discriminate].
Qed.

(** ** [read_file] against [write_file] (C3) *)

(** C3 at a text with a character outside ASCII: [write_file] sends the
    base64 of the UTF-8 octets of the text, and [read_file], given that
    content back, returns the octets as characters, not the text. *)
Lemma read_file_does_not_invert_write_file :
  let text_written : jsstring := [233] in
  let w := {| wf_path := lit "cafe.txt"; wf_content := text_written;
              wf_message := lit "Add"; wf_branch := None |} in
  let existing := {| status := 404; payload := lit "Not Found" |} in
  let stored := lit "w6k=" in
  let r := {| rf_path := lit "cafe.txt"; rf_branch := None |} in
  let res :=
    {| status := 200;
       payload :=
         JSON_stringify
           (JObject [(lit "type", JString (lit "file"));
                     (lit "encoding", JString (lit "base64"));
                     (lit "content", JString stored)]) |} in
  (init (nth 1 (fst (run (write_file None w) [existing]))
           (ghFetch_request [] None no_options))).(body)
  = Some (JSON_stringify
            (JObject [(lit "message", JString (lit "Add"));
                      (lit "content", JString stored);
                      (lit "branch", JString (lit "main"))]))
  /\ snd (run (read_file None r) [res]) = Some (Ok (text_envelope [195; 169]))
  /\ snd (run (read_file None r) [res]) <> Some (Ok (text_envelope text_written)).
Proof.
  intros text_written w existing stored r res.
  split; [vm_compute; reflexivity|].
  split; [vm_compute; reflexivity | vm_compute; discriminate].
Qed.

(** ** Base64: [atob] inverts [btoa] *)

Lemma below_spec n P :
  below n P = true -> forall z, 0 <= z < Z.of_nat n -> P z = true.
Proof.
  induction n as [|m IH]; cbn [below]; intros H z Hz.
  - lia.
  - apply andb_true_iff in H as [Hm H].
    destruct (Z.eq_dec z (Z.of_nat m)) as [->|Hne]; [exact Hm|].
    apply IH; [exact H | lia].
Qed.

Lemma below2_spec n m (P : Z -> Z -> bool) :
  below n (fun a => below m (P a)) = true ->
  forall a b, 0 <= a < Z.of_nat n -> 0 <= b < Z.of_nat m -> P a b = true.
Proof.
  intros H a b Ha Hb.
  apply (below_spec m (P a)); [|exact Hb].
  apply (below_spec n (fun a => below m (P a)) H a Ha).
Qed.

Lemma list_ind3 {A : Type} (P : list A -> Prop) :
  P [] ->
  (forall a, P [a]) ->
  (forall a b, P [a; b]) ->
  (forall a b c rest, P rest -> P (a :: b :: c :: rest)) ->
  forall l, P l.
Proof.
  intros H0 H1 H2 H3.
  assert (H : forall l, P l /\ (forall a, P (a :: l)) /\ (forall a b, P (a :: b :: l))).
  { induction l as [|c l (IH0 & IH1 & IH2)].
    - auto.
    - split; [apply IH1|]. split; [intros a; apply IH2|].
      intros a b. apply H3. exact IH0. }
  intros l. apply H.
Qed.

Lemma base64_char_value n :
  0 <= n < 64 ->
  base64_value (base64_char n) = Some n
  /\ is_ascii_whitespace (base64_char n) = false
  /\ base64_char n <> 61.
Proof.
  intros Hn.
  assert (H : (match base64_value (base64_char n) with
               | Some m => m =? n
               | None => false
               end
               && negb (is_ascii_whitespace (base64_char n))
               && negb (base64_char n =? 61)) = true).
  { revert n Hn. apply (below_spec 64). vm_compute. reflexivity. }
  apply andb_true_iff in H as [H H3]. apply andb_true_iff in H as [H1 H2].
  destruct (base64_value (base64_char n)) as [m|]; [|discriminate H1].
  apply Z.eqb_eq in H1. apply negb_true_iff in H2, H3. apply Z.eqb_neq in H3.
  subst m. auto.
Qed.

(** The bit identities of one group of three octets. *)
Lemma base64_group a b :
  0 <= a < 256 -> 0 <= b < 256 ->
  let s1 := Z.shiftr a 2 in
  let s2 := Z.lor (Z.shiftl (Z.land a 3) 4) (Z.shiftr b 4) in
  let s3 := Z.lor (Z.shiftl (Z.land a 15) 2) (Z.shiftr b 6) in
  (0 <= s1 < 64 /\ 0 <= s2 < 64 /\ 0 <= s3 < 64 /\ 0 <= Z.land b 63 < 64)
  /\ Z.lor (Z.shiftl s1 2) (Z.shiftr s2 4) = a
  /\ Z.lor (Z.shiftl (Z.land s2 15) 4) (Z.shiftr (Z.shiftl (Z.land b 15) 2) 2) = b
  /\ Z.lor (Z.shiftl (Z.shiftr a 4) 4) (Z.shiftr s3 2) = a
  /\ Z.land s2 15 = Z.shiftr b 4
  /\ Z.lor (Z.shiftl (Z.land s3 3) 6) (Z.land b 63) = b
  /\ 0 <= Z.shiftl (Z.land a 3) 4 < 64
  /\ 0 <= Z.shiftl (Z.land b 15) 2 < 64
  /\ Z.lor (Z.shiftl s1 2) (Z.shiftr (Z.shiftl (Z.land a 3) 4) 4) = a.
Proof.
  intros Ha Hb.
  pose (P := fun a b =>
    let s1 := Z.shiftr a 2 in
    let s2 := Z.lor (Z.shiftl (Z.land a 3) 4) (Z.shiftr b 4) in
    let s3 := Z.lor (Z.shiftl (Z.land a 15) 2) (Z.shiftr b 6) in
    let small x := (0 <=? x) && (x <? 64) in
    small s1 && small s2 && small s3 && small (Z.land b 63)
    && (Z.lor (Z.shiftl s1 2) (Z.shiftr s2 4) =? a)
    && (Z.lor (Z.shiftl (Z.land s2 15) 4) (Z.shiftr (Z.shiftl (Z.land b 15) 2) 2) =? b)
    && (Z.lor (Z.shiftl (Z.shiftr a 4) 4) (Z.shiftr s3 2) =? a)
    && (Z.land s2 15 =? Z.shiftr b 4)
    && (Z.lor (Z.shiftl (Z.land s3 3) 6) (Z.land b 63) =? b)
    && small (Z.shiftl (Z.land a 3) 4)
    && small (Z.shiftl (Z.land b 15) 2)
    && (Z.lor (Z.shiftl s1 2) (Z.shiftr (Z.shiftl (Z.land a 3) 4) 4) =? a)).
  assert (H : P a b = true).
  { apply (below2_spec 256 256 P); [vm_compute; reflexivity | exact Ha | exact Hb]. }
  unfold P in H. cbv zeta in *.
  repeat match goal with
         | H : (_ && _) = true |- _ => apply andb_true_iff in H as [? ?]
         | H : (_ =? _) = true |- _ => apply Z.eqb_eq in H
         | H : (_ <=? _) = true |- _ => apply Z.leb_le in H
         | H : (_ <? _) = true |- _ => apply Z.ltb_lt in H
         end.
  repeat split; assumption.
Qed.

Lemma base64_sextets_range bs :
  Forall (fun c => 0 <= c < 256) bs ->
  Forall (fun s => 0 <= s < 64) (base64_sextets bs).
Proof.
  induction bs as [|a|a b|a b c rest IH] using list_ind3; intros Hbs;
    cbn [base64_sextets].
  - constructor.
  - inversion_clear Hbs as [|? ? Ha _].
    destruct (base64_group a a Ha Ha) as ((H1 & _) & H). cbv zeta in *.
    repeat constructor; try tauto; lia.
  - inversion_clear Hbs as [|? ? Ha Hbs']. inversion_clear Hbs' as [|? ? Hb _].
    destruct (base64_group a b Ha Hb) as ((H1 & H2 & _) & H). cbv zeta in *.
    repeat constructor; try tauto; lia.
  - inversion_clear Hbs as [|? ? Ha Hbs']. inversion_clear Hbs' as [|? ? Hb Hbs].
    inversion_clear Hbs as [|? ? Hc Hrest].
    destruct (base64_group a b Ha Hb) as ((H1 & H2 & _) & _).
    destruct (base64_group b c Hb Hc) as ((_ & _ & H3 & H4) & _). cbv zeta in *.
    repeat (constructor; [assumption|]). apply IH. exact Hrest.
Qed.

Lemma base64_decode_sextets bs :
  Forall (fun c => 0 <= c < 256) bs ->
  base64_decode (base64_sextets bs) = bs.
Proof.
  induction bs as [|a|a b|a b c rest IH] using list_ind3; intros Hbs;
    cbn [base64_sextets base64_decode].
  - reflexivity.
  - inversion_clear Hbs as [|? ? Ha _].
    destruct (base64_group a a Ha Ha) as (_ & H). cbv zeta in H.
    f_equal. tauto.
  - inversion_clear Hbs as [|? ? Ha Hbs']. inversion_clear Hbs' as [|? ? Hb _].
    destruct (base64_group a b Ha Hb) as (_ & H1 & H2 & _). cbv zeta in *.
    rewrite H1, H2. reflexivity.
  - inversion_clear Hbs as [|? ? Ha Hbs']. inversion_clear Hbs' as [|? ? Hb Hbs].
    inversion_clear Hbs as [|? ? Hc Hrest].
    destruct (base64_group a b Ha Hb) as (_ & H1 & _ & _ & H2 & _).
    destruct (base64_group b c Hb Hc) as (_ & _ & _ & H3 & _ & H4 & _).
    cbv zeta in *. rewrite H1, H2, H3, H4, (IH Hrest). reflexivity.
Qed.

Lemma base64_encode_split bs :
  base64_encode bs = List.map base64_char (base64_sextets bs) ++ base64_padding bs.
Proof.
  induction bs as [|a|a b|a b c rest IH] using list_ind3;
    cbn [base64_encode base64_sextets base64_padding List.map app];
    try reflexivity.
  rewrite IH. reflexivity.
Qed.

Lemma base64_lengths bs :
  exists k,
    (length (base64_sextets bs) = (4 * k)%nat /\ base64_padding bs = [])
    \/ (length (base64_sextets bs) = (4 * k + 2)%nat /\ base64_padding bs = [61; 61])
    \/ (length (base64_sextets bs) = (4 * k + 3)%nat /\ base64_padding bs = [61]).
Proof.
  induction bs as [|a|a b|a b c rest [k IH]] using list_ind3;
    cbn [base64_sextets base64_padding length].
  - exists 0%nat. auto.
  - exists 0%nat. auto.
  - exists 0%nat. auto.
  - exists (S k). destruct IH as [[-> ->]|[[-> ->]|[-> ->]]];
      [left | right; left | right; right]; split; try reflexivity; lia.
Qed.

Lemma base64_values_chars sx :
  Forall (fun s => 0 <= s < 64) sx ->
  base64_values (List.map base64_char sx) = Some sx.
Proof.
  induction 1 as [|s sx Hs _ IH]; cbn [List.map base64_values].
  - reflexivity.
  - destruct (base64_char_value s Hs) as (-> & _). rewrite IH. reflexivity.
Qed.

Lemma filter_whitespace_chars sx :
  Forall (fun s => 0 <= s < 64) sx ->
  filter (fun c => negb (is_ascii_whitespace c)) (List.map base64_char sx)
  = List.map base64_char sx.
Proof.
  induction 1 as [|s sx Hs _ IH]; cbn [List.map filter].
  - reflexivity.
  - destruct (base64_char_value s Hs) as (_ & -> & _). cbn [negb].
    rewrite IH. reflexivity.
Qed.

Lemma strip_padding_chars sx pad :
  Forall (fun s => 0 <= s < 64) sx ->
  pad = [] \/ pad = [61; 61] \/ pad = [61] ->
  strip_padding (List.map base64_char sx ++ pad) = List.map base64_char sx.
Proof.
  intros Hsx Hpad. unfold strip_padding. rewrite rev_app_distr.
  assert (Hlast : forall c r, rev (List.map base64_char sx) = c :: r -> (c =? 61) = false).
  { intros c r Hrev. apply Z.eqb_neq.
    assert (Hin : In c (List.map base64_char sx)).
    { apply in_rev. rewrite Hrev. left. reflexivity. }
    apply in_map_iff in Hin as (s & <- & Hs).
    rewrite Forall_forall in Hsx. apply (base64_char_value s (Hsx s Hs)). }
  destruct Hpad as [->|[->| ->]]; cbn [rev app].
  - rewrite app_nil_r.
    destruct (rev (List.map base64_char sx)) as [|c r] eqn:Hrev; [reflexivity|].
    rewrite (Hlast c r eq_refl). reflexivity.
  - replace (61 =? 61) with true by reflexivity. apply rev_involutive.
  - replace (61 =? 61) with true by reflexivity.
    destruct (rev (List.map base64_char sx)) as [|c r] eqn:Hrev.
    + rewrite <- (rev_involutive (List.map base64_char sx)), Hrev. reflexivity.
    + rewrite (Hlast c r eq_refl).
      rewrite <- Hrev. apply rev_involutive.
Qed.

(** [atob] inverts [btoa] on every string of octets. *)
Theorem atob_base64_encode bs :
  Forall (fun c => 0 <= c < 256) bs ->
  btoa bs = Ok (base64_encode bs) /\ atob (base64_encode bs) = Ok bs.
Proof.
  intros Hbs. split.
  - unfold btoa.
    replace (forallb (fun c => c <=? 255) bs) with true; [reflexivity|].
    symmetry. apply forallb_forall. intros c Hc.
    rewrite Forall_forall in Hbs. apply Z.leb_le. specialize (Hbs c Hc). lia.
  - pose proof (base64_sextets_range bs Hbs) as Hsx.
    unfold atob. rewrite base64_encode_split, filter_app, filter_whitespace_chars
      by exact Hsx.
    destruct (base64_lengths bs) as [k Hk].
    assert (Hpad : base64_padding bs = [] \/ base64_padding bs = [61; 61]
                   \/ base64_padding bs = [61]) by tauto.
    assert (Hfilter : filter (fun c => negb (is_ascii_whitespace c)) (base64_padding bs)
                      = base64_padding bs).
    { destruct Hpad as [->|[->| ->]]; reflexivity. }
    rewrite Hfilter.
    assert (Hlen : Z.of_nat (length (List.map base64_char (base64_sextets bs)
                                     ++ base64_padding bs)) mod 4 = 0).
    { rewrite length_app, length_map.
      destruct Hk as [[-> ->]|[[-> ->]|[-> ->]]]; cbn [length].
      - replace (Z.of_nat (4 * k + 0)) with (Z.of_nat k * 4) by lia.
        apply Z_mod_mult.
      - replace (Z.of_nat (4 * k + 2 + 2)) with ((Z.of_nat k + 1) * 4) by lia.
        apply Z_mod_mult.
      - replace (Z.of_nat (4 * k + 3 + 1)) with ((Z.of_nat k + 1) * 4) by lia.
        apply Z_mod_mult. }
    rewrite Hlen. cbn [Z.eqb]. rewrite strip_padding_chars by assumption.
    assert (Hlen' : (Z.of_nat (length (List.map base64_char (base64_sextets bs))) mod 4 =? 1)
                    = false).
    { rewrite length_map. apply Z.eqb_neq.
      destruct Hk as [[-> _]|[[-> _]|[-> _]]].
      - replace (Z.of_nat (4 * k)) with (Z.of_nat k * 4) by lia.
        rewrite Z_mod_mult. discriminate.
      - replace (Z.of_nat (4 * k + 2)) with (2 + Z.of_nat k * 4) by lia.
        rewrite Z_mod_plus_full. discriminate.
      - replace (Z.of_nat (4 * k + 3)) with (3 + Z.of_nat k * 4) by lia.
        rewrite Z_mod_plus_full. discriminate. }
    rewrite Hlen', base64_values_chars by exact Hsx.
    rewrite base64_decode_sextets by exact Hbs. reflexivity.
Qed.

(** ** [unescape(encodeURIComponent(s))] is the UTF-8 encoding of [s] *)

Lemma uriUnescaped_ascii c :
  uriUnescaped c = true -> 33 <= c <= 126 /\ c <> 37.
Proof.
  unfold uriUnescaped, is_alnum, is_digit, is_upper, is_lower, in_range.
  cbn [existsb]. intros H.
  repeat match type of H with
         | (_ || _) = true => apply orb_true_iff in H as [H|H]
         end;
    repeat match goal with
           | H : (_ && _) = true |- _ => apply andb_true_iff in H as [? ?]
           | H : (_ <=? _) = true |- _ => apply Z.leb_le in H
           | H : (_ =? _) = true |- _ => apply Z.eqb_eq in H
           end;
    try discriminate; lia.
Qed.

Lemma unescape_plain c rest :
  c <> 37 -> unescape (c :: rest) = c :: unescape rest.
Proof.
  intros Hc. cbn [unescape]. apply Z.eqb_neq in Hc. rewrite Hc. reflexivity.
Qed.

Lemma unescape_percent b rest :
  0 <= b < 256 -> unescape (percent_upper b ++ rest) = b :: unescape rest.
Proof.
  intros Hb.
  assert (H : (is_hex_digit (hex_upper (Z.shiftr b 4))
               && is_hex_digit (hex_upper (Z.land b 15))
               && negb (hex_upper (Z.shiftr b 4) =? 117)
               && (16 * hex_value (hex_upper (Z.shiftr b 4))
                   + hex_value (hex_upper (Z.land b 15)) =? b)) = true).
  { revert b Hb. apply (below_spec 256). vm_compute. reflexivity. }
  apply andb_true_iff in H as [H H4]. apply andb_true_iff in H as [H H3].
  apply andb_true_iff in H as [H1 H2].
  apply negb_true_iff in H3. apply Z.eqb_eq in H4.
  unfold percent_upper. cbn [app unescape].
  replace (37 =? 37) with true by reflexivity. cbn [negb].
  rewrite H3, H1, H2, H4. reflexivity.
Qed.

Lemma unescape_percent_octets bs rest :
  Forall (fun c => 0 <= c < 256) bs ->
  unescape (percent_octets bs ++ rest) = bs ++ unescape rest.
Proof.
  induction 1 as [|b bs Hb _ IH]; unfold percent_octets; cbn [flat_map app].
  - reflexivity.
  - rewrite <- app_assoc, (unescape_percent b _ Hb).
    fold (percent_octets bs). rewrite IH. reflexivity.
Qed.

Lemma continuation_octet x : 0 <= x -> 0 <= Z.lor 128 (Z.land x 63) < 256.
Proof.
  intros Hx. change 63 with (Z.ones 6). rewrite Z.land_ones by lia.
  assert (Hm : 0 <= x mod 2 ^ 6 < 64) by (apply Z.mod_pos_bound; reflexivity).
  revert Hm. generalize (x mod 2 ^ 6). intros y Hy.
  assert (H : ((0 <=? Z.lor 128 y) && (Z.lor 128 y <? 256)) = true).
  { revert y Hy. apply (below_spec 64). vm_compute. reflexivity. }
  apply andb_true_iff in H as [H1 H2].
  apply Z.leb_le in H1. apply Z.ltb_lt in H2. lia.
Qed.

Lemma leading_octet mark n x :
  (mark = 192 /\ n = 32%nat) \/ (mark = 224 /\ n = 16%nat) \/ (mark = 240 /\ n = 8%nat) ->
  0 <= x < Z.of_nat n -> 0 <= Z.lor mark x < 256.
Proof.
  intros Hmark Hx.
  assert (H : ((0 <=? Z.lor mark x) && (Z.lor mark x <? 256)) = true).
  { revert x Hx. apply (below_spec n).
    destruct Hmark as [[-> ->]|[[-> ->]|[-> ->]]]; vm_compute; reflexivity. }
  apply andb_true_iff in H as [H1 H2].
  apply Z.leb_le in H1. apply Z.ltb_lt in H2. lia.
Qed.

Lemma utf8_octets_range v :
  0 <= v < 1114112 -> Forall (fun c => 0 <= c < 256) (utf8_octets v).
Proof.
  intros Hv. unfold utf8_octets.
  assert (Hs : forall n, 0 <= n -> 0 <= Z.shiftr v n).
  { intros n Hn. apply Z.shiftr_nonneg. lia. }
  destruct (v <? 128) eqn:H1.
  { apply Z.ltb_lt in H1. apply Forall_cons; [lia | apply Forall_nil]. }
  destruct (v <? 2048) eqn:H2; [|destruct (v <? 65536) eqn:H3];
    repeat apply Forall_cons; try apply Forall_nil;
    try (apply continuation_octet; first [lia | apply Hs; lia]).
  - apply Z.ltb_lt in H2. apply (leading_octet 192 32); [auto|].
    rewrite Z.shiftr_div_pow2 by lia. change (2 ^ 6) with 64.
    split; [apply Z.div_pos; lia | apply Z.div_lt_upper_bound; lia].
  - apply Z.ltb_lt in H3. apply (leading_octet 224 16); [auto|].
    rewrite Z.shiftr_div_pow2 by lia. change (2 ^ 12) with 4096.
    split; [apply Z.div_pos; lia | apply Z.div_lt_upper_bound; lia].
  - apply (leading_octet 240 8); [auto 6|].
    rewrite Z.shiftr_div_pow2 by lia. change (2 ^ 18) with 262144.
    split; [apply Z.div_pos; lia | apply Z.div_lt_upper_bound; lia].
Qed.

(** On a string it accepts, [encodeURIComponent] followed by [unescape]
    gives the UTF-8 octets of the string, one code unit per octet. *)
Theorem unescape_encodeURIComponent s escaped :
  Forall (fun c => 0 <= c < 65536) s ->
  encodeURIComponent s = Ok escaped ->
  unescape escaped = utf8_encode s
  /\ Forall (fun c => 0 <= c < 256) (utf8_encode s).
Proof.
  remember (length s) as n eqn:Hn. revert s escaped Hn.
  induction n as [n IH] using lt_wf_ind. intros s escaped Hn Hs Henc.
  destruct s as [|c rest].
  - cbn [encodeURIComponent] in Henc. injection Henc as <-.
    split; [reflexivity | constructor].
  - inversion_clear Hs as [|? ? Hc Hrest]. cbn [length] in Hn.
    cbn [encodeURIComponent utf8_encode] in *.
    destruct (uriUnescaped c) eqn:Hu.
    + destruct (uriUnescaped_ascii c Hu) as [Hc1 Hc2].
      destruct (encodeURIComponent rest) as [r|] eqn:Hr; [|discriminate Henc].
      cbn [rbind] in Henc. injection Henc as <-.
      destruct (IH (length rest) ltac:(lia) rest r eq_refl Hrest Hr) as [IH1 IH2].
      replace (is_high_surrogate c) with false
        by (unfold is_high_surrogate, in_range; lia).
      unfold utf8_octets. replace (c <? 128) with true by lia.
      rewrite (unescape_plain c r Hc2), IH1. cbn [app].
      split; [reflexivity|]. constructor; [lia | exact IH2].
    + destruct (is_low_surrogate c) eqn:Hlow; [discriminate Henc|].
      destruct (is_high_surrogate c) eqn:Hhigh; cbn [negb] in Henc.
      * destruct rest as [|k rest']; [discriminate Henc|].
        destruct (is_low_surrogate k) eqn:Hk; [|discriminate Henc].
        destruct (encodeURIComponent rest') as [r|] eqn:Hr; [|discriminate Henc].
        cbn [rbind] in Henc. injection Henc as <-.
        inversion_clear Hrest as [|? ? Hk' Hrest'].
        cbn [length] in Hn.
        destruct (IH (length rest') ltac:(lia) rest' r eq_refl Hrest' Hr) as [IH1 IH2].
        assert (Hv : 0 <= pair_code_point c k < 1114112).
        { unfold pair_code_point, is_high_surrogate, is_low_surrogate, in_range in *.
          lia. }
        pose proof (utf8_octets_range _ Hv) as Ho.
        rewrite (unescape_percent_octets _ r Ho), IH1.
        split; [reflexivity|]. apply Forall_app. split; assumption.
      * destruct (encodeURIComponent rest) as [r|] eqn:Hr; [|discriminate Henc].
        cbn [rbind] in Henc. injection Henc as <-.
        destruct (IH (length rest) ltac:(lia) rest r eq_refl Hrest Hr) as [IH1 IH2].
        assert (Ho : Forall (fun c => 0 <= c < 256) (utf8_octets c))
          by (apply utf8_octets_range; lia).
        rewrite (unescape_percent_octets _ r Ho), IH1.
        split; [reflexivity|]. apply Forall_app. split; assumption.
Qed.

(** ** What [read_file] returns of what [write_file] wrote *)

Lemma utf8_encode_ascii s :
  Forall (fun c => 0 <= c < 128) s -> utf8_encode s = s.
Proof.
  induction 1 as [|c s Hc _ IH]; cbn [utf8_encode].
  - reflexivity.
  - replace (is_high_surrogate c) with false
      by (unfold is_high_surrogate, in_range; lia).
    unfold utf8_octets. replace (c <? 128) with true by lia.
    rewrite IH. reflexivity.
Qed.

Lemma encodeURIComponent_ascii s :
  Forall (fun c => 0 <= c < 128) s -> exists escaped, encodeURIComponent s = Ok escaped.
Proof.
  induction 1 as [|c s Hc _ [r IH]]; cbn [encodeURIComponent].
  - eexists. reflexivity.
  - rewrite IH. cbn [rbind].
    replace (is_low_surrogate c) with false
      by (unfold is_low_surrogate, in_range; lia).
    replace (is_high_surrogate c) with false
      by (unfold is_high_surrogate, in_range; lia).
    cbn [negb]. destruct (uriUnescaped c); eexists; reflexivity.
Qed.

(** The content [write_file] sends is the base64 of the UTF-8 octets of the
    text; the encoding never fails on a string without unpaired
    surrogates. *)
Lemma write_file_content text escaped :
  Forall (fun c => 0 <= c < 65536) text ->
  encodeURIComponent text = Ok escaped ->
  btoa (unescape escaped) = Ok (base64_encode (utf8_encode text)).
Proof.
  intros Htext Hescaped.
  destruct (unescape_encodeURIComponent text escaped Htext Hescaped) as [-> Hbytes].
  apply atob_base64_encode. exact Hbytes.
Qed.

(** [read_file] on a file whose content is the base64 of [octets], possibly
    broken into lines, returns the octets as characters. *)
Lemma read_file_octets pat a p res fields stored octets rest :
  encodeURIComponent (rf_path a) = Ok p ->
  ok res = true ->
  json res = Ok (JObject fields) ->
  lookup (lit "type") fields = Some (JString (lit "file")) ->
  lookup (lit "content") fields = Some (JString stored) ->
  Forall (fun c => 0 <= c < 256) octets ->
  octets <> [] ->
  remove_newlines stored = base64_encode octets ->
  snd (run (read_file pat a) (res :: rest)) = Some (Ok (text_envelope octets)).
Proof.
  intros Hp Hok Hjson Htype Hcontent Hoctets Hne Hstored.
  unfold read_file. cbv zeta.
  rewrite run_lift_bind, Hp, run_ghFetch_bind, Hok. cbn [negb snd].
  rewrite run_lift_bind, Hjson, run_lift_bind, prop_object, Htype.
  replace (strict_equals_string (Some (JString (lit "file"))) (lit "file"))
    with true by reflexivity.
  cbn [negb]. rewrite run_lift_bind, prop_object, Hcontent.
  assert (Hnonempty : stored <> []).
  { intros ->. cbn in Hstored. destruct octets as [|a1 [|a2 [|a3 r]]];
      [congruence | discriminate Hstored ..]. }
  destruct stored as [|c stored]; [congruence|].
  cbn [truthy negb string_receiver].
  rewrite run_lift_bind, run_lift_bind, Hstored.
  rewrite (proj2 (atob_base64_encode octets Hoctets)). reflexivity.
Qed.

(** The round trip of C3 on the code: for a non-empty text, [write_file]
    stores the base64 of its UTF-8 octets and [read_file], given that
    content back, returns those octets as characters; this is the text
    itself when the text is ASCII. *)
Theorem read_file_after_write_file pat text escaped a p res fields stored rest :
  Forall (fun c => 0 <= c < 65536) text ->
  text <> [] ->
  encodeURIComponent text = Ok escaped ->
  encodeURIComponent (rf_path a) = Ok p ->
  ok res = true ->
  json res = Ok (JObject fields) ->
  lookup (lit "type") fields = Some (JString (lit "file")) ->
  lookup (lit "content") fields = Some (JString stored) ->
  btoa (unescape escaped) = Ok (remove_newlines stored) ->
  snd (run (read_file pat a) (res :: rest))
  = Some (Ok (text_envelope (utf8_encode text)))
  /\ (Forall (fun c => 0 <= c < 128) text -> utf8_encode text = text).
Proof.
  intros Htext Hne Hescaped Hp Hok Hjson Htype Hcontent Hstored.
  split; [|apply utf8_encode_ascii].
  rewrite (write_file_content text escaped Htext Hescaped) in Hstored.
  injection Hstored as Hstored.
  destruct (unescape_encodeURIComponent text escaped Htext Hescaped) as [_ Hbytes].
  apply (read_file_octets pat a p res fields stored (utf8_encode text) rest);
    try assumption; [|symmetry; exact Hstored].
  destruct text as [|c text]; [congruence|]. cbn [utf8_encode].
  assert (Hnil : forall v l, utf8_octets v ++ l <> []).
  { intros v l. unfold utf8_octets.
    destruct (v <? 128); [|destruct (v <? 2048); [|destruct (v <? 65536)]];
      discriminate. }
  destruct (is_high_surrogate c); [destruct text as [|k text']|];
    [|destruct (is_low_surrogate k)|]; try apply Hnil.
  rewrite <- (app_nil_r (utf8_octets c)). apply Hnil.
Qed.

(** ** Bounded upstream calls *)

(** Every tool issues at most three requests, whatever the upstream
    answers. *)
Lemma registry_calls_at_most_three pat t (a : tool_args t) script :
  In t (registry pat) ->
  (length (fst (run (tool_handler t a) script)) <= 3)%nat.
Proof.
  intros Ht. apply calls_at_most_trace.
  cbn [registry In] in Ht.
  repeat (destruct Ht as [<- | Ht]); [..|contradiction];
    cbv [tool_handler tool_args read_file_tool write_file_tool
           list_files_tool search_files_tool list_branches_tool
           get_file_tree_tool list_prs_tool get_pr_tool create_pr_tool
           merge_pr_tool close_pr_tool add_pr_comment_tool
           request_pr_review_tool] in *.
  - unfold read_file. calls.
  - unfold write_file. calls.
  - unfold list_files.
    destruct (or_default (lf_path a) []); cbn [pbind ret]; calls.
  - unfold search_files. calls.
  - unfold list_branches. calls.
  - unfold get_file_tree. calls.
  - unfold list_prs. calls.
  - unfold get_pr. calls.
  - unfold create_pr. calls.
  - unfold merge_pr. calls.
  - unfold close_pr. calls.
  - unfold add_pr_comment. calls.
  - unfold request_pr_review. calls.
Qed.

(** ** The scenarios of the specification *)

(** Scenario A: [read_file("README.md")] on a file holding [Hello]. *)
Example scenario_read_file :
  let res :=
    {| status := 200;
       payload :=
         JSON_stringify
           (JObject [(lit "type", JString (lit "file"));
                     (lit "content", JString (lit "SGVsbG8="));
                     (lit "encoding", JString (lit "base64"))]) |} in
  run (read_file None {| rf_path := lit "README.md"; rf_branch := None |}) [res]
  = ([ghFetch_request (lit "/repos/adamcfield/rightcraft-io/contents/README.md?ref=main")
        None no_options],
     Some (Ok {| content := [TextContent (lit "Hello")]; isError := None |})).
Proof. vm_compute. reflexivity. Qed.

(** Scenario B: [merge_pr(42)] with the default merge method. *)
Example scenario_merge_pr :
  let res :=
    {| status := 200;
       payload :=
         JSON_stringify
           (JObject [(lit "sha", JString (lit "abc1234def5678"));
                     (lit "merged", JBool true);
                     (lit "message", JString (lit "Pull Request successfully merged"))]) |} in
  let a := {| mp_pull_number := 42; mp_commit_title := None;
              mp_commit_message := None; mp_merge_method := None |} in
  run (merge_pr None a) [res]
  = ([ghFetch_request (lit "/repos/adamcfield/rightcraft-io/pulls/42/merge") None
        (with_body "PUT"
           (JSON_stringify (JObject [(lit "merge_method", JString (lit "merge"))])))],
     Some (Ok (text_envelope
                 (lit "PR #42 merged successfully." ++ nl
                  ++ lit "Pull Request successfully merged" ++ nl
                  ++ lit "Commit: abc1234def5678")))).
Proof. vm_compute. reflexivity. Qed.

(** A non-success response to [create_pr] whose body is not JSON: the
    handler throws, no envelope is returned. *)
Example create_pr_error_body_not_json :
  let res := {| status := 502; payload := lit "Bad Gateway" |} in
  let a := {| cp_title := lit "Add feature"; cp_body := None;
              cp_head := lit "feature"; cp_base := lit "main";
              cp_draft := None |} in
  snd (run (create_pr None a) [res]) = Some (Throw SyntaxError).
Proof. vm_compute. reflexivity. Qed.

(** A text with an unpaired surrogate: [write_file] throws after the
    existence check, before any PUT. *)
Example write_file_unpaired_surrogate :
  let existing := {| status := 404; payload := lit "Not Found" |} in
  let a := {| wf_path := lit "a.txt"; wf_content := [55357];
              wf_message := lit "Add"; wf_branch := None |} in
  run (write_file None a) [existing]
  = ([ghFetch_request (lit "/repos/adamcfield/rightcraft-io/contents/a.txt?ref=main")
        None no_options],
     Some (Throw URIError)).
Proof. vm_compute. reflexivity. Qed.

(** ** [JSON.parse]: the fuel is enough *)

Lemma skip_ws_length s : (length (skip_ws s) <= length s)%nat.
Proof.
  induction s as [|c s IH]; cbn [skip_ws length]; [lia|].
  destruct (is_json_ws c); cbn [length]; lia.
Qed.

Lemma after_char_length c s r :
  after_char c s = Some r -> length s = S (length r).
Proof.
  destruct s as [|d s]; cbn [after_char]; [discriminate|].
  destruct (d =? c); [|discriminate]. intros H. injection H as <-. reflexivity.
Qed.

Lemma parse_string_consumes s t r :
  parse_string s = Ok (t, r) -> (length r < length s)%nat.
Proof.
  remember (length s) as n eqn:Hn. revert s t r Hn.
  induction n as [n IH] using lt_wf_ind. intros s t r Hn H.
  assert (Hrec : forall s' (u : Z) t' r',
             (length s' < n)%nat ->
             (p <- parse_string s' ;; Ok (u :: fst p, snd p))%result = Ok (t', r') ->
             (length r' < length s')%nat).
  { intros s' u t' r' Hlt Hp.
    destruct (parse_string s') as [[t0 r0]|] eqn:Hs'; [|discriminate Hp].
    cbn [rbind fst snd] in Hp. injection Hp as _ <-.
    exact (IH (length s') Hlt s' t0 r0 eq_refl Hs'). }
  destruct s as [|c rest]; cbn [parse_string] in H; [discriminate H|].
  cbn [length] in Hn. subst n.
  destruct (c =? 34).
  { injection H as _ <-. cbn [length]. lia. }
  destruct (c =? 92).
  - destruct rest as [|e r1]; [discriminate H|]. cbn [length] in *.
    cbv zeta in H.
    repeat match type of H with
           | (if ?b then _ else _) = _ =>
               destruct b;
               [first [ apply Hrec in H; [lia | cbn [length]; lia]
                      | idtac ] | ]
           end; try discriminate H.
    all: try (destruct r1 as [|h1 [|h2 [|h3 [|h4 r5]]]]; try discriminate H;
              match type of H with
              | (if ?b then _ else _) = _ => destruct b; [|discriminate H]
              end;
              apply Hrec in H; cbn [length] in *; lia).
  - destruct (c <? 32); [discriminate H|].
    apply Hrec in H; cbn [length]; lia.
Qed.

Lemma span_digits_length s :
  length s = (length (fst (span_digits s)) + length (snd (span_digits s)))%nat.
Proof.
  induction s as [|c s IH]; cbn [span_digits]; [reflexivity|].
  destruct (is_digit c); cbn [fst snd length]; lia.
Qed.

Lemma span_digits_rest s : (length (snd (span_digits s)) <= length s)%nat.
Proof. pose proof (span_digits_length s). lia. Qed.

Lemma parse_fraction_length s f r :
  parse_fraction s = Ok (f, r) -> (length r <= length s)%nat.
Proof.
  unfold parse_fraction. destruct s as [|c rest]; [intros H; injection H as _ <-; lia|].
  destruct (c =? 46).
  - pose proof (span_digits_rest rest) as Hlen.
    destruct (fst (span_digits rest)); [discriminate|].
    destruct (span_digits rest) as [f' r']. cbn [snd] in Hlen.
    intros H. injection H as _ <-. cbn [length]. lia.
  - intros H. injection H as _ <-. lia.
Qed.

Lemma parse_exponent_length s x r :
  parse_exponent s = Ok (x, r) -> (length r <= length s)%nat.
Proof.
  unfold parse_exponent. destruct s as [|c rest]; [intros H; injection H as _ <-; lia|].
  destruct ((c =? 101) || (c =? 69)).
  - cbv zeta.
    match goal with
    | |- context [span_digits ?t] =>
        assert (Ht : (length t <= length rest)%nat)
          by (destruct rest as [|d rest']; [cbn [length]; lia|];
              destruct ((d =? 45) || (d =? 43)); cbn [skipn length]; lia);
        pose proof (span_digits_rest t) as Hlen;
        destruct (fst (span_digits t)); [discriminate|]
    end.
    intros H. injection H as _ <-. cbn [length].
    eapply Nat.le_trans; [exact Hlen|]. eapply Nat.le_trans; [exact Ht|]. lia.
  - intros H. injection H as _ <-. lia.
Qed.

Lemma parse_number_consumes negative s v r :
  parse_number negative s = Ok (v, r) -> (length r < length s)%nat.
Proof.
  unfold parse_number. pose proof (span_digits_length s) as Hlen.
  destruct (fst (span_digits s)) as [|d ds]; [discriminate|].
  cbv zeta. cbn [length] in Hlen.
  set (rest := if d =? 48 then ds ++ snd (span_digits s) else snd (span_digits s)).
  assert (Hrest : (length rest < length s)%nat).
  { subst rest. destruct (d =? 48); [rewrite length_app|]; lia. }
  intros H.
  destruct (parse_fraction rest) as [[f r1]|] eqn:Hf; [|discriminate H].
  cbn [rbind fst snd] in H.
  destruct (parse_exponent r1) as [[x r2]|] eqn:Hx; [|discriminate H].
  cbn [rbind fst snd] in H. injection H as _ <-.
  apply parse_fraction_length in Hf. apply parse_exponent_length in Hx. lia.
Qed.

Lemma expect_consumes word v s v' r :
  word <> [] -> expect word v s = Ok (v', r) -> (length r < length s)%nat.
Proof.
  unfold expect. intros Hword H.
  destruct (startsWith s word) eqn:Hs; [|discriminate H].
  injection H as _ <-. rewrite length_skipn.
  destruct word as [|w word]; [congruence|].
  destruct s as [|c s]; [discriminate Hs|]. cbn [length]. lia.
Qed.

(** A value, an element list or a member list that parses consumes at least
    one character. *)
Lemma parse_consumes fuel :
  (forall s v r, parse_value fuel s = Ok (v, r) -> (length r < length s)%nat)
  /\ (forall acc s v r,
         parse_elements fuel acc s = Ok (v, r) -> (length r < length s)%nat)
  /\ (forall acc s v r,
         parse_members fuel acc s = Ok (v, r) -> (length r < length s)%nat).
Proof.
  induction fuel as [|fuel (IHv & IHe & IHm)].
  { repeat split; intros; discriminate. }
  split; [|split].
  - intros s v r H. cbn [parse_value] in H.
    pose proof (skip_ws_length s) as Hws.
    destruct (skip_ws s) as [|c rest]; [discriminate H|]. cbn [length] in Hws.
    destruct (c =? 123).
    { pose proof (skip_ws_length rest) as Hws'.
      destruct (after_char 125 (skip_ws rest)) as [r'|] eqn:Ha.
      - injection H as _ <-. apply after_char_length in Ha. lia.
      - apply IHm in H. lia. }
    destruct (c =? 91).
    { pose proof (skip_ws_length rest) as Hws'.
      destruct (after_char 93 (skip_ws rest)) as [r'|] eqn:Ha.
      - injection H as _ <-. apply after_char_length in Ha. lia.
      - apply IHe in H. lia. }
    destruct (c =? 34).
    { destruct (parse_string rest) as [[t r']|] eqn:Hs; [|discriminate H].
      cbn [rbind fst snd] in H. injection H as _ <-.
      apply parse_string_consumes in Hs. lia. }
    destruct (c =? 116).
    { apply expect_consumes in H; [cbn [length] in H; lia | discriminate]. }
    destruct (c =? 102).
    { apply expect_consumes in H; [cbn [length] in H; lia | discriminate]. }
    destruct (c =? 110).
    { apply expect_consumes in H; [cbn [length] in H; lia | discriminate]. }
    destruct (c =? 45).
    { apply parse_number_consumes in H. lia. }
    destruct (is_digit c); [|discriminate H].
    apply parse_number_consumes in H. cbn [length] in H. lia.
  - intros acc s v r H. cbn [parse_elements] in H.
    destruct (parse_value fuel s) as [[v1 r1]|] eqn:Hv; [|discriminate H].
    cbn [rbind fst snd] in H. apply IHv in Hv.
    pose proof (skip_ws_length r1) as Hws.
    destruct (skip_ws r1) as [|c rest]; [discriminate H|]. cbn [length] in Hws.
    destruct (c =? 44); [apply IHe in H; lia|].
    destruct (c =? 93); [|discriminate H]. injection H as _ <-. lia.
  - intros acc s v r H. cbn [parse_members] in H.
    pose proof (skip_ws_length s) as Hws.
    destruct (after_char 34 (skip_ws s)) as [r0|] eqn:Ha; [|discriminate H].
    apply after_char_length in Ha.
    destruct (parse_string r0) as [[k r1]|] eqn:Hk; [|discriminate H].
    cbn [rbind fst snd] in H. apply parse_string_consumes in Hk.
    pose proof (skip_ws_length r1) as Hws1.
    destruct (after_char 58 (skip_ws r1)) as [r2|] eqn:Ha2; [|discriminate H].
    apply after_char_length in Ha2.
    destruct (parse_value fuel r2) as [[v1 r3]|] eqn:Hv; [|discriminate H].
    cbn [rbind fst snd] in H. apply IHv in Hv.
    pose proof (skip_ws_length r3) as Hws3.
    destruct (skip_ws r3) as [|c rest]; [discriminate H|]. cbn [length] in Hws3.
    destruct (c =? 44); [apply IHm in H; lia|].
    destruct (c =? 125); [|discriminate H]. injection H as _ <-. lia.
Qed.

Lemma parse_fuel_independent n :
  forall s,
    (length s <= n)%nat ->
    (forall f1 f2,
        (2 * length s + 2 <= f1)%nat -> (2 * length s + 2 <= f2)%nat ->
        parse_value f1 s = parse_value f2 s)
    /\ (forall acc f1 f2,
           (2 * length s + 3 <= f1)%nat -> (2 * length s + 3 <= f2)%nat ->
           parse_elements f1 acc s = parse_elements f2 acc s)
    /\ (forall acc f1 f2,
           (2 * length s + 3 <= f1)%nat -> (2 * length s + 3 <= f2)%nat ->
           parse_members f1 acc s = parse_members f2 acc s).
Proof.
  induction n as [n IH] using lt_wf_ind. intros s Hs.
  assert (IHv : forall s' f1 f2,
             (length s' < length s)%nat ->
             (2 * length s' + 2 <= f1)%nat -> (2 * length s' + 2 <= f2)%nat ->
             parse_value f1 s' = parse_value f2 s').
  { intros s' f1 f2 Hlt. apply (IH (length s') ltac:(lia) s' (le_n _)). }
  assert (IHe : forall s' acc f1 f2,
             (length s' < length s)%nat ->
             (2 * length s' + 3 <= f1)%nat -> (2 * length s' + 3 <= f2)%nat ->
             parse_elements f1 acc s' = parse_elements f2 acc s').
  { intros s' acc f1 f2 Hlt. apply (IH (length s') ltac:(lia) s' (le_n _)). }
  assert (IHm : forall s' acc f1 f2,
             (length s' < length s)%nat ->
             (2 * length s' + 3 <= f1)%nat -> (2 * length s' + 3 <= f2)%nat ->
             parse_members f1 acc s' = parse_members f2 acc s').
  { intros s' acc f1 f2 Hlt. apply (IH (length s') ltac:(lia) s' (le_n _)). }
  clear IH.
  assert (Hvalue : forall f1 f2,
             (2 * length s + 2 <= f1)%nat -> (2 * length s + 2 <= f2)%nat ->
             parse_value f1 s = parse_value f2 s).
  { intros [|f1] [|f2] H1 H2; try lia. cbn [parse_value].
    pose proof (skip_ws_length s) as Hws.
    destruct (skip_ws s) as [|c rest]; [reflexivity|]. cbn [length] in Hws.
    pose proof (skip_ws_length rest) as Hws'.
    destruct (c =? 123).
    { destruct (after_char 125 (skip_ws rest)); [reflexivity|].
      apply IHm; lia. }
    destruct (c =? 91); [|reflexivity].
    destruct (after_char 93 (skip_ws rest)); [reflexivity|].
    apply IHe; lia. }
  split; [exact Hvalue|]. split.
  - intros acc [|f1] [|f2] H1 H2; try lia. cbn [parse_elements].
    rewrite (Hvalue f1 f2) by lia.
    destruct (parse_value f2 s) as [[v r1]|] eqn:Hv; [|reflexivity].
    cbn [rbind fst snd]. apply (proj1 (parse_consumes f2)) in Hv.
    pose proof (skip_ws_length r1) as Hws.
    destruct (skip_ws r1) as [|c rest]; [reflexivity|]. cbn [length] in Hws.
    destruct (c =? 44); [|reflexivity]. apply IHe; lia.
  - intros acc [|f1] [|f2] H1 H2; try lia. cbn [parse_members].
    pose proof (skip_ws_length s) as Hws.
    destruct (after_char 34 (skip_ws s)) as [r0|] eqn:Ha; [|reflexivity].
    apply after_char_length in Ha.
    destruct (parse_string r0) as [[k r1]|] eqn:Hk; [|reflexivity].
    cbn [rbind fst snd]. apply parse_string_consumes in Hk.
    pose proof (skip_ws_length r1) as Hws1.
    destruct (after_char 58 (skip_ws r1)) as [r2|] eqn:Ha2; [|reflexivity].
    apply after_char_length in Ha2.
    rewrite (IHv r2 f1 f2) by lia.
    destruct (parse_value f2 r2) as [[v r3]|] eqn:Hv; [|reflexivity].
    cbn [rbind fst snd]. apply (proj1 (parse_consumes f2)) in Hv.
    pose proof (skip_ws_length r3) as Hws3.
    destruct (skip_ws r3) as [|c rest]; [reflexivity|]. cbn [length] in Hws3.
    destruct (c =? 44); [|reflexivity]. apply IHm; lia.
Qed.

(** More fuel than [JSON_parse] supplies changes nothing: the parser never
    stops for want of fuel. *)
Theorem JSON_parse_fuel s fuel :
  (2 * length s + 2 <= fuel)%nat ->
  parse_value fuel s = parse_value (2 * length s + 2) s.
Proof.
  intros H. apply (parse_fuel_independent (length s) s (le_n _)); lia.
Qed.


(** ** [JSON.parse] throws nothing but [SyntaxError] *)

Lemma parse_string_error s e : parse_string s = Throw e -> e = SyntaxError.
Proof.
  remember (length s) as n eqn:Hn. revert s Hn.
  induction n as [n IH] using lt_wf_ind. intros s Hn H.
  assert (Hrec : forall s' (u : Z),
             (length s' < n)%nat ->
             (p <- parse_string s' ;; Ok (u :: fst p, snd p))%result = Throw e ->
             e = SyntaxError).
  { intros s' u Hlt Hp.
    destruct (parse_string s') as [[t0 r0]|e'] eqn:Hs'; [discriminate Hp|].
    cbn [rbind] in Hp. injection Hp as <-.
    exact (IH (length s') Hlt s' eq_refl Hs'). }
  destruct s as [|c rest]; cbn [parse_string] in H; [congruence|].
  cbn [length] in Hn. subst n.
  destruct (c =? 34); [discriminate H|].
  destruct (c =? 92).
  - destruct rest as [|e0 r1]; [congruence|]. cbn [length] in *.
    cbv zeta in H.
    repeat match type of H with
           | (if ?b then _ else _) = _ =>
               destruct b;
               [first [ apply Hrec in H; [exact H | cbn [length]; lia]
                      | idtac ] | ]
           end; try congruence.
    all: try (destruct r1 as [|h1 [|h2 [|h3 [|h4 r5]]]]; try congruence;
              match type of H with
              | (if ?b then _ else _) = _ => destruct b; [|congruence]
              end;
              apply Hrec in H; [exact H | cbn [length] in *; lia]).
  - destruct (c <? 32); [congruence|].
    apply Hrec in H; [exact H | cbn [length]; lia].
Qed.

Lemma parse_number_error negative s e :
  parse_number negative s = Throw e -> e = SyntaxError.
Proof.
  unfold parse_number. destruct (fst (span_digits s)) as [|d ds]; [congruence|].
  cbv zeta.
  match goal with
  | |- context [parse_fraction ?r] =>
      assert (Hf : forall e', parse_fraction r = Throw e' -> e' = SyntaxError);
      [|destruct (parse_fraction r) as [[f r1]|e'];
        [|cbn [rbind]; intros H; injection H as <-; apply Hf; reflexivity]]
  end.
  { intros e'. unfold parse_fraction.
    match goal with |- context [match ?r with [] => _ | _ :: _ => _ end] =>
      destruct r as [|c rest] end; [discriminate|].
    destruct (c =? 46); [|discriminate].
    destruct (fst (span_digits rest)); [congruence | discriminate]. }
  cbn [rbind fst snd].
  assert (Hx : forall e', parse_exponent r1 = Throw e' -> e' = SyntaxError).
  { intros e'. unfold parse_exponent. destruct r1 as [|c rest]; [discriminate|].
    destruct ((c =? 101) || (c =? 69)); [|discriminate]. cbv zeta.
    match goal with |- context [fst (span_digits ?t)] =>
      destruct (fst (span_digits t)) end; [congruence | discriminate]. }
  destruct (parse_exponent r1) as [[x r2]|e']; [discriminate|].
  cbn [rbind]. intros H. injection H as <-. apply Hx. reflexivity.
Qed.

Lemma expect_error word v s e : expect word v s = Throw e -> e = SyntaxError.
Proof. unfold expect. destruct (startsWith s word); congruence. Qed.

Lemma parse_error fuel :
  (forall s e, parse_value fuel s = Throw e -> e = SyntaxError)
  /\ (forall acc s e, parse_elements fuel acc s = Throw e -> e = SyntaxError)
  /\ (forall acc s e, parse_members fuel acc s = Throw e -> e = SyntaxError).
Proof.
  induction fuel as [|fuel (IHv & IHe & IHm)].
  { repeat split; intros; cbn in *; congruence. }
  split; [|split].
  - intros s e H. cbn [parse_value] in H.
    destruct (skip_ws s) as [|c rest]; [congruence|].
    destruct (c =? 123).
    { destruct (after_char 125 (skip_ws rest)); [discriminate H|].
      exact (IHm _ _ _ H). }
    destruct (c =? 91).
    { destruct (after_char 93 (skip_ws rest)); [discriminate H|].
      exact (IHe _ _ _ H). }
    destruct (c =? 34).
    { destruct (parse_string rest) as [[t r']|e'] eqn:Hs; [discriminate H|].
      cbn [rbind] in H. injection H as <-. exact (parse_string_error _ _ Hs). }
    destruct (c =? 116); [exact (expect_error _ _ _ _ H)|].
    destruct (c =? 102); [exact (expect_error _ _ _ _ H)|].
    destruct (c =? 110); [exact (expect_error _ _ _ _ H)|].
    destruct (c =? 45); [exact (parse_number_error _ _ _ H)|].
    destruct (is_digit c); [exact (parse_number_error _ _ _ H) | congruence].
  - intros acc s e H. cbn [parse_elements] in H.
    destruct (parse_value fuel s) as [[v1 r1]|e'] eqn:Hv.
    + cbn [rbind fst snd] in H.
      destruct (skip_ws r1) as [|c rest]; [congruence|].
      destruct (c =? 44); [exact (IHe _ _ _ H)|].
      destruct (c =? 93); congruence.
    + cbn [rbind] in H. injection H as <-. exact (IHv _ _ Hv).
  - intros acc s e H. cbn [parse_members] in H.
    destruct (after_char 34 (skip_ws s)) as [r0|]; [|congruence].
    destruct (parse_string r0) as [[k r1]|e'] eqn:Hk.
    + cbn [rbind fst snd] in H.
      destruct (after_char 58 (skip_ws r1)) as [r2|]; [|congruence].
      destruct (parse_value fuel r2) as [[v1 r3]|e''] eqn:Hv.
      * cbn [rbind fst snd] in H.
        destruct (skip_ws r3) as [|c rest]; [congruence|].
        destruct (c =? 44); [exact (IHm _ _ _ H)|].
        destruct (c =? 125); congruence.
      * cbn [rbind] in H. injection H as <-. exact (IHv _ _ Hv).
    + cbn [rbind] in H. injection H as <-. exact (parse_string_error _ _ Hk).
Qed.

(** A body that [res.json()] rejects is rejected with [SyntaxError]. *)
Theorem JSON_parse_error s e : JSON_parse s = Throw e -> e = SyntaxError.
Proof.
  unfold JSON_parse. intros H.
  destruct (parse_value (2 * length s + 2) s) as [[v r]|e'] eqn:Hv.
  - cbn [rbind fst snd] in H. destruct (skip_ws r); congruence.
  - cbn [rbind] in H. injection H as <-.
    exact (proj1 (parse_error _) _ _ Hv).
Qed.

(** * Further properties of the handlers *)

(** ** What every tool does *)

Lemma requests_satisfy_run {A : Type} (P : Request -> Prop) (p : Prog A) script :
  requests_satisfy P p -> Forall P (fst (run p script)).
Proof.
  intros Hp. revert script.
  induction Hp as [r|req k Hreq _ IH]; intros script; cbn [run fst].
  - constructor.
  - destruct script as [|res rest]; cbn [fst].
    + constructor; [exact Hreq | constructor].
    + constructor; [exact Hreq | apply IH].
Qed.

Lemma returns_satisfy_run (P : Envelope -> Prop) (p : Prog Envelope) script e :
  returns_satisfy P p -> snd (run p script) = Some (Ok e) -> P e.
Proof.
  intros Hp. revert script.
  induction Hp as [e' He'|e'|req k _ IH]; intros script; cbn [run snd].
  - intros H. injection H as <-. exact He'.
  - discriminate.
  - destruct script as [|res rest]; cbn [snd]; [discriminate|]. apply IH.
Qed.

Lemma success_follows_ok_run b (p : Prog Envelope) script trace e :
  success_follows_ok b p ->
  run p script = (trace, Some (Ok e)) ->
  isError e <> Some true ->
  (trace = [] /\ b = true)
  \/ exists n res,
       length trace = S n /\ nth_error script n = Some res /\ ok res = true.
Proof.
  intros Hp. revert script trace.
  induction Hp as [b r Hr|b req k _ IH]; intros script trace Hrun Herr;
    cbn [run] in Hrun.
  - injection Hrun as <- ->. destruct Hr as [->|Hr]; [auto|]. contradiction.
  - destruct script as [|res rest]; [discriminate Hrun|].
    destruct (run (k res) rest) as [t o] eqn:Hk. cbn [fst snd] in Hrun.
    injection Hrun as <- ->. right.
    destruct (IH res rest t Hk Herr) as [[-> Hok]|(n & res' & Hlen & Hnth & Hok)].
    + exists 0%nat, res. auto.
    + exists (S n), res'. cbn [length nth_error]. auto.
Qed.

Lemma parses_success_body_run (p : Prog Envelope) res rest trace out e :
  parses_success_body p ->
  run p (res :: rest) = (trace, out) ->
  trace <> [] ->
  ok res = true ->
  json res = Throw e ->
  length trace = 1%nat /\ out = Some (Throw e).
Proof.
  intros Hp Hrun Htrace Hok Hjson. destruct Hp as [r|req k Hk]; cbn [run] in Hrun.
  - injection Hrun as <- _. congruence.
  - rewrite (Hk res e Hok Hjson) in Hrun. cbn [run fst snd] in Hrun.
    injection Hrun as <- <-. auto.
Qed.

Lemma api_request_ghFetch pat path options :
  startsWith path (lit "/") = true ->
  opt_headers options = None ->
  api_request pat (ghFetch_request path pat options).
Proof.
  intros Hpath Hheaders. unfold api_request, ghFetch_request. cbn [url init headers].
  rewrite Hheaders. cbn [spread]. split; [|reflexivity].
  exists path. split; [exact Hpath|].
  destruct path as [|c path]; [discriminate Hpath|].
  cbn [startsWith lit List.map list_ascii_of_string] in Hpath.
  apply andb_true_iff in Hpath as [Hc _]. apply Z.eqb_eq in Hc. subst c.
  reflexivity.
Qed.

Ltac walk leaf node :=
  repeat match goal with
    | |- _ (Return _) => leaf
    | |- _ (ret _) => leaf
    | |- _ (lift _) => leaf
    | |- _ (pbind (lift ?r) _) => destruct r; cbn [pbind lift]
    | |- _ (pbind (pbind (lift ?r) _) _) => destruct r; cbn [pbind lift ret]
    | |- _ (pbind (ret _) _) => cbn [pbind ret]
    | |- _ (pbind (ghFetch _ _ _) _) => cbn [pbind ghFetch]; node
    | |- _ (Fetch _ _) => node
    | |- _ (if ?b then _ else _) => destruct b
    | |- _ (match ?x with _ => _ end) => destruct x
    | |- _ (pbind (match ?x with _ => _ end) _) => destruct x
    end.

Ltac unfold_tools :=
  cbv [tool_handler tool_name tool_args read_file_tool write_file_tool
         list_files_tool search_files_tool list_branches_tool
         get_file_tree_tool list_prs_tool get_pr_tool create_pr_tool
         merge_pr_tool close_pr_tool add_pr_comment_tool
         request_pr_review_tool] in *.

Ltac unfold_handlers :=
  unfold read_file, write_file, list_files, search_files, list_branches,
    get_file_tree, list_prs, get_pr, create_pr, merge_pr, close_pr,
    add_pr_comment, request_pr_review.

(** X1: every request a registered tool issues, whatever the upstream
    answers, goes to a path of [https://api.github.com] and carries the four
    fixed headers, the bearer credential among them. *)
Theorem every_request_is_an_api_request pat t (a : tool_args t) script :
  In t (registry pat) ->
  Forall (api_request pat) (fst (run (tool_handler t a) script)).
Proof.
  intros Ht. apply requests_satisfy_run.
  cbn [registry In] in Ht.
  repeat (destruct Ht as [<- | Ht]); [..|contradiction]; unfold_tools;
    unfold_handlers; cbv zeta;
    walk ltac:(apply requests_return)
         ltac:(apply requests_fetch;
               [apply api_request_ghFetch; reflexivity | intros ?]).
Qed.

(** An instance: the two requests of [write_file]. *)
Lemma every_request_is_an_api_request_witness :
  let a := {| wf_path := lit "notes.md"; wf_content := lit "Hello";
              wf_message := lit "Add notes"; wf_branch := None |} in
  let existing := {| status := 404; payload := lit "Not Found" |} in
  length (fst (run (write_file (Some (lit "token")) a) [existing])) = 2%nat
  /\ Forall (api_request (Some (lit "token")))
       (fst (run (write_file (Some (lit "token")) a) [existing])).
Proof.
  intros a existing. split; [reflexivity|].
  apply (every_request_is_an_api_request (Some (lit "token"))
           (write_file_tool (Some (lit "token"))) a [existing]).
  cbn [registry In]. auto.
Defined.

Ltac solve_get_or_write :=
  first
    [ left; split; reflexivity
    | right; do 2 eexists;
      split; [|split; reflexivity]; cbn [In with_body opt_method]; auto 6 ].

(** X2: the seven reading tools only issue requests without a method and
    without a body; every request of any tool is such a GET or a PUT, POST
    or PATCH with a body (no tool issues a DELETE). *)
Theorem tools_read_or_write pat t (a : tool_args t) script :
  In t (registry pat) ->
  Forall get_or_write (fst (run (tool_handler t a) script))
  /\ (In (tool_name t) read_only_tools ->
      Forall plain_get (fst (run (tool_handler t a) script))).
Proof.
  intros Ht. cbn [registry In] in Ht.
  repeat (destruct Ht as [<- | Ht]); [..|contradiction]; unfold_tools;
    (split;
     [ apply requests_satisfy_run; unfold_handlers; cbv zeta;
       walk ltac:(apply requests_return)
            ltac:(apply requests_fetch; [solve_get_or_write | intros ?])
     | intros Hname;
       first
         [ solve [exfalso; vm_compute in Hname; intuition discriminate]
         | apply requests_satisfy_run; unfold_handlers; cbv zeta;
           walk ltac:(apply requests_return)
                ltac:(apply requests_fetch; [split; reflexivity | intros ?]) ] ]).
Qed.

(** An instance: the three requests of [get_file_tree] are GETs. *)
Lemma tools_read_or_write_witness :
  let a := {| ft_branch := None; ft_path_prefix := None |} in
  let refRes :=
    {| status := 200;
       payload := JSON_stringify
                    (JObject [(lit "object", JObject [(lit "sha", JString (lit "c0ffee1"))])]) |} in
  let commitRes :=
    {| status := 200;
       payload := JSON_stringify
                    (JObject [(lit "tree", JObject [(lit "sha", JString (lit "7ee5a11"))])]) |} in
  In (get_file_tree_tool None) (registry None)
  /\ In (tool_name (get_file_tree_tool None)) read_only_tools
  /\ length (fst (run (get_file_tree None a) [refRes; commitRes])) = 3%nat
  /\ Forall plain_get (fst (run (get_file_tree None a) [refRes; commitRes])).
Proof.
  intros a refRes commitRes.
  assert (Hin : In (get_file_tree_tool None) (registry None))
    by (cbn [registry In]; auto 7).
  assert (Hname : In (tool_name (get_file_tree_tool None)) read_only_tools)
    by (cbn; auto 6).
  split; [exact Hin|]. split; [exact Hname|].
  split; [vm_compute; reflexivity|].
  exact (proj2 (tools_read_or_write None (get_file_tree_tool None) a
                  [refRes; commitRes] Hin) Hname).
Defined.

(** X3: whatever the upstream answers, a tool issues at most one request,
    [write_file] at most two and [get_file_tree] at most three. *)
Theorem registry_call_bounds pat t (a : tool_args t) script :
  In t (registry pat) ->
  (length (fst (run (tool_handler t a) script)) <= call_bound (tool_name t))%nat.
Proof.
  intros Ht. cbn [registry In] in Ht.
  repeat (destruct Ht as [<- | Ht]); [..|contradiction]; unfold_tools;
    match goal with
    | |- (_ <= call_bound ?name)%nat =>
        let n := eval vm_compute in (call_bound name) in
        change (call_bound name) with n
    end;
    apply calls_at_most_trace; unfold_handlers; cbv zeta;
    try (destruct (or_default (lf_path a) []); cbn [pbind ret]); calls.
Qed.

(** An instance: [write_file] stops at two requests however long the
    script. *)
Lemma registry_call_bounds_witness :
  let a := {| wf_path := lit "notes.md"; wf_content := lit "Hello";
              wf_message := lit "Add notes"; wf_branch := None |} in
  let res := {| status := 500; payload := lit "Server Error" |} in
  In (write_file_tool None) (registry None)
  /\ (length (fst (run (write_file None a) [res; res; res; res])) <= 2)%nat.
Proof.
  intros a res.
  assert (Hin : In (write_file_tool None) (registry None))
    by (cbn [registry In]; auto).
  split; [exact Hin|].
  exact (registry_call_bounds None (write_file_tool None) a [res; res; res; res] Hin).
Defined.

(** X4: a tool returns an envelope without the error flag only right after
    a successful response: the last request it issued was answered with a
    success status. *)
Theorem success_needs_a_successful_response pat t (a : tool_args t) script trace e :
  In t (registry pat) ->
  run (tool_handler t a) script = (trace, Some (Ok e)) ->
  isError e <> Some true ->
  exists n res,
    length trace = S n /\ nth_error script n = Some res /\ ok res = true.
Proof.
  intros Ht Hrun Herr.
  assert (H : success_follows_ok false (tool_handler t a)).
  { clear Hrun Herr. cbn [registry In] in Ht.
    repeat (destruct Ht as [<- | Ht]); [..|contradiction]; unfold_tools;
      unfold_handlers; cbv zeta;
      walk ltac:(apply success_return;
                 first [left; reflexivity | right; exact I | right; reflexivity])
           ltac:(apply success_fetch;
                 let res := fresh "res" in
                 intros res; destruct (ok res) eqn:?; cbn [negb]). }
  destruct (success_follows_ok_run false _ script trace e H Hrun Herr)
    as [[_ Hb]|Hex]; [discriminate Hb | exact Hex].
Qed.

(** An instance: the confirmation of [write_file] follows a successful PUT,
    though the existence check failed. *)
Lemma success_needs_a_successful_response_witness :
  let a := {| wf_path := lit "notes.md"; wf_content := lit "Hello";
              wf_message := lit "Add notes"; wf_branch := None |} in
  let existing := {| status := 404; payload := lit "Not Found" |} in
  let res := {| status := 201; payload := lit "{}" |} in
  let e := text_envelope (lit "File created: notes.md (commit: unknown)") in
  snd (run (write_file None a) [existing; res]) = Some (Ok e)
  /\ exists n r,
       length (fst (run (write_file None a) [existing; res])) = S n
       /\ nth_error [existing; res] n = Some r /\ ok r = true.
Proof.
  intros a existing res e.
  assert (Hrun : run (write_file None a) [existing; res]
                 = (fst (run (write_file None a) [existing; res]), Some (Ok e)))
    by (vm_compute; reflexivity).
  split; [rewrite Hrun; reflexivity|].
  apply (success_needs_a_successful_response None (write_file_tool None) a
           [existing; res] _ e).
  - cbn [registry In]. auto.
  - exact Hrun.
  - discriminate.
Defined.

Lemma uniform_text_envelope t : uniform_envelope (text_envelope t).
Proof. split; [exists t; reflexivity | left; reflexivity]. Qed.

Lemma uniform_error_envelope t : uniform_envelope (error_envelope t).
Proof. split; [exists t; reflexivity | right; reflexivity]. Qed.

Ltac uniform_leaf :=
  first
    [ apply returns_throw
    | apply returns_envelope;
      first [apply uniform_text_envelope | apply uniform_error_envelope] ].

(** X5: every envelope a tool returns has exactly one text block, and its
    error flag is either absent or [true]. *)
Theorem envelopes_are_uniform pat t (a : tool_args t) script e :
  In t (registry pat) ->
  snd (run (tool_handler t a) script) = Some (Ok e) ->
  (exists text, content e = [TextContent text])
  /\ (isError e = None \/ isError e = Some true).
Proof.
  intros Ht Hrun.
  apply (returns_satisfy_run uniform_envelope (tool_handler t a) script e);
    [|exact Hrun].
  clear Hrun. cbn [registry In] in Ht.
  repeat (destruct Ht as [<- | Ht]); [..|contradiction]; unfold_tools;
    unfold_handlers; cbv zeta.
  6:{ walk ltac:(first [uniform_leaf | fail 1])
           ltac:(apply returns_fetch; intros ?).
      unfold lift.
      destruct (render_tree (ft_path_prefix a) _) as [env|err] eqn:Hrender;
        [|apply returns_throw].
      apply returns_envelope.
      destruct (render_tree_listing _ _ _ Hrender)
        as (all & truncated & paths & _ & _ & _ & ->).
      apply uniform_text_envelope. }
  all: walk ltac:(uniform_leaf) ltac:(apply returns_fetch; intros ?).
Qed.

(** An instance: the mismatch envelope of [list_files]. *)
Lemma envelopes_are_uniform_witness :
  let a := {| lf_path := Some (lit "README.md"); lf_branch := None |} in
  let res := {| status := 200; payload := lit "{}" |} in
  let e := error_envelope
             (lit "Path 'README.md' is a file, not a directory. Use read_file instead.") in
  snd (run (list_files None a) [res]) = Some (Ok e)
  /\ (exists text, content e = [TextContent text])
  /\ (isError e = None \/ isError e = Some true).
Proof.
  intros a res e.
  assert (Hrun : snd (run (list_files None a) [res]) = Some (Ok e))
    by (vm_compute; reflexivity).
  split; [exact Hrun|].
  apply (envelopes_are_uniform None (list_files_tool None) a [res] e);
    [cbn [registry In]; auto | exact Hrun].
Defined.

Ltac parses_node :=
  apply parses_fetch;
  let res := fresh "res" in
  let e := fresh "e" in
  let Hok := fresh "Hok" in
  let Hjson := fresh "Hjson" in
  intros res e Hok Hjson;
  unfold existing_sha; rewrite ?Hok; cbn [negb]; unfold lift;
  rewrite ?Hjson; reflexivity.

(** X6: no tool recovers from a successful response whose body is not JSON:
    when the first request of a tool other than [request_pr_review] is
    answered with a success status and a body that is not JSON, which
    [res.json()] rejects with [SyntaxError], the handler ends in that
    exception after this one request, and returns no envelope. *)
Theorem success_body_must_be_json pat t (a : tool_args t) res rest trace out :
  In t (registry pat) ->
  tool_name t <> lit "request_pr_review" ->
  run (tool_handler t a) (res :: rest) = (trace, out) ->
  trace <> [] ->
  ok res = true ->
  json res = Throw SyntaxError ->
  length trace = 1%nat /\ out = Some (Throw SyntaxError).
Proof.
  intros Ht Hname Hrun Htrace Hok Hjson.
  apply (parses_success_body_run (tool_handler t a) res rest trace out SyntaxError);
    try assumption.
  clear Hrun Htrace Hok Hjson. cbn [registry In] in Ht.
  repeat (destruct Ht as [<- | Ht]); [..|contradiction]; unfold_tools;
    try (exfalso; apply Hname; reflexivity);
    unfold_handlers; cbv zeta;
    walk ltac:(apply parses_return) ltac:(parses_node).
Qed.

(** An instance: an HTML page in place of the branch listing. *)
Lemma success_body_must_be_json_witness :
  let res := {| status := 200; payload := lit "<html>Bad Gateway</html>" |} in
  In (list_branches_tool None) (registry None)
  /\ ok res = true
  /\ json res = Throw SyntaxError
  /\ snd (run (list_branches None tt) [res]) = Some (Throw SyntaxError).
Proof.
  intros res.
  assert (Hin : In (list_branches_tool None) (registry None))
    by (cbn [registry In]; auto 6).
  assert (Hjson : json res = Throw SyntaxError) by (vm_compute; reflexivity).
  split; [exact Hin|]. split; [reflexivity|]. split; [exact Hjson|].
  apply (success_body_must_be_json None (list_branches_tool None) tt res []
           (fst (run (list_branches None tt) [res]))
           (snd (run (list_branches None tt) [res])) Hin).
  - intros H. vm_compute in H. discriminate H.
  - apply surjective_pairing.
  - vm_compute. discriminate.
  - reflexivity.
  - exact Hjson.
Defined.

(** ** [ghFetch]: the headers *)

Lemma jsstring_eqb_refl s : jsstring_eqb s s = true.
Proof. apply jsstring_eqb_eq. reflexivity. Qed.

Lemma jsstring_eqb_trans_false q k k' :
  jsstring_eqb k k' = true -> jsstring_eqb q k' = jsstring_eqb q k.
Proof. intros H. apply jsstring_eqb_eq in H. subst k'. reflexivity. Qed.

Lemma header_app q base k v :
  header q (base ++ [(k, v)])
  = match header q base with
    | Some x => Some x
    | None => if jsstring_eqb q k then Some v else None
    end.
Proof.
  induction base as [|[k' v'] base IH]; cbn [app header]; [reflexivity|].
  destruct (jsstring_eqb q k'); [reflexivity | exact IH].
Qed.

(** One step of the object spread: the key gets the new value, in place
    when it is already there, and no other key changes. *)
Lemma spread_step base k v rest :
  exists base',
    spread base ((k, v) :: rest) = spread base' rest
    /\ forall q, header q base' = if jsstring_eqb q k then Some v else header q base.
Proof.
  cbn [spread].
  match goal with
  | |- context [match ?f base with _ => _ end] => set (replace := f)
  end.
  assert (Hrep : forall l,
             match replace l with
             | Some r =>
                 forall q, header q r = if jsstring_eqb q k then Some v else header q l
             | None => header k l = None
             end).
  { induction l as [|[k' v'] l IH]; cbn [replace header]; [reflexivity|].
    destruct (jsstring_eqb k k') eqn:Hk.
    - intros q. cbn [header]. rewrite (jsstring_eqb_trans_false q k k' Hk).
      destruct (jsstring_eqb q k); reflexivity.
    - fold replace. destruct (replace l) as [r|].
      + intros q. cbn [header]. destruct (jsstring_eqb q k') eqn:Hq.
        * destruct (jsstring_eqb q k) eqn:Hqk; [|reflexivity].
          apply jsstring_eqb_eq in Hq, Hqk. subst. rewrite jsstring_eqb_refl in Hk.
          discriminate Hk.
        * apply IH.
      + exact IH. }
  specialize (Hrep base). destruct (replace base) as [r|].
  - exists r. split; [reflexivity | exact Hrep].
  - exists (base ++ [(k, v)]). split; [reflexivity|].
    intros q. rewrite header_app. destruct (jsstring_eqb q k) eqn:Hq.
    + apply jsstring_eqb_eq in Hq. subst q. rewrite Hrep. reflexivity.
    + destruct (header q base); reflexivity.
Qed.

Lemma header_spread q extra :
  forall base,
    header q (spread base extra)
    = match last_header q extra with
      | Some v => Some v
      | None => header q base
      end.
Proof.
  induction extra as [|[k v] rest IH]; intros base.
  - reflexivity.
  - destruct (spread_step base k v rest) as (base' & -> & Hbase').
    rewrite IH, Hbase'. cbn [last_header].
    destruct (last_header q rest); [reflexivity|].
    destruct (jsstring_eqb q k); reflexivity.
Qed.

Lemma startsWith_prefix s p :
  startsWith s p = true <-> exists rest, s = p ++ rest.
Proof.
  revert s. induction p as [|d p IH]; intros s.
  - split; [intros _; exists s; reflexivity | intros _; destruct s; reflexivity].
  - destruct s as [|c s]; cbn [startsWith].
    + split; [discriminate | intros [rest H]; discriminate H].
    + rewrite andb_true_iff, Z.eqb_eq, IH. split.
      * intros [-> [rest ->]]. exists rest. reflexivity.
      * intros [rest H]. injection H as -> ->. split; [reflexivity|].
        exists rest. reflexivity.
Qed.

(** The name of an array index starts with a digit. *)
Lemma Number_toString_head n :
  0 <= n -> exists c rest, Number_toString n = c :: rest /\ is_digit c = true.
Proof.
  intros Hn. unfold Number_toString.
  destruct n as [|p|p]; [do 2 eexists; split; reflexivity| |lia].
  cbn [Z.to_int NilZero.string_of_int].
  destruct (Pos.to_uint p); do 2 eexists; split; reflexivity.
Qed.

Lemma last_header_indexed {A : Type} q (f : A -> jsstring) (l : list A) :
  (forall c rest, q = c :: rest -> is_digit c = false) ->
  forall i, 0 <= i ->
    last_header q (List.map (fun kv => (fst kv, f (snd kv))) (indexed i l)) = None.
Proof.
  intros Hq. induction l as [|a l IH]; intros i Hi; cbn [indexed List.map last_header].
  - reflexivity.
  - cbn [fst snd]. rewrite (IH (i + 1)) by lia.
    destruct (Number_toString_head i Hi) as (c & rest & -> & Hc).
    destruct q as [|d q]; [reflexivity|]. cbn [jsstring_eqb].
    destruct (d =? c) eqn:Hd; [|reflexivity].
    apply Z.eqb_eq in Hd. subst d. rewrite (Hq c q eq_refl) in Hc. discriminate Hc.
Qed.

(** X7: in the request [ghFetch] makes, none of the four fixed headers is
    ever missing.  Of the caller's headers, those of a plain object are
    copied and take the place of a fixed header of the same name; those of
    a [Headers] instance are not copied at all, the request has the fixed
    headers alone; those of an array of pairs land under the indices of
    the array and leave the fixed headers as they are.  A path that starts
    with [http] is the URL as it is, any other path is put after the API
    host. *)
Theorem ghFetch_request_headers path pat options :
  let req := ghFetch_request path pat options in
  (forall q, header q (default_headers pat) <> None ->
             header q (headers (init req)) <> None)
  /\ (opt_headers options = None -> headers (init req) = default_headers pat)
  /\ (forall entries q,
         opt_headers options = Some (HeadersRecord entries) ->
         header q (headers (init req))
         = match last_header q entries with
           | Some v => Some v
           | None => header q (default_headers pat)
           end)
  /\ (forall entries,
         opt_headers options = Some (HeadersInstance entries) ->
         headers (init req) = default_headers pat)
  /\ (forall pairs q,
         opt_headers options = Some (HeadersPairs pairs) ->
         header q (default_headers pat) <> None ->
         header q (headers (init req)) = header q (default_headers pat))
  /\ (forall rest, path = lit "http" ++ rest -> url req = path)
  /\ (startsWith path (lit "http") = false -> url req = API ++ path).
Proof.
  cbv zeta. unfold ghFetch_request. cbn [init headers url].
  fold (default_headers pat).
  assert (Hpairs : forall pairs q,
             header q (default_headers pat) <> None ->
             last_header q (own_properties (HeadersPairs pairs)) = None).
  { intros pairs q Hq. cbn [own_properties].
    assert (Hmap : forall i (l : list (list jsstring)),
               indexed i (List.map (join (lit ",")) l)
               = List.map (fun kv => (fst kv, join (lit ",") (snd kv))) (indexed i l)).
    { intros i l. revert i. induction l as [|a l IH]; intros i; cbn [indexed List.map];
        [reflexivity|]. rewrite IH. reflexivity. }
    rewrite Hmap. apply last_header_indexed; [|lia].
    intros c rest ->. unfold default_headers in Hq. cbn [header] in Hq.
    repeat match type of Hq with
           | (if ?b then _ else _) <> None =>
               let E := fresh "E" in
               destruct b eqn:E;
               [apply jsstring_eqb_eq in E; injection E as -> _; reflexivity|]
           end.
    congruence. }
  split; [|split; [|split; [|split; [|split; [|split]]]]].
  - intros q Hq. rewrite header_spread.
    destruct (last_header q _); [discriminate | exact Hq].
  - intros ->. reflexivity.
  - intros entries q ->. rewrite header_spread. reflexivity.
  - intros entries ->. reflexivity.
  - intros pairs q -> Hq. rewrite header_spread, (Hpairs pairs q Hq). reflexivity.
  - intros rest ->.
    replace (startsWith (lit "http" ++ rest) (lit "http")) with true;
      [reflexivity|].
    symmetry. apply startsWith_prefix. exists rest. reflexivity.
  - intros ->. reflexivity.
Qed.

(** An instance: a plain object overrides [Accept]; the same header in a
    [Headers] instance or in an array of pairs is lost. *)
Lemma ghFetch_request_headers_witness :
  let raw := (lit "Accept", lit "application/vnd.github.raw") in
  let request h :=
    ghFetch_request (lit "/rate_limit") (Some (lit "token"))
      {| opt_method := None; opt_body := None; opt_headers := Some h |} in
  let fixed :=
    [(lit "Authorization", lit "Bearer token");
     (lit "Accept", lit "application/vnd.github+json");
     (lit "X-GitHub-Api-Version", lit "2022-11-28");
     (lit "User-Agent", lit "github-mcp-worker/1.0")] in
  header (lit "Accept") (headers (init (request (HeadersRecord [raw]))))
  = Some (lit "application/vnd.github.raw")
  /\ headers (init (request (HeadersInstance [raw]))) = fixed
  /\ header (lit "Accept") (headers (init (request (HeadersPairs [[fst raw; snd raw]]))))
     = Some (lit "application/vnd.github+json")
  /\ headers (init (request (HeadersPairs [[fst raw; snd raw]])))
     = fixed ++ [(lit "0", lit "Accept,application/vnd.github.raw")]
  /\ url (request (HeadersRecord [raw])) = lit "https://api.github.com/rate_limit".
Proof.
  intros raw request fixed.
  pose proof (fun h => ghFetch_request_headers (lit "/rate_limit") (Some (lit "token"))
                         {| opt_method := None; opt_body := None;
                            opt_headers := Some h |}) as H.
  split; [|split; [|split; [|split]]].
  - destruct (H (HeadersRecord [raw])) as (_ & _ & Hrecord & _).
    exact (Hrecord [raw] (lit "Accept") eq_refl).
  - destruct (H (HeadersInstance [raw])) as (_ & _ & _ & Hinstance & _).
    exact (Hinstance [raw] eq_refl).
  - destruct (H (HeadersPairs [[fst raw; snd raw]])) as (_ & _ & _ & _ & Hpairs & _).
    exact (eq_trans (Hpairs [[fst raw; snd raw]] (lit "Accept") eq_refl
                       ltac:(discriminate)) eq_refl).
  - vm_compute. reflexivity.
  - destruct (H (HeadersRecord [raw])) as (_ & _ & _ & _ & _ & _ & Hurl).
    apply Hurl. reflexivity.
Defined.

(** ** [read_file] and [write_file] *)

(** X8: a successful response that is not an object of kind [file] (a
    directory listing, which is an array, or an object of another kind)
    makes [read_file] return the envelope that calls the path a directory
    and points to [list_files], with the error flag set. *)
Theorem read_file_rejects_what_is_not_a_file pat a p res data rest :
  encodeURIComponent (rf_path a) = Ok p ->
  ok res = true ->
  json res = Ok data ->
  (exists items, data = JArray items)
  \/ (exists fields,
        data = JObject fields
        /\ lookup (lit "type") fields <> Some (JString (lit "file"))) ->
  run (read_file pat a) (res :: rest)
  = ([ghFetch_request
        (repo_path (lit "/contents/" ++ p ++ lit "?ref="
                    ++ or_default (rf_branch a) (lit "main")))
        pat no_options],
     Some (Ok {| content :=
                   [TextContent
                      (lit "Path '" ++ rf_path a
                       ++ lit "' is a directory, not a file. Use list_files instead.")];
                 isError := Some true |})).
Proof.
  intros Hp Hok Hjson Hdata. unfold read_file. cbv zeta.
  rewrite run_lift_bind, Hp, run_ghFetch_bind, Hok. cbn [negb].
  rewrite run_lift_bind, Hjson, run_lift_bind.
  destruct Hdata as [[items ->]|(fields & -> & Htype)].
  - reflexivity.
  - rewrite prop_object.
    destruct (strict_equals_string (lookup (lit "type") fields) (lit "file")) eqn:Hs.
    + apply strict_equals_string_true in Hs. contradiction.
    + reflexivity.
Qed.

(** An instance: the path is a directory, the upstream lists it. *)
Lemma read_file_rejects_what_is_not_a_file_witness :
  let a := {| rf_path := lit "src"; rf_branch := None |} in
  let listing :=
    JArray [JObject [(lit "name", JString (lit "index.ts"));
                     (lit "path", JString (lit "src/index.ts"));
                     (lit "type", JString (lit "file"))]] in
  let res := {| status := 200; payload := JSON_stringify listing |} in
  ok res = true
  /\ json res = Ok listing
  /\ snd (run (read_file None a) [res])
     = Some (Ok (error_envelope
                   (lit "Path 'src' is a directory, not a file. Use list_files instead."))).
Proof.
  intros a listing res.
  assert (Hjson : json res = Ok listing) by (vm_compute; reflexivity).
  split; [reflexivity|]. split; [exact Hjson|].
  rewrite (read_file_rejects_what_is_not_a_file None a (lit "src") res listing []
             eq_refl eq_refl Hjson).
  - reflexivity.
  - left. eexists. reflexivity.
Defined.

(** An instance of the round trip: an ASCII text comes back unchanged, the
    stored content being broken into lines by the upstream. *)
Lemma read_file_after_write_file_witness :
  let text := lit "Hello, world" in
  let a := {| rf_path := lit "hello.txt"; rf_branch := None |} in
  let stored := lit "SGVsbG8s" ++ nl ++ lit "IHdvcmxk" ++ nl in
  let fields := [(lit "type", JString (lit "file"));
                 (lit "encoding", JString (lit "base64"));
                 (lit "content", JString stored)] in
  let res := {| status := 200; payload := JSON_stringify (JObject fields) |} in
  btoa (unescape (lit "Hello%2C%20world")) = Ok (remove_newlines stored)
  /\ snd (run (read_file None a) [res]) = Some (Ok (text_envelope text)).
Proof.
  intros text a stored fields res.
  assert (Hstored : btoa (unescape (lit "Hello%2C%20world"))
                    = Ok (remove_newlines stored)) by (vm_compute; reflexivity).
  assert (Hascii : Forall (fun c => 0 <= c < 128) text).
  { apply Forall_forall. intros c Hc. vm_compute in Hc.
    repeat (destruct Hc as [<-|Hc]; [lia|]). contradiction. }
  assert (Hunits : Forall (fun c => 0 <= c < 65536) text).
  { eapply Forall_impl; [|exact Hascii]. cbv beta. intros c Hc. lia. }
  assert (Hjson : json res = Ok (JObject fields)) by (vm_compute; reflexivity).
  split; [exact Hstored|].
  destruct (read_file_after_write_file None text (lit "Hello%2C%20world") a
              (lit "hello.txt") res fields stored [] Hunits ltac:(discriminate)
              eq_refl eq_refl eq_refl Hjson eq_refl eq_refl Hstored)
    as [Hread Hsame].
  rewrite Hread, (Hsame Hascii). reflexivity.
Defined.

Lemma encodeURIComponent_unpaired s :
  (unpaired_surrogate s = true -> encodeURIComponent s = Throw URIError)
  /\ (unpaired_surrogate s = false -> exists escaped, encodeURIComponent s = Ok escaped).
Proof.
  remember (length s) as n eqn:Hn. revert s Hn.
  induction n as [n IH] using lt_wf_ind. intros s Hn.
  destruct s as [|c rest]; cbn [unpaired_surrogate encodeURIComponent].
  { split; [discriminate | intros _; eexists; reflexivity]. }
  cbn [length] in Hn.
  destruct (IH (length rest) ltac:(lia) rest eq_refl) as [IHt IHf].
  destruct (uriUnescaped c) eqn:Hu.
  - destruct (uriUnescaped_ascii c Hu) as [Hc _].
    replace (is_low_surrogate c) with false
      by (unfold is_low_surrogate, in_range; lia).
    replace (is_high_surrogate c) with false
      by (unfold is_high_surrogate, in_range; lia).
    split; intros H.
    + rewrite (IHt H). reflexivity.
    + destruct (IHf H) as [r ->]. eexists. reflexivity.
  - destruct (is_low_surrogate c).
    { split; [reflexivity | discriminate]. }
    destruct (is_high_surrogate c); cbn [negb].
    + destruct rest as [|k rest']; [split; [reflexivity | discriminate]|].
      destruct (is_low_surrogate k); [|split; [reflexivity | discriminate]].
      cbn [length] in Hn.
      destruct (IH (length rest') ltac:(lia) rest' eq_refl) as [IHt' IHf'].
      split; intros H.
      * rewrite (IHt' H). reflexivity.
      * destruct (IHf' H) as [r ->]. eexists. reflexivity.
    + split; intros H.
      * rewrite (IHt H). reflexivity.
      * destruct (IHf H) as [r ->]. eexists. reflexivity.
Qed.

(** X10: given a content of UTF-16 code units, [write_file] either sends,
    as the [content] of its PUT, the base64 of the UTF-8 octets of the
    content, or, when the content has an unpaired surrogate, throws
    [URIError] after the existence check and issues no PUT; it never fails
    in [btoa]. *)
Theorem write_file_encodes_or_throws pat a existing sha p :
  Forall (fun c => 0 <= c < 65536) (wf_content a) ->
  encodeURIComponent (wf_path a) = Ok p ->
  existing_sha existing = Ok sha ->
  let ref := or_default (wf_branch a) (lit "main") in
  let getReq :=
    ghFetch_request (repo_path (lit "/contents/" ++ p ++ lit "?ref=" ++ ref))
      pat no_options in
  let putReq :=
    ghFetch_request (repo_path (lit "/contents/" ++ p)) pat
      (with_body "PUT"
         (JSON_stringify
            (write_file_body (wf_message a)
               (base64_encode (utf8_encode (wf_content a))) ref sha))) in
  (unpaired_surrogate (wf_content a) = false ->
   run (write_file pat a) [existing] = ([getReq; putReq], None))
  /\ (unpaired_surrogate (wf_content a) = true ->
      forall rest,
        run (write_file pat a) (existing :: rest) = ([getReq], Some (Throw URIError))).
Proof.
  intros Hunits Hp Hsha ref getReq putReq.
  destruct (encodeURIComponent_unpaired (wf_content a)) as [Ht Hf]. split.
  - intros H. destruct (Hf H) as [escaped Hescaped].
    exact (proj1 (write_file_run pat a existing sha p escaped _ Hp Hescaped
                    (write_file_content _ _ Hunits Hescaped) Hsha)).
  - intros H rest. unfold write_file. cbv zeta.
    rewrite run_lift_bind, Hp, run_ghFetch_bind.
    rewrite run_lift_bind, Hsha, run_lift_bind, (Ht H). reflexivity.
Qed.

(** An instance: a content with an emoji, a surrogate pair. *)
Lemma write_file_encodes_or_throws_witness :
  let a := {| wf_path := lit "icons.txt"; wf_content := [55357; 56513];
              wf_message := lit "Add icon"; wf_branch := None |} in
  let existing := {| status := 404; payload := lit "Not Found" |} in
  unpaired_surrogate (wf_content a) = false
  /\ option_map (fun req => body (init req))
       (nth_error (fst (run (write_file None a) [existing])) 1)
     = Some (Some (JSON_stringify
                     (JObject [(lit "message", JString (lit "Add icon"));
                               (lit "content", JString (lit "8J+TgQ=="));
                               (lit "branch", JString (lit "main"))]))).
Proof.
  intros a existing. split; [reflexivity|].
  assert (Hunits : Forall (fun c => 0 <= c < 65536) (wf_content a)).
  { repeat constructor; cbn; lia. }
  rewrite (proj1 (write_file_encodes_or_throws None a existing None (lit "icons.txt")
                    Hunits eq_refl eq_refl) eq_refl).
  vm_compute. reflexivity.
Defined.

(** ** The text of the caller in the request URL *)

Lemma percent_upper_safe b :
  0 <= b < 256 -> Forall (fun c => uri_safe c = true) (percent_upper b).
Proof.
  intros Hb.
  assert (H : forallb uri_safe (percent_upper b) = true).
  { revert b Hb. apply (below_spec 256). vm_compute. reflexivity. }
  rewrite forallb_forall in H. apply Forall_forall. exact H.
Qed.

Lemma percent_octets_safe bs :
  Forall (fun c => 0 <= c < 256) bs ->
  Forall (fun c => uri_safe c = true) (percent_octets bs).
Proof.
  induction 1 as [|b bs Hb _ IH]; unfold percent_octets; cbn [flat_map].
  - constructor.
  - apply Forall_app. split; [apply percent_upper_safe; exact Hb | exact IH].
Qed.

(** What [encodeURIComponent] returns holds no delimiter of a URL. *)
Lemma encodeURIComponent_safe s escaped :
  Forall (fun c => 0 <= c < 65536) s ->
  encodeURIComponent s = Ok escaped ->
  Forall (fun c => uri_safe c = true) escaped.
Proof.
  remember (length s) as n eqn:Hn. revert s escaped Hn.
  induction n as [n IH] using lt_wf_ind. intros s escaped Hn Hs Henc.
  destruct s as [|c rest]; cbn [encodeURIComponent] in Henc.
  { injection Henc as <-. constructor. }
  inversion_clear Hs as [|? ? Hc Hrest]. cbn [length] in Hn.
  destruct (uriUnescaped c) eqn:Hu.
  - destruct (encodeURIComponent rest) as [r|] eqn:Hr; [|discriminate Henc].
    cbn [rbind] in Henc. injection Henc as <-.
    constructor.
    + unfold uri_safe. rewrite Hu. reflexivity.
    + exact (IH (length rest) ltac:(lia) rest r eq_refl Hrest Hr).
  - destruct (is_low_surrogate c) eqn:Hlow; [discriminate Henc|].
    destruct (is_high_surrogate c) eqn:Hhigh; cbn [negb] in Henc.
    + destruct rest as [|k rest']; [discriminate Henc|].
      destruct (is_low_surrogate k) eqn:Hk; [|discriminate Henc].
      destruct (encodeURIComponent rest') as [r|] eqn:Hr; [|discriminate Henc].
      cbn [rbind] in Henc. injection Henc as <-.
      inversion_clear Hrest as [|? ? Hk' Hrest']. cbn [length] in Hn.
      apply Forall_app. split.
      * apply percent_octets_safe, utf8_octets_range.
        unfold pair_code_point, is_high_surrogate, is_low_surrogate, in_range in *.
        lia.
      * exact (IH (length rest') ltac:(lia) rest' r eq_refl Hrest' Hr).
    + destruct (encodeURIComponent rest) as [r|] eqn:Hr; [|discriminate Henc].
      cbn [rbind] in Henc. injection Henc as <-.
      apply Forall_app. split.
      * apply percent_octets_safe, utf8_octets_range. lia.
      * exact (IH (length rest) ltac:(lia) rest r eq_refl Hrest Hr).
Qed.

Lemma uri_safe_no_delimiter c :
  uri_safe c = true -> ~ In c [47; 63; 35; 38; 61; 32; 43].
Proof.
  intros Hc Hin. cbn [In] in Hin.
  repeat (destruct Hin as [<-|Hin]; [discriminate Hc|]). contradiction.
Qed.

(** X11: the path given to [read_file] or [list_files] and the query given
    to [search_files] reach the URL only through [encodeURIComponent]:
    every request of these tools has the fixed URL of its endpoint around an
    escaped text without [/], [?], [#], [&], [=], space or [+], so the
    caller's text cannot address another resource or add a parameter. *)
Theorem caller_text_is_escaped pat :
  let escaped_text (s p : jsstring) :=
    encodeURIComponent s = Ok p
    /\ Forall (fun c => ~ In c [47; 63; 35; 38; 61; 32; 43]) p in
  (forall a script,
      Forall (fun c => 0 <= c < 65536) (rf_path a) ->
      Forall (fun req => exists p,
                  escaped_text (rf_path a) p
                  /\ url req
                     = lit "https://api.github.com/repos/adamcfield/rightcraft-io/contents/"
                       ++ p ++ lit "?ref=" ++ or_default (rf_branch a) (lit "main"))
        (fst (run (read_file pat a) script)))
  /\ (forall a path script,
         lf_path a = Some path -> path <> [] ->
         Forall (fun c => 0 <= c < 65536) path ->
         Forall (fun req => exists p,
                     escaped_text path p
                     /\ url req
                        = lit "https://api.github.com/repos/adamcfield/rightcraft-io/contents/"
                          ++ p ++ lit "?ref=" ++ or_default (lf_branch a) (lit "main"))
           (fst (run (list_files pat a) script)))
  /\ (forall a script,
         Forall (fun c => 0 <= c < 65536) (sf_query a) ->
         Forall (fun req => exists q,
                     escaped_text
                       (sf_query a ++ lit " repo:adamcfield/rightcraft-io") q
                     /\ url req
                        = lit "https://api.github.com/search/code?q=" ++ q
                          ++ lit "&per_page=20")
           (fst (run (search_files pat a) script))).
Proof.
  cbv zeta.
  assert (Hsafe : forall s p,
             Forall (fun c => 0 <= c < 65536) s ->
             encodeURIComponent s = Ok p ->
             Forall (fun c => ~ In c [47; 63; 35; 38; 61; 32; 43]) p).
  { intros s p Hs Hp. eapply Forall_impl; [|exact (encodeURIComponent_safe s p Hs Hp)].
    apply uri_safe_no_delimiter. }
  split; [|split].
  - intros a script Hunits. apply requests_satisfy_run. unfold read_file. cbv zeta.
    destruct (encodeURIComponent (rf_path a)) as [p|] eqn:Hp; cbn [pbind lift];
      [|apply requests_return].
    apply requests_fetch.
    + exists p. split; [split; [reflexivity | exact (Hsafe _ _ Hunits Hp)]|].
      reflexivity.
    + intros res. walk ltac:(apply requests_return) ltac:(fail).
  - intros a path script Hpath Hne Hunits. apply requests_satisfy_run.
    unfold list_files. cbv zeta. rewrite Hpath.
    destruct path as [|c path]; [congruence|]. cbn [or_default].
    destruct (encodeURIComponent (c :: path)) as [p|] eqn:Hp; cbn [pbind lift ret];
      [|apply requests_return].
    apply requests_fetch.
    + exists p. split; [split; [reflexivity | exact (Hsafe _ _ Hunits Hp)]|].
      reflexivity.
    + intros res. walk ltac:(apply requests_return) ltac:(fail).
  - intros a script Hunits. apply requests_satisfy_run. unfold search_files.
    cbv zeta.
    assert (Hunits' : Forall (fun c => 0 <= c < 65536)
                        (sf_query a ++ lit " repo:" ++ OWNER ++ lit "/" ++ REPO)).
    { apply Forall_app. split; [exact Hunits|].
      apply Forall_forall. intros c Hc. vm_compute in Hc.
      repeat (destruct Hc as [<-|Hc]; [lia|]). contradiction. }
    destruct (encodeURIComponent (sf_query a ++ lit " repo:" ++ OWNER ++ lit "/" ++ REPO))
      as [q|] eqn:Hq; cbn [pbind lift]; [|apply requests_return].
    apply requests_fetch.
    + exists q. split; [split; [exact Hq | exact (Hsafe _ _ Hunits' Hq)]|].
      reflexivity.
    + intros res. walk ltac:(apply requests_return) ltac:(fail).
Qed.

(** An instance: a path with a slash and a space. *)
Lemma caller_text_is_escaped_witness :
  let a := {| rf_path := lit "src/my file.ts"; rf_branch := None |} in
  Forall (fun c => 0 <= c < 65536) (rf_path a)
  /\ List.map url (fst (run (read_file None a) []))
     = [lit "https://api.github.com/repos/adamcfield/rightcraft-io/contents/src%2Fmy%20file.ts?ref=main"]
  /\ Forall (fun req => exists p,
                 (encodeURIComponent (rf_path a) = Ok p
                  /\ Forall (fun c => ~ In c [47; 63; 35; 38; 61; 32; 43]) p)
                 /\ url req
                    = lit "https://api.github.com/repos/adamcfield/rightcraft-io/contents/"
                      ++ p ++ lit "?ref=" ++ or_default (rf_branch a) (lit "main"))
       (fst (run (read_file None a) [])).
Proof.
  intros a.
  assert (Hunits : Forall (fun c => 0 <= c < 65536) (rf_path a)).
  { apply Forall_forall. intros c Hc. vm_compute in Hc.
    repeat (destruct Hc as [<-|Hc]; [lia|]). contradiction. }
  split; [exact Hunits|]. split; [vm_compute; reflexivity|].
  exact (proj1 (caller_text_is_escaped None) a [] Hunits).
Defined.

(** ** [list_files] *)

Lemma list_files_run pat a p res rest :
  encodeURIComponent (or_default (lf_path a) []) = Ok p ->
  ok res = true ->
  snd (run (list_files pat a) (res :: rest))
  = match json res with
    | Ok (JArray l) =>
        match map_result list_files_line l with
        | Ok lines =>
            Some (Ok (text_envelope
                        match join nl lines with
                        | [] => lit "(empty directory)"
                        | _ :: _ => join nl lines
                        end))
        | Throw e => Some (Throw e)
        end
    | Ok _ =>
        Some (Ok (error_envelope
                    (lit "Path '" ++ or_default (lf_path a) []
                     ++ lit "' is a file, not a directory. Use read_file instead.")))
    | Throw e => Some (Throw e)
    end.
Proof.
  intros Hp Hok. unfold list_files. cbv zeta.
  destruct (or_default (lf_path a) []) as [|c dirPath] eqn:Hdir.
  - cbn [pbind ret]. rewrite run_ghFetch_bind, Hok. cbn [negb snd].
    rewrite run_lift_bind. destruct (json res) as [[| | | | |l|]|]; try reflexivity.
    rewrite run_lift_bind. destruct (map_result list_files_line l); reflexivity.
  - rewrite Hp. cbn [pbind lift ret]. rewrite run_ghFetch_bind, Hok. cbn [negb snd].
    destruct (json res) as [[| | | | |l|]|]; try reflexivity.
    destruct (map_result list_files_line l); reflexivity.
Qed.

(** X12: a successful response that is not an array makes [list_files]
    return the envelope that calls the path a file and points to
    [read_file], with the error flag set; an empty array gives the text
    [(empty directory)], without the error flag. *)
Theorem list_files_mismatch_and_empty pat a p res rest data :
  encodeURIComponent (or_default (lf_path a) []) = Ok p ->
  ok res = true ->
  json res = Ok data ->
  (isArray (Some data) = false ->
   snd (run (list_files pat a) (res :: rest))
   = Some (Ok {| content :=
                   [TextContent
                      (lit "Path '" ++ or_default (lf_path a) []
                       ++ lit "' is a file, not a directory. Use read_file instead.")];
                 isError := Some true |}))
  /\ (data = JArray [] ->
      snd (run (list_files pat a) (res :: rest))
      = Some (Ok {| content := [TextContent (lit "(empty directory)")];
                    isError := None |})).
Proof.
  intros Hp Hok Hjson. rewrite (list_files_run pat a p res rest Hp Hok), Hjson.
  split.
  - intros Harray. destruct data; try reflexivity. discriminate Harray.
  - intros ->. reflexivity.
Qed.

(** An instance: the path is a file, the upstream returns its object. *)
Lemma list_files_mismatch_and_empty_witness :
  let a := {| lf_path := Some (lit "README.md"); lf_branch := None |} in
  let data := JObject [(lit "type", JString (lit "file"));
                       (lit "content", JString (lit "SGVsbG8="))] in
  let res := {| status := 200; payload := JSON_stringify data |} in
  ok res = true
  /\ json res = Ok data
  /\ snd (run (list_files None a) [res])
     = Some (Ok (error_envelope
                   (lit "Path 'README.md' is a file, not a directory. Use read_file instead."))).
Proof.
  intros a data res.
  assert (Hjson : json res = Ok data) by (vm_compute; reflexivity).
  split; [reflexivity|]. split; [exact Hjson|].
  exact (proj1 (list_files_mismatch_and_empty None a (lit "README.md") res [] data
                  eq_refl eq_refl Hjson) eq_refl).
Defined.

Lemma list_files_line_item e d :
  dir_item e d -> list_files_line e = Ok (dir_item_line d).
Proof.
  intros (fields & -> & Htype & Hpath & Hsize). unfold list_files_line, dir_item_line.
  rewrite !prop_object, Htype, Hpath, Hsize. cbn [rbind strict_equals_string].
  destruct (di_size d) as [n|]; cbn [option_map truthy]; [|reflexivity].
  destruct (n =? 0); reflexivity.
Qed.

Lemma join_cons_nonempty sep c line lines :
  exists listing, join sep ((c :: line) :: lines) = c :: listing.
Proof. destruct lines; cbn [join app]; eexists; reflexivity. Qed.

(** X13: on a directory with at least one item, [list_files] shows one line
    per item, in the order of the upstream: the folder glyph for kind
    [dir] and the page glyph for any other kind, the path, and the size
    in bytes only when the item has one that is not zero. *)
Theorem list_files_listing pat a p res rest items ds :
  encodeURIComponent (or_default (lf_path a) []) = Ok p ->
  ok res = true ->
  json res = Ok (JArray items) ->
  Forall2 dir_item items ds ->
  ds <> [] ->
  snd (run (list_files pat a) (res :: rest))
  = Some (Ok {| content := [TextContent (join nl (List.map dir_item_line ds))];
                isError := None |}).
Proof.
  intros Hp Hok Hjson Hitems Hne.
  rewrite (list_files_run pat a p res rest Hp Hok), Hjson.
  rewrite (map_result_Forall2 list_files_line dir_item_line dir_item items ds
             list_files_line_item Hitems).
  destruct ds as [|d ds]; [congruence|]. cbn [List.map]. cbv beta iota.
  assert (Hline : exists c line, dir_item_line d = c :: line).
  { unfold dir_item_line. destruct (jsstring_eqb (di_type d) (lit "dir"));
      do 2 eexists; reflexivity. }
  destruct Hline as (c & line & ->).
  destruct (join_cons_nonempty nl c line (List.map dir_item_line ds)) as [listing Hl].
  unfold jsstring in *. rewrite Hl. reflexivity.
Qed.

(** An instance: a directory, a file and an empty file. *)
Lemma list_files_listing_witness :
  let a := {| lf_path := None; lf_branch := None |} in
  let item kind path size :=
    JObject [(lit "name", JString (lit path)); (lit "path", JString (lit path));
             (lit "type", JString (lit kind)); (lit "size", JNumber size)] in
  let items := [item "dir"%string "src"%string 0;
                item "file"%string "README.md"%string 1024;
                item "file"%string ".gitkeep"%string 0] in
  let res := {| status := 200; payload := JSON_stringify (JArray items) |} in
  json res = Ok (JArray items)
  /\ snd (run (list_files None a) [res])
     = Some (Ok {| content :=
                     [TextContent
                        ([55357; 56513] ++ lit " src" ++ [10]
                         ++ [55357; 56516] ++ lit " README.md (1024B)" ++ [10]
                         ++ [55357; 56516] ++ lit " .gitkeep")];
                   isError := None |}).
Proof.
  intros a item items res.
  assert (Hjson : json res = Ok (JArray items)) by (vm_compute; reflexivity).
  split; [exact Hjson|].
  rewrite (list_files_listing None a [] res [] items
             [{| di_type := lit "dir"; di_path := lit "src"; di_size := Some 0 |};
              {| di_type := lit "file"; di_path := lit "README.md"; di_size := Some 1024 |};
              {| di_type := lit "file"; di_path := lit ".gitkeep"; di_size := Some 0 |}]
             eq_refl eq_refl Hjson).
  - reflexivity.
  - repeat constructor; eexists; repeat split; reflexivity.
  - discriminate.
Defined.

(** ** [search_files] *)

Lemma search_item_line e path :
  search_item e path ->
  (p <- prop (Some e) (lit "path") ;;
   path_text <- toString p ;; Ok (lit "  " ++ path_text))%result
  = Ok (lit "  " ++ path).
Proof. intros (fields & -> & Hpath). rewrite prop_object, Hpath. reflexivity. Qed.

(** X14: when the upstream counts no hit, [search_files] answers
    [No results found for: <query>] without the error flag; otherwise it
    shows the total the upstream counts, which is not the number of paths
    listed, and under it the path of every hit of the page, indented. *)
Theorem search_files_results pat a q res rest fields :
  encodeURIComponent (sf_query a ++ lit " repo:" ++ OWNER ++ lit "/" ++ REPO) = Ok q ->
  ok res = true ->
  json res = Ok (JObject fields) ->
  (lookup (lit "total_count") fields = Some (JNumber 0) ->
   snd (run (search_files pat a) (res :: rest))
   = Some (Ok {| content := [TextContent (lit "No results found for: " ++ sf_query a)];
                 isError := None |}))
  /\ (forall n items paths,
         lookup (lit "total_count") fields = Some (JNumber n) ->
         n <> 0 ->
         lookup (lit "items") fields = Some (JArray items) ->
         Forall2 search_item items paths ->
         snd (run (search_files pat a) (res :: rest))
         = Some (Ok {| content :=
                         [TextContent
                            (lit "Found " ++ Number_toString n ++ lit " result(s):"
                             ++ nl
                             ++ join nl (List.map (fun p => lit "  " ++ p) paths))];
                       isError := None |})).
Proof.
  intros Hq Hok Hjson. unfold search_files. cbv zeta.
  rewrite run_lift_bind, Hq, run_ghFetch_bind, Hok. cbn [negb snd].
  rewrite run_lift_bind, Hjson, run_lift_bind, prop_object.
  split.
  - intros ->. reflexivity.
  - intros n items paths -> Hn Hitems Hpaths.
    cbn [strict_equals_number]. apply Z.eqb_neq in Hn. rewrite Hn.
    rewrite run_lift_bind, prop_object, Hitems. cbn [array_receiver].
    rewrite !run_lift_bind.
    rewrite (map_result_Forall2 _ (fun p => lit "  " ++ p) search_item items paths
               search_item_line Hpaths).
    reflexivity.
Qed.

(** An instance: two hits listed out of fifty-three counted, each with the
    score the upstream gives it. *)
Lemma search_files_results_witness :
  let a := {| sf_query := lit "ghFetch" |} in
  let hit path score :=
    JObject [(lit "name", JString (lit "x")); (lit "path", JString (lit path));
             (lit "score", score)] in
  let items := [hit "src/index.ts"%string (JDouble (Finite false 6755399441055744 (-52)));
                hit "README.md"%string (JNumber 1)] in
  let fields := [(lit "total_count", JNumber 53);
                 (lit "incomplete_results", JBool false);
                 (lit "items", JArray items)] in
  let res :=
    {| status := 200;
       payload :=
         quoted "{'total_count':53,'incomplete_results':false,'items':[{'name':'x','path':'src/index.ts','score':1.5},{'name':'x','path':'README.md','score':1.0}]}" |} in
  json res = Ok (JObject fields)
  /\ snd (run (search_files None a) [res])
     = Some (Ok {| content :=
                     [TextContent
                        (lit "Found 53 result(s):" ++ [10] ++ lit "  src/index.ts"
                         ++ [10] ++ lit "  README.md")];
                   isError := None |}).
Proof.
  intros a hit items fields res.
  assert (Hjson : json res = Ok (JObject fields)) by (vm_compute; reflexivity).
  split; [exact Hjson|].
  rewrite (proj2 (search_files_results None a
                    (lit "ghFetch%20repo%3Aadamcfield%2Frightcraft-io") res [] fields
                    eq_refl eq_refl Hjson)
             53 items [lit "src/index.ts"; lit "README.md"] eq_refl).
  - reflexivity.
  - discriminate.
  - reflexivity.
  - repeat constructor; eexists; split; reflexivity.
Defined.

(** ** [list_prs] *)

Lemma form_urlencode_safe s :
  Forall (fun c => 0 <= c < 65536) s ->
  Forall (fun c => form_safe c = true) (form_urlencode s).
Proof.
  assert (Hoctets : forall v, 0 <= v < 1114112 ->
             Forall (fun c => form_safe c = true) (percent_octets (utf8_octets v))).
  { intros v Hv. pose proof (utf8_octets_range v Hv) as Hb.
    induction Hb as [|b bs Hb _ IH]; unfold percent_octets; cbn [flat_map];
      [constructor|].
    apply Forall_app. split; [|exact IH].
    assert (H : forallb form_safe (percent_upper b) = true).
    { revert b Hb. apply (below_spec 256). vm_compute. reflexivity. }
    rewrite forallb_forall in H. apply Forall_forall. exact H. }
  remember (length s) as n eqn:Hn. revert s Hn.
  induction n as [n IH] using lt_wf_ind. intros s Hn Hs.
  destruct s as [|c rest]; cbn [form_urlencode]; [constructor|].
  inversion_clear Hs as [|? ? Hc Hrest]. cbn [length] in Hn.
  pose proof (IH (length rest) ltac:(lia) rest eq_refl Hrest) as IHrest.
  destruct (is_alnum c || existsb (Z.eqb c) [42; 45; 46; 95]) eqn:Hkeep.
  { constructor; [|exact IHrest]. unfold form_safe.
    apply orb_true_iff in Hkeep as [->|Hk]; [reflexivity|].
    cbn [existsb] in *. rewrite !orb_false_r in Hk.
    repeat (apply orb_true_iff in Hk as [Hk|Hk];
            [rewrite Hk, ?orb_true_r; reflexivity|]).
    rewrite Hk, ?orb_true_r. reflexivity. }
  destruct (c =? 32); [constructor; [reflexivity | exact IHrest]|].
  destruct (is_low_surrogate c).
  { apply Forall_app. split; [apply Hoctets; unfold replacement_character; lia|].
    exact IHrest. }
  destruct (is_high_surrogate c) eqn:Hhigh.
  - destruct rest as [|k rest'].
    + apply Hoctets. unfold replacement_character. lia.
    + destruct (is_low_surrogate k) eqn:Hk.
      * inversion_clear Hrest as [|? ? Hk' Hrest']. cbn [length] in Hn.
        apply Forall_app. split.
        -- apply Hoctets.
           unfold pair_code_point, is_high_surrogate, is_low_surrogate, in_range in *.
           lia.
        -- exact (IH (length rest') ltac:(lia) rest' eq_refl Hrest').
      * apply Forall_app. split;
          [apply Hoctets; unfold replacement_character; lia | exact IHrest].
  - apply Forall_app. split; [apply Hoctets; lia | exact IHrest].
Qed.

(** X15: [list_prs] issues one request, to [/pulls] with the query
    [state=<state>&per_page=50], the state being [open] when none is given,
    followed by [&base=...] and [&head=...] for the non-empty filters only;
    the filter values are form-encoded, so they hold no [&], [=], [#],
    [?], [/] or space. *)
Theorem list_prs_request pat a script :
  let state := match lp_state a with Some s => PrState_name s | None => lit "open" end in
  let filter name value :=
    match value with
    | Some (c :: v) => lit "&" ++ lit name ++ lit "=" ++ form_urlencode (c :: v)
    | _ => []
    end in
  List.map url (fst (run (list_prs pat a) script))
  = [lit "https://api.github.com/repos/adamcfield/rightcraft-io/pulls?state="
     ++ state ++ lit "&per_page=50"
     ++ filter "base"%string (lp_base a) ++ filter "head"%string (lp_head a)]
  /\ (forall value,
         Forall (fun c => 0 <= c < 65536) value ->
         Forall (fun c => ~ In c [38; 61; 35; 63; 47; 32]) (form_urlencode value)).
Proof.
  cbv zeta. split.
  - assert (Hone : forall p (k : Response -> Prog Envelope) req,
               p = Fetch req k ->
               (forall res, calls_at_most 0 (k res)) ->
               List.map url (fst (run p script)) = [url req]).
    { intros p k req -> Hk. cbn [run]. destruct script as [|res rest]; [reflexivity|].
      cbn [fst List.map]. pose proof (calls_at_most_trace 0 (k res) rest (Hk res)) as H.
      destruct (fst (run (k res) rest)); [reflexivity | cbn [length] in H; lia]. }
    unfold list_prs. cbv zeta. cbn [pbind ghFetch].
    erewrite Hone; [|reflexivity|intros res; cbv beta; calls].
    cbn [url ghFetch_request]. f_equal. unfold URLSearchParams_toString.
    destruct (lp_state a) as [[ | | ]|];
      destruct (lp_base a) as [[|c1 b]|]; destruct (lp_head a) as [[|c2 h]|];
      cbn [nonempty or_default app List.map fst snd join];
      rewrite ?app_nil_r;
      try generalize (form_urlencode (c1 :: b));
      try generalize (form_urlencode (c2 :: h));
      intros; vm_compute; reflexivity.
  - intros value Hvalue.
    eapply Forall_impl; [|exact (form_urlencode_safe value Hvalue)].
    intros c Hc Hin. cbn [In] in Hin.
    repeat (destruct Hin as [<-|Hin]; [discriminate Hc|]). contradiction.
Qed.

(** An instance: a closed-state listing filtered by base and by a head
    with a colon and a space. *)
Lemma list_prs_request_witness :
  let a := {| lp_state := Some StateClosed; lp_base := Some (lit "main");
              lp_head := Some (lit "adamcfield:fix it") |} in
  List.map url (fst (run (list_prs None a) []))
  = [lit "https://api.github.com/repos/adamcfield/rightcraft-io/pulls?state=closed&per_page=50&base=main&head=adamcfield%3Afix+it"]
  /\ Forall (fun c => ~ In c [38; 61; 35; 63; 47; 32])
       (form_urlencode (lit "adamcfield:fix it")).
Proof.
  intros a. destruct (list_prs_request None a []) as [Hurl Hsafe].
  split; [exact Hurl|]. apply Hsafe.
  apply Forall_forall. intros c Hc. vm_compute in Hc.
  repeat (destruct Hc as [<-|Hc]; [lia|]). contradiction.
Defined.

Lemma list_prs_line_summary e p :
  pr_summary e p -> list_prs_line e = Ok (pr_summary_lines p).
Proof.
  intros (fields & head & base & user & -> & Hnumber & Htitle & Hstate & Hdraft
          & Hhead & Hhref & Hbase & Hbref & Huser & Hlogin & Hcreated & Hurl).
  unfold list_prs_line, pr_summary_lines.
  rewrite !prop_object, Hnumber, Htitle, Hstate, Hdraft, Hhead, Hbase, Huser,
    Hcreated, Hurl.
  cbn [rbind]. rewrite !prop_object, Hhref, Hbref, Hlogin. reflexivity.
Qed.

(** X16: on a successful response [list_prs] answers
    [No <state> pull requests found.] for an empty list, without the error
    flag, and otherwise one block per pull request, in the order of the
    upstream and separated by a blank line: number, [[DRAFT]] exactly for a
    draft, state and title; the two branches, the author and the day of
    creation (the first ten characters of the timestamp); the link. *)
Theorem list_prs_listing pat a res rest prs ps :
  ok res = true ->
  json res = Ok (JArray prs) ->
  Forall2 pr_summary prs ps ->
  snd (run (list_prs pat a) (res :: rest))
  = Some (Ok {| content :=
                  [TextContent
                     match ps with
                     | [] =>
                         lit "No "
                         ++ match lp_state a with
                            | Some s => PrState_name s
                            | None => lit "open"
                            end
                         ++ lit " pull requests found."
                     | _ :: _ => join (nl ++ nl) (List.map pr_summary_lines ps)
                     end];
                isError := None |}).
Proof.
  intros Hok Hjson Hprs. unfold list_prs. cbv zeta.
  rewrite run_ghFetch_bind, Hok. cbn [negb snd].
  rewrite run_lift_bind, Hjson, run_lift_bind.
  destruct Hprs as [|e p prs ps Hep Hprs]; [reflexivity|].
  cbn [prop]. rewrite jsstring_eqb_refl. cbv beta iota.
  replace (strict_equals_number (Some (JNumber (Z.of_nat (length (e :: prs))))) 0)
    with false by (cbn [strict_equals_number length]; symmetry; apply Z.eqb_neq; lia).
  rewrite run_lift_bind. cbn [array_receiver]. rewrite run_lift_bind.
  rewrite (map_result_Forall2 list_prs_line pr_summary_lines pr_summary
             (e :: prs) (p :: ps) list_prs_line_summary
             (Forall2_cons _ _ Hep Hprs)).
  reflexivity.
Qed.

(** An instance: a draft and a ready pull request. *)
Lemma list_prs_listing_witness :
  let a := {| lp_state := None; lp_base := None; lp_head := None |} in
  let branch name := JObject [(lit "ref", JString (lit name))] in
  let pr number title draft head :=
    JObject [(lit "number", JNumber number); (lit "title", JString (lit title));
             (lit "state", JString (lit "open")); (lit "draft", JBool draft);
             (lit "head", branch head); (lit "base", branch "main"%string);
             (lit "user", JObject [(lit "login", JString (lit "adam"))]);
             (lit "created_at", JString (lit "2024-05-06T07:08:09Z"));
             (lit "html_url", JString (lit "https://github.com/o/r/pull/1"))] in
  let prs := [pr 7 "Fix"%string true "fix"%string; pr 8 "Add"%string false "add"%string] in
  let res := {| status := 200; payload := JSON_stringify (JArray prs) |} in
  json res = Ok (JArray prs)
  /\ snd (run (list_prs None a) [res])
     = Some (Ok (text_envelope
                   (lit "#7 [DRAFT] [open] Fix" ++ nl
                    ++ lit "  fix " ++ [8594] ++ lit " main by @adam (2024-05-06)" ++ nl
                    ++ lit "  https://github.com/o/r/pull/1" ++ nl ++ nl
                    ++ lit "#8 [open] Add" ++ nl
                    ++ lit "  add " ++ [8594] ++ lit " main by @adam (2024-05-06)" ++ nl
                    ++ lit "  https://github.com/o/r/pull/1"))).
Proof.
  intros a branch pr prs res.
  assert (Hjson : json res = Ok (JArray prs)) by (vm_compute; reflexivity).
  split; [exact Hjson|].
  pose (summary number title draft head :=
          {| ps_number := number; ps_title := lit title; ps_state := lit "open";
             ps_draft := draft; ps_user := lit "adam"; ps_head := lit head;
             ps_base := lit "main"; ps_created_at := lit "2024-05-06T07:08:09Z";
             ps_html_url := lit "https://github.com/o/r/pull/1" |}).
  rewrite (list_prs_listing None a res [] prs
             [summary 7 "Fix"%string true "fix"%string;
              summary 8 "Add"%string false "add"%string] eq_refl Hjson).
  - vm_compute. reflexivity.
  - apply Forall2_cons; [|apply Forall2_cons; [|apply Forall2_nil]];
      do 4 eexists; repeat split; reflexivity.
Defined.

(** ** [get_pr] *)

Lemma named_login_line r name :
  named (lit "login") r name ->
  (login <- prop (Some r) (lit "login") ;;
   login_text <- toString login ;; Ok (lit "@" ++ login_text))%result
  = Ok (lit "@" ++ name).
Proof. intros (fields & -> & H). rewrite prop_object, H. reflexivity. Qed.

Lemma named_name_value lb name :
  named (lit "name") lb name ->
  prop (Some lb) (lit "name") = Ok (Some (JString name)).
Proof. intros (fields & -> & H). rewrite prop_object, H. reflexivity. Qed.

Lemma prop_array_length items :
  prop (Some (JArray items)) (lit "length")
  = Ok (Some (JNumber (Z.of_nat (length items)))).
Proof. reflexivity. Qed.

Lemma greater_than_zero_length {A : Type} (l : list A) :
  greater_than_zero (Some (JNumber (Z.of_nat (length l))))
  = Ok (match l with [] => false | _ :: _ => true end).
Proof.
  destruct l; reflexivity.
Qed.

Lemma get_pr_lines_detail e p :
  pr_detail e p -> get_pr_lines e = Ok (pr_detail_lines p).
Proof.
  intros [(fields & head & base & user & -> & Hnumber & Htitle & Hstate & Hdraft
           & Hhead & Hhref & Hbase & Hbref & Huser & Hlogin & Hcreated & Hurl)
          (fields' & reviewers & labels & Hfields & Hbody & Hmerged & Hupdated
           & Hreviewers & Hrs & Hlabels & Hls & Hcommits & Hadditions & Hdeletions
           & Hchanged)].
  injection Hfields as <-.
  unfold get_pr_lines, pr_detail_lines. cbv zeta.
  rewrite !prop_object, Hnumber, Htitle, Hstate, Hdraft, Hhead, Hbase, Huser,
    Hcreated, Hurl, Hbody, Hmerged, Hupdated, Hreviewers, Hlabels, Hcommits,
    Hadditions, Hdeletions, Hchanged.
  cbn [rbind]. rewrite !prop_object, Hhref, Hbref, Hlogin.
  cbn [rbind slice_method]. rewrite !prop_array_length.
  cbn [rbind]. rewrite !greater_than_zero_length. cbn [rbind array_receiver].
  rewrite (map_result_Forall2 _ (fun r => lit "@" ++ r) _ reviewers (pd_reviewers p)
             named_login_line Hrs).
  rewrite (@map_result_Forall2 JSON Value jsstring
             (fun lb => prop (Some lb) (lit "name")) (fun n => Some (JString n))
             _ labels (pd_labels p) named_name_value Hls).
  assert (Hjoin : forall l,
             join_values (lit ", ") (List.map (fun n => Some (JString n)) l)
             = Ok (join (lit ", ") l)).
  { intros l. apply join_values_strings. }
  cbn [rbind]. unfold jsstring in *. rewrite Hjoin.
  destruct Hrs as [|r rn rs rns _ _]; destruct Hls as [|l ln ls lns _ _];
    destruct (pd_body p) as [[|c b]|]; reflexivity.
Qed.

(** X17: on a successful response [get_pr] shows the lines of the pull
    request joined by line feeds: the six lines of the heading (with
    [[DRAFT]] and [(merged)] exactly for a draft and for a merged request,
    and the first ten characters of the two timestamps), then the reviewers
    and the labels only when there are some, the description only when the
    body is neither [null] nor empty, and the link. *)
Theorem get_pr_detail pat a res rest pr p :
  ok res = true ->
  json res = Ok pr ->
  pr_detail pr p ->
  snd (run (get_pr pat a) (res :: rest))
  = Some (Ok {| content := [TextContent (join nl (pr_detail_lines p))];
                isError := None |}).
Proof.
  intros Hok Hjson Hpr. unfold get_pr.
  rewrite run_ghFetch_bind, Hok. cbn [negb snd].
  rewrite run_lift_bind, Hjson, run_lift_bind, (get_pr_lines_detail pr p Hpr).
  reflexivity.
Qed.

(** An instance: a merged pull request with one label, no reviewer and a
    [null] body. *)
Lemma get_pr_detail_witness :
  let a := {| pn_pull_number := 7 |} in
  let branch name := JObject [(lit "ref", JString (lit name))] in
  let pr :=
    JObject [(lit "number", JNumber 7); (lit "title", JString (lit "Fix"));
             (lit "state", JString (lit "closed")); (lit "draft", JBool false);
             (lit "merged", JBool true);
             (lit "head", branch "fix"%string); (lit "base", branch "main"%string);
             (lit "user", JObject [(lit "login", JString (lit "adam"))]);
             (lit "created_at", JString (lit "2024-05-06T07:08:09Z"));
             (lit "updated_at", JString (lit "2024-05-07T07:08:09Z"));
             (lit "requested_reviewers", JArray []);
             (lit "labels", JArray [JObject [(lit "name", JString (lit "bug"))]]);
             (lit "commits", JNumber 2); (lit "additions", JNumber 10);
             (lit "deletions", JNumber 3); (lit "changed_files", JNumber 1);
             (lit "body", JNull);
             (lit "html_url", JString (lit "https://github.com/o/r/pull/7"))] in
  let res := {| status := 200; payload := JSON_stringify pr |} in
  json res = Ok pr
  /\ snd (run (get_pr None a) [res])
     = Some (Ok (text_envelope
                   (lit "PR #7: Fix" ++ nl
                    ++ lit "State: closed (merged)" ++ nl
                    ++ lit "Author: @adam" ++ nl
                    ++ lit "Branch: fix " ++ [8594] ++ lit " main" ++ nl
                    ++ lit "Commits: 2 | +10 -3 in 1 file(s)" ++ nl
                    ++ lit "Created: 2024-05-06 | Updated: 2024-05-07" ++ nl
                    ++ lit "Labels: bug" ++ nl
                    ++ nl ++ lit "URL: https://github.com/o/r/pull/7"))).
Proof.
  intros a branch pr res.
  assert (Hjson : json res = Ok pr) by (vm_compute; reflexivity).
  split; [exact Hjson|].
  pose (detail :=
          {| pd_summary :=
               {| ps_number := 7; ps_title := lit "Fix"; ps_state := lit "closed";
                  ps_draft := false; ps_user := lit "adam"; ps_head := lit "fix";
                  ps_base := lit "main";
                  ps_created_at := lit "2024-05-06T07:08:09Z";
                  ps_html_url := lit "https://github.com/o/r/pull/7" |};
             pd_body := None; pd_merged := true;
             pd_updated_at := lit "2024-05-07T07:08:09Z";
             pd_reviewers := []; pd_labels := [lit "bug"];
             pd_commits := 2; pd_additions := 10; pd_deletions := 3;
             pd_changed_files := 1 |}).
  rewrite (get_pr_detail None a res [] pr detail eq_refl Hjson).
  - vm_compute. reflexivity.
  - split.
    + do 4 eexists. repeat split; reflexivity.
    + do 3 eexists. split; [reflexivity|].
      split; [reflexivity|]. split; [reflexivity|]. split; [reflexivity|].
      split; [reflexivity|]. split; [apply Forall2_nil|].
      split; [reflexivity|].
      split; [apply Forall2_cons; [eexists; split; reflexivity | apply Forall2_nil]|].
      repeat split; reflexivity.
Defined.

(** ** [get_file_tree] on the responses of the upstream *)

Lemma filter_result_Forall2 {A C : Type} (f : A -> Result bool) (g : C -> bool)
  (R : A -> C -> Prop) l l' :
  (forall a c, R a c -> f a = Ok (g c)) ->
  Forall2 R l l' ->
  exists r, filter_result f l = Ok r /\ Forall2 R r (filter g l').
Proof.
  intros Hf. induction 1 as [|a c l l' Hac _ (r & Hr & IH)];
    cbn [filter_result filter].
  - exists []. split; [reflexivity | constructor].
  - rewrite (Hf a c Hac), Hr. cbn [rbind].
    destruct (g c); eexists; (split; [reflexivity|]); [constructor|]; assumption.
Qed.

Lemma filter_true {A : Type} (l : list A) : filter (fun _ => true) l = l.
Proof. induction l as [|a l IH]; cbn [filter]; congruence. Qed.

Lemma tree_entry_is_blob e t :
  tree_entry e t -> is_blob e = Ok (jsstring_eqb (snd t) (lit "blob")).
Proof.
  intros (fields & -> & _ & Htype). unfold is_blob. rewrite prop_object, Htype.
  reflexivity.
Qed.

Lemma tree_entry_under_prefix prefix e t :
  tree_entry e t -> under_prefix prefix e = Ok (startsWith (fst t) prefix).
Proof.
  intros (fields & -> & Hpath & _). unfold under_prefix. rewrite prop_object, Hpath.
  reflexivity.
Qed.

Lemma tree_entry_path e t :
  tree_entry e t -> prop (Some e) (lit "path") = Ok (Some (JString (fst t))).
Proof. intros (fields & -> & Hpath & _). rewrite prop_object, Hpath. reflexivity. Qed.

(** X18: when the three hops succeed and answer with the objects the
    upstream documents (a ref with its object's sha, a commit with its
    tree's sha, a tree with its entries), [get_file_tree] returns, without
    the error flag, the number of files kept, the prefix when one is given,
    and the paths of the entries of kind [blob] whose path starts with the
    prefix, one per line in the order of the upstream; the warning follows
    exactly when the tree is marked truncated. *)
Theorem get_file_tree_on_upstream_objects pat a r1 r2 r3 rest
  ref object c1 commit tree c2 treeData entries ts truncated :
  ok r1 = true -> ok r2 = true -> ok r3 = true ->
  json r1 = Ok (JObject ref) ->
  lookup (lit "object") ref = Some (JObject object) ->
  lookup (lit "sha") object = Some (JString c1) ->
  json r2 = Ok (JObject commit) ->
  lookup (lit "tree") commit = Some (JObject tree) ->
  lookup (lit "sha") tree = Some (JString c2) ->
  json r3 = Ok (JObject treeData) ->
  lookup (lit "tree") treeData = Some (JArray entries) ->
  Forall2 tree_entry entries ts ->
  lookup (lit "truncated") treeData = Some (JBool truncated) ->
  let kept :=
    filter (fun t => match ft_path_prefix a with
                     | Some (c :: p) => startsWith (fst t) (c :: p)
                     | _ => true
                     end)
      (filter (fun t => jsstring_eqb (snd t) (lit "blob")) ts) in
  fst (run (get_file_tree pat a) (r1 :: r2 :: r3 :: rest))
  = List.map
      (fun p =>
         {| url := lit "https://api.github.com/repos/adamcfield/rightcraft-io/git/" ++ p;
            init := {| method := None; body := None;
                       headers := default_headers pat |} |})
      [lit "ref/heads/" ++ or_default (ft_branch a) (lit "main");
       lit "commits/" ++ c1;
       lit "trees/" ++ c2 ++ lit "?recursive=1"]
  /\ snd (run (get_file_tree pat a) (r1 :: r2 :: r3 :: rest))
     = Some (Ok {| content :=
                     [TextContent
                        (Number_toString (Z.of_nat (length kept)) ++ lit " files"
                         ++ match ft_path_prefix a with
                            | Some (c :: p) => lit " under '" ++ (c :: p) ++ lit "'"
                            | _ => []
                            end
                         ++ lit ":" ++ [10] ++ join [10] (List.map fst kept)
                         ++ (if truncated
                             then [10; 10] ++ lit "(tree was truncated " ++ [8212]
                                  ++ lit " repo has many files)"
                             else []))];
                   isError := None |}).
Proof.
  intros Hok1 Hok2 Hok3 Hj1 Hobject Hsha1 Hj2 Htree Hsha2 Hj3 Hentries Hts Htrunc kept.
  assert (Hrender : render_tree (ft_path_prefix a) (JObject treeData)
                    = Ok {| content :=
                     [TextContent
                        (Number_toString (Z.of_nat (length kept)) ++ lit " files"
                         ++ match ft_path_prefix a with
                            | Some (c :: p) => lit " under '" ++ (c :: p) ++ lit "'"
                            | _ => []
                            end
                         ++ lit ":" ++ [10] ++ join [10] (List.map fst kept)
                         ++ (if truncated
                             then [10; 10] ++ lit "(tree was truncated " ++ [8212]
                                  ++ lit " repo has many files)"
                             else []))];
                   isError := None |}).
  { unfold render_tree. rewrite !prop_object, Hentries, Htrunc.
    cbn [rbind array_receiver].
    destruct (filter_result_Forall2 is_blob
                (fun t => jsstring_eqb (snd t) (lit "blob")) tree_entry entries ts
                tree_entry_is_blob Hts) as (blobs & -> & Hblobs).
    cbn [rbind].
    assert (Hkept : exists es,
               match ft_path_prefix a with
               | Some (c :: r) => filter_result (under_prefix (c :: r)) blobs
               | _ => Ok blobs
               end = Ok es /\ Forall2 tree_entry es kept).
    { subst kept. destruct (ft_path_prefix a) as [[|c p]|].
      - exists blobs. split; [reflexivity|].
        cbv beta iota. rewrite filter_true. exact Hblobs.
      - exact (filter_result_Forall2 (under_prefix (c :: p))
                 (fun t => startsWith (fst t) (c :: p)) tree_entry _ _
                 (tree_entry_under_prefix (c :: p)) Hblobs).
      - exists blobs. split; [reflexivity|].
        cbv beta iota. rewrite filter_true. exact Hblobs. }
    destruct Hkept as (es & -> & Hes). cbn [rbind].
    rewrite (@map_result_Forall2 JSON Value (jsstring * jsstring)
               (fun e => prop (Some e) (lit "path")) (fun t => Some (JString (fst t)))
               tree_entry es kept tree_entry_path Hes).
    cbn [rbind truthy]. rewrite (Forall2_length Hes).
    match goal with
    | |- context [join_values nl ?l] =>
        replace (join_values nl l) with (Ok (join nl (List.map fst kept)))
    end.
    + destruct truncated; reflexivity.
    + rewrite <- join_values_strings, map_map. reflexivity. }
  unfold get_file_tree. cbv zeta.
  rewrite run_ghFetch_bind, Hok1. cbn [negb].
  rewrite run_lift_bind, Hj1, run_lift_bind, prop_object, Hobject,
    run_lift_bind, prop_object, Hsha1, run_lift_bind.
  cbn [toString JSON_toString].
  rewrite run_ghFetch_bind, Hok2. cbn [negb].
  rewrite run_lift_bind, Hj2, run_lift_bind, prop_object, Htree,
    run_lift_bind, prop_object, Hsha2, run_lift_bind.
  cbn [toString JSON_toString].
  rewrite run_ghFetch_bind, Hok3. cbn [negb].
  rewrite run_lift_bind, Hj3. cbn [fst snd run lift]. rewrite Hrender.
  split; reflexivity.
Qed.

(** An instance: a truncated tree of a directory and three files, two of
    them under [src/]. *)
Lemma get_file_tree_on_upstream_objects_witness :
  let a := {| ft_branch := Some (lit "dev"); ft_path_prefix := Some (lit "src/") |} in
  let sha_of key s := [(lit key, JObject [(lit "sha", JString (lit s))])] in
  let entry path kind :=
    JObject [(lit "path", JString (lit path)); (lit "type", JString (lit kind))] in
  let entries := [entry "src"%string "tree"%string;
                  entry "src/index.ts"%string "blob"%string;
                  entry "README.md"%string "blob"%string;
                  entry "src/util.ts"%string "blob"%string] in
  let treeData := [(lit "tree", JArray entries); (lit "truncated", JBool true)] in
  let r1 := {| status := 200;
               payload := JSON_stringify (JObject (sha_of "object"%string "c0ffee"%string)) |} in
  let r2 := {| status := 200;
               payload := JSON_stringify (JObject (sha_of "tree"%string "beef"%string)) |} in
  let r3 := {| status := 200; payload := JSON_stringify (JObject treeData) |} in
  Forall2 tree_entry entries
    [(lit "src", lit "tree"); (lit "src/index.ts", lit "blob");
     (lit "README.md", lit "blob"); (lit "src/util.ts", lit "blob")]
  /\ List.map url (fst (run (get_file_tree None a) [r1; r2; r3]))
     = [lit "https://api.github.com/repos/adamcfield/rightcraft-io/git/ref/heads/dev";
        lit "https://api.github.com/repos/adamcfield/rightcraft-io/git/commits/c0ffee";
        lit "https://api.github.com/repos/adamcfield/rightcraft-io/git/trees/beef?recursive=1"]
  /\ snd (run (get_file_tree None a) [r1; r2; r3])
     = Some (Ok {| content :=
                     [TextContent
                        (lit "2 files under 'src/':" ++ [10] ++ lit "src/index.ts"
                         ++ [10] ++ lit "src/util.ts" ++ [10; 10]
                         ++ lit "(tree was truncated " ++ [8212]
                         ++ lit " repo has many files)")];
                   isError := None |}).
Proof.
  intros a sha_of entry entries treeData r1 r2 r3.
  assert (Hts : Forall2 tree_entry entries
                  [(lit "src", lit "tree"); (lit "src/index.ts", lit "blob");
                   (lit "README.md", lit "blob"); (lit "src/util.ts", lit "blob")]).
  { repeat (apply Forall2_cons; [eexists; repeat split; reflexivity|]).
    apply Forall2_nil. }
  split; [exact Hts|].
  destruct (get_file_tree_on_upstream_objects None a r1 r2 r3 []
              (sha_of "object"%string "c0ffee"%string)
              [(lit "sha", JString (lit "c0ffee"))] (lit "c0ffee")
              (sha_of "tree"%string "beef"%string)
              [(lit "sha", JString (lit "beef"))] (lit "beef")
              treeData entries _ true
              eq_refl eq_refl eq_refl
              ltac:(vm_compute; reflexivity) eq_refl eq_refl
              ltac:(vm_compute; reflexivity) eq_refl eq_refl
              ltac:(vm_compute; reflexivity) eq_refl Hts eq_refl)
    as [Hurls Hout].
  split.
  - rewrite Hurls. vm_compute. reflexivity.
  - rewrite Hout. vm_compute. reflexivity.
Defined.

(** ** The entry point of the worker *)

(** X19: the worker answers the health document, which is well-formed
    JSON, with status 200 on [/] and [/health] only; it hands the request to
    the MCP endpoint on [/mcp] only, and to the SSE endpoint on [/sse] and
    on every path that starts with [/sse/], and on no other; every other
    path, [/mcp/] and [/ssex] among them, gets status 404 with the text
    [Not found]. *)
Theorem worker_routes pathname :
  let sse := pathname = lit "/sse" \/ exists rest, pathname = lit "/sse/" ++ rest in
  JSON_parse (JSON_stringify health_document) = Ok health_document
  /\ (worker_fetch pathname
      = Respond 200 [(lit "Content-Type", lit "application/json")]
          (JSON_stringify health_document)
      <-> pathname = lit "/" \/ pathname = lit "/health")
  /\ (worker_fetch pathname = Serve (lit "/mcp") <-> pathname = lit "/mcp")
  /\ (worker_fetch pathname = Serve (lit "/sse") <-> sse)
  /\ (worker_fetch pathname = Respond 404 [] (lit "Not found")
      <-> ~ (pathname = lit "/" \/ pathname = lit "/health"
             \/ pathname = lit "/mcp" \/ sse)).
Proof.
  cbv zeta. split; [vm_compute; reflexivity|].
  assert (Hsse : forall rest, lit "/sse/" ++ rest = 47 :: 115 :: 115 :: 101 :: 47 :: rest)
    by reflexivity.
  unfold worker_fetch.
  destruct (jsstring_eqb pathname (lit "/")) eqn:E1.
  { apply jsstring_eqb_eq in E1. subst pathname. cbn [orb].
    repeat split; intros; try discriminate; auto;
      repeat match goal with
        | H : _ \/ _ |- _ => destruct H
        | H : exists _, _ |- _ => destruct H as [? H]; rewrite Hsse in H
        | H : ~ _ |- _ => exfalso; apply H; auto
        end; try discriminate. }
  destruct (jsstring_eqb pathname (lit "/health")) eqn:E2.
  { apply jsstring_eqb_eq in E2. subst pathname. cbn [orb].
    repeat split; intros; try discriminate; auto;
      repeat match goal with
        | H : _ \/ _ |- _ => destruct H
        | H : exists _, _ |- _ => destruct H as [? H]; rewrite Hsse in H
        | H : ~ _ |- _ => exfalso; apply H; auto
        end; try discriminate. }
  cbn [orb].
  destruct (jsstring_eqb pathname (lit "/mcp")) eqn:E3.
  { apply jsstring_eqb_eq in E3. subst pathname.
    repeat split; intros; try discriminate; auto;
      repeat match goal with
        | H : _ \/ _ |- _ => destruct H
        | H : exists _, _ |- _ => destruct H as [? H]; rewrite Hsse in H
        | H : ~ _ |- _ => exfalso; apply H; auto
        end; try discriminate. }
  assert (N1 : pathname <> lit "/")
    by (intros H; apply jsstring_eqb_eq in H; congruence).
  assert (N2 : pathname <> lit "/health")
    by (intros H; apply jsstring_eqb_eq in H; congruence).
  assert (N3 : pathname <> lit "/mcp")
    by (intros H; apply jsstring_eqb_eq in H; congruence).
  destruct (jsstring_eqb pathname (lit "/sse")) eqn:E4.
  { apply jsstring_eqb_eq in E4. cbn [orb].
    repeat split; intros; try discriminate; auto; try tauto. }
  assert (N4 : pathname <> lit "/sse")
    by (intros H; apply jsstring_eqb_eq in H; congruence).
  cbn [orb].
  destruct (startsWith pathname (lit "/sse/")) eqn:E5.
  { apply startsWith_prefix in E5.
    repeat split; intros; try discriminate; auto; try tauto. }
  assert (N5 : ~ exists rest, pathname = lit "/sse/" ++ rest).
  { intros H. apply startsWith_prefix in H. congruence. }
  repeat split; intros; try discriminate; auto; try tauto.
Qed.

(** An instance: the message path of the SSE endpoint, and a path that
    only looks like the MCP endpoint. *)
Lemma worker_routes_witness :
  worker_fetch (lit "/sse/message") = Serve (lit "/sse")
  /\ worker_fetch (lit "/mcp/") = Respond 404 [] (lit "Not found").
Proof.
  split.
  - apply (proj1 (proj2 (proj2 (proj2 (worker_routes (lit "/sse/message")))))).
    right. exists (lit "message"). reflexivity.
  - apply (proj2 (proj2 (proj2 (proj2 (worker_routes (lit "/mcp/")))))).
    intros [H|[H|[H|[H|[rest H]]]]]; discriminate H.
Defined.

(** ** [request_pr_review] *)

(** X20: [request_pr_review] never reads the body of the response: it
    sends one POST whose body is the JSON of the reviewers asked for, and
    after any response with a success status, whatever its body, it
    confirms the request for the reviewers of the caller, each with an [@],
    separated by commas, and the pull number of the caller. *)
Theorem request_pr_review_trusts_the_status pat a res rest :
  ok res = true ->
  run (request_pr_review pat a) (res :: rest)
  = ([ghFetch_request
        (repo_path (lit "/pulls/" ++ Number_toString (Zpos (rr_pull_number a))
                    ++ lit "/requested_reviewers"))
        pat
        (with_body "POST"
           (JSON_stringify
              (JObject [(lit "reviewers", JArray (List.map JString (rr_reviewers a)))])))],
     Some (Ok {| content :=
                   [TextContent
                      (lit "Review requested from: "
                       ++ join (lit ", ")
                            (List.map (fun r => lit "@" ++ r) (rr_reviewers a))
                       ++ lit " on PR #"
                       ++ Number_toString (Zpos (rr_pull_number a)))];
                 isError := None |})).
Proof.
  intros Hok. unfold request_pr_review. cbv zeta.
  rewrite run_ghFetch_bind, Hok. reflexivity.
Qed.

(** An instance: a success status with a body that is not JSON. *)
Lemma request_pr_review_trusts_the_status_witness :
  let a := {| rr_pull_number := 12; rr_reviewers := [lit "ann"; lit "bob"] |} in
  let res := {| status := 201; payload := lit "<html>Created</html>" |} in
  json res = Throw SyntaxError
  /\ List.map (fun req => (method (init req), url req))
       (fst (run (request_pr_review None a) [res]))
     = [(Some (lit "POST"),
         lit "https://api.github.com/repos/adamcfield/rightcraft-io/pulls/12/requested_reviewers")]
  /\ snd (run (request_pr_review None a) [res])
     = Some (Ok (text_envelope (lit "Review requested from: @ann, @bob on PR #12"))).
Proof.
  intros a res. split; [vm_compute; reflexivity|].
  rewrite (request_pr_review_trusts_the_status None a res [] eq_refl).
  split; vm_compute; reflexivity.
Defined.

(** ** Optional arguments *)

(** X21: an optional text argument given as the empty string is treated as
    if it were not given, in every tool that has one: the branch of
    [read_file], [write_file], [list_files] and [get_file_tree] (then
    [main]), the path of [list_files] (then the root), the prefix of
    [get_file_tree], the base and head filters of [list_prs], the body of
    [create_pr], and the commit title and message of [merge_pr].  The two
    invocations are the same program: same requests, same results. *)
Theorem empty_argument_is_absent pat :
  (forall path,
      read_file pat {| rf_path := path; rf_branch := Some [] |}
      = read_file pat {| rf_path := path; rf_branch := None |})
  /\ (forall path content message,
         write_file pat {| wf_path := path; wf_content := content;
                           wf_message := message; wf_branch := Some [] |}
         = write_file pat {| wf_path := path; wf_content := content;
                             wf_message := message; wf_branch := None |})
  /\ (forall path branch,
         list_files pat {| lf_path := path; lf_branch := Some [] |}
         = list_files pat {| lf_path := path; lf_branch := None |}
         /\ list_files pat {| lf_path := Some []; lf_branch := branch |}
            = list_files pat {| lf_path := None; lf_branch := branch |})
  /\ (forall branch prefix,
         get_file_tree pat {| ft_branch := Some []; ft_path_prefix := prefix |}
         = get_file_tree pat {| ft_branch := None; ft_path_prefix := prefix |}
         /\ get_file_tree pat {| ft_branch := branch; ft_path_prefix := Some [] |}
            = get_file_tree pat {| ft_branch := branch; ft_path_prefix := None |})
  /\ (forall state base head,
         list_prs pat {| lp_state := state; lp_base := Some []; lp_head := head |}
         = list_prs pat {| lp_state := state; lp_base := None; lp_head := head |}
         /\ list_prs pat {| lp_state := state; lp_base := base; lp_head := Some [] |}
            = list_prs pat {| lp_state := state; lp_base := base; lp_head := None |})
  /\ (forall title head base draft,
         create_pr pat {| cp_title := title; cp_body := Some []; cp_head := head;
                          cp_base := base; cp_draft := draft |}
         = create_pr pat {| cp_title := title; cp_body := None; cp_head := head;
                            cp_base := base; cp_draft := draft |})
  /\ (forall number title message method,
         merge_pr pat {| mp_pull_number := number; mp_commit_title := Some [];
                         mp_commit_message := message; mp_merge_method := method |}
         = merge_pr pat {| mp_pull_number := number; mp_commit_title := None;
                           mp_commit_message := message; mp_merge_method := method |}
         /\ merge_pr pat {| mp_pull_number := number; mp_commit_title := title;
                            mp_commit_message := Some []; mp_merge_method := method |}
            = merge_pr pat {| mp_pull_number := number; mp_commit_title := title;
                              mp_commit_message := None; mp_merge_method := method |}).
Proof.
  repeat split; intros; reflexivity.
Qed.
